(** * Payment service: status reconciliation between gateway and storage

    A shallow embedding of the payment service
    (domain/models.py, domain/services.py, adapters/midtrans_adapter.py,
    adapters/webhook_handler.py, adapters/db.py) and the properties of its
    status-reconciliation protocol.

    Conventions of the embedding.
    - Python [str] is [string]; [str.lower] is modelled on ASCII letters.
      Every key of the status tables is ASCII and contains no letter "k",
      so a string carrying a non-ASCII character never lowers to a key.
    - JSON values (request bodies, gateway replies, webhook payloads,
      metadata) are the type [json]; Python [None] is [JNull]; a Python
      [dict] with string keys is an association list in insertion order.
    - [float] amounts are exact rationals. The column [amount] is
      DECIMAL(15, 2): the commit of a row whose amount rounds to 10^13 or
      more is a numeric overflow, which [save_payment] raises. A row keeps
      the amount the code assigns to it; the column rounds it to two
      decimals, so the properties about reading an amount back are stated
      for amounts with at most two decimals.
    - [datetime] values are integers (seconds).
    - The [payments] table is the list of its rows in physical order. Rows
      of one order with the same [created_at] come back from ORDER BY in an
      order the database chooses; the model lists them in physical order,
      and what is said of the first row of an order is said of orders whose
      rows differ in [created_at].
    - The database is taken to answer its queries.
    - Async functions run to completion one at a time: a coroutine is a
      computation in the monad [M] over the table and an effect log. *)

From Stdlib Require Import String Ascii List ZArith QArith Bool Lia DecimalString.
From Stdlib Require Import Sorted Permutation.
Import ListNotations.

Local Open Scope string_scope.
Local Open Scope Z_scope.

(** ** Python values *)

Definition datetime := Z.

#[local] Set Warnings "-register-all".

Inductive json : Type :=
| JNull
| JBool (b : bool)
| JNum (q : Q)
| JStr (s : string)
| JList (items : list json)
| JObj (fields : list (string * json)).

Definition dict := list (string * json).

(** [str.lower()] *)
Definition lower_char (c : ascii) : ascii :=
  let n := nat_of_ascii c in
  if (Nat.leb 65 n && Nat.leb n 90)%bool then ascii_of_nat (n + 32) else c.

Fixpoint lower (s : string) : string :=
  match s with
  | EmptyString => EmptyString
  | String c s' => String (lower_char c) (lower s')
  end.

(** Lookup in a dict with string keys. *)
Fixpoint lookup {A : Type} (k : string) (d : list (string * A)) : option A :=
  match d with
  | [] => None
  | (k', v) :: d' => if String.eqb k k' then Some v else lookup k d'
  end.

(** [d.get(k, default)] *)
Definition get_default {A : Type} (d : list (string * A)) (k : string) (default : A) : A :=
  match lookup k d with
  | Some v => v
  | None => default
  end.

(** [d.get(k)]: [None] when the key is missing. *)
Definition get (d : dict) (k : string) : json := get_default d k JNull.

(** [k in d] *)
Definition contains (d : dict) (k : string) : bool :=
  match lookup k d with
  | Some _ => true
  | None => false
  end.

(** [d[k] = v], keeping the position of an existing key. *)
Fixpoint set_item (d : dict) (k : string) (v : json) : dict :=
  match d with
  | [] => [(k, v)]
  | (k', v') :: d' =>
      if String.eqb k k' then (k, v) :: d' else (k', v') :: set_item d' k v
  end.

(** [d.update(other)] *)
Definition update (d other : dict) : dict :=
  fold_left (fun acc kv => set_item acc (fst kv) (snd kv)) other d.

(** Truth value of a Python object. *)
Definition truthy (v : json) : bool :=
  match v with
  | JNull => false
  | JBool b => b
  | JNum q => negb (Qeq_bool q 0)
  | JStr s => negb (String.eqb s "")
  | JList items => match items with [] => false | _ => true end
  | JObj fields => match fields with [] => false | _ => true end
  end.

(** [v == s] for a string [s]: only a string equals a string. *)
Definition eq_str (v : json) (s : string) : bool :=
  match v with
  | JStr s' => String.eqb s' s
  | _ => false
  end.

(** [int(x)] of a number: truncation towards zero. *)
Definition py_int (q : Q) : Z := Z.quot (Qnum q) (Zpos (Qden q)).

(** ** Exceptions *)

Inductive exn : Type :=
| ValueError (msg : string)
| TypeError (msg : string)
| AttributeError (msg : string)
| ValidationError (msg : string)
| RequestException (msg : string)
| HTTPException (status_code : Z) (detail : string).

(** Decimal rendering of an integer, as in [f"{response.status_code}"]. *)
Definition str_int (n : Z) : string := NilZero.string_of_int (Z.to_int n).

(** [str(e)]; starlette renders an HTTPException as "code: detail". *)
Definition str_exn (e : exn) : string :=
  match e with
  | ValueError msg | TypeError msg | AttributeError msg
  | ValidationError msg | RequestException msg => msg
  | HTTPException code detail => str_int code ++ ": " ++ detail
  end.

Inductive result (A : Type) : Type :=
| Ok (a : A)
| Raise (e : exn).
Arguments Ok {A} a.
Arguments Raise {A} e.

(** ** domain/models.py *)

Inductive PaymentMethod : Type :=
| CREDIT_CARD | BANK_TRANSFER | E_WALLET | QRIS | RETAIL.

Inductive PaymentStatus : Type :=
| PENDING | PROCESSING | SUCCESS | FAILED | CANCELED | REFUNDED | EXPIRED.

(** The [value] of the enum member. *)
Definition status_value (s : PaymentStatus) : string :=
  match s with
  | PENDING => "pending"
  | PROCESSING => "processing"
  | SUCCESS => "success"
  | FAILED => "failed"
  | CANCELED => "canceled"
  | REFUNDED => "refunded"
  | EXPIRED => "expired"
  end.

Definition status_eqb (a b : PaymentStatus) : bool :=
  match a, b with
  | PENDING, PENDING | PROCESSING, PROCESSING | SUCCESS, SUCCESS
  | FAILED, FAILED | CANCELED, CANCELED | REFUNDED, REFUNDED
  | EXPIRED, EXPIRED => true
  | _, _ => false
  end.

(** The name of the enum member. *)
Definition status_name (s : PaymentStatus) : string :=
  match s with
  | PENDING => "PENDING"
  | PROCESSING => "PROCESSING"
  | SUCCESS => "SUCCESS"
  | FAILED => "FAILED"
  | CANCELED => "CANCELED"
  | REFUNDED => "REFUNDED"
  | EXPIRED => "EXPIRED"
  end.

(** The library functions the service calls and whose text is not part of
    the repository: Python's [float] on a string, the formatting of a
    value that is not a string inside an f-string,
    [hashlib.sha512(s.encode()).hexdigest()], which is [None] when
    [encode] raises, and the formatting of a member of the enum
    [PaymentStatus(str, Enum)] inside an f-string, which is the value of
    the member up to Python 3.10 and "PaymentStatus." followed by its name
    from Python 3.11 on. *)
Record python : Type := {
  float_of_str : string -> option Q;
  repr : json -> string;
  sha512_hexdigest : string -> option string;
  format_status : PaymentStatus -> string
}.

Record PaymentRequest : Type := {
  req_order_id : string;
  req_amount : Q;
  req_payment_method : PaymentMethod;
  req_customer_details : dict;
  req_item_details : list json;
  req_description : option string;
  req_expiry_duration : Z
}.

Record PaymentResponse : Type := {
  id : string;
  order_id : string;
  transaction_id : string;
  amount : Q;
  status : PaymentStatus;
  payment_method : PaymentMethod;
  payment_url : option string;
  created_at : datetime;
  updated_at : datetime;
  metadata : option dict
}.

Record WebhookNotification : Type := {
  wn_transaction_id : string;
  wn_order_id : string;
  wn_transaction_status : string;
  wn_gross_amount : string;
  wn_payment_type : string;
  wn_fraud_status : option string;
  wn_signature_key : option string;
  wn_transaction_time : option string
}.

Record PaymentNotification : Type := {
  pn_transaction_id : string;
  pn_order_id : string;
  pn_status : PaymentStatus;
  pn_amount : Q;
  pn_payment_type : string;
  pn_processed_at : datetime
}.

(** Field validation of the pydantic models: a field declared [str] takes a
    string, a field declared [Optional[str]] a string or [None]. *)
Definition as_str (field : string) (v : json) : result string :=
  match v with
  | JStr s => Ok s
  | _ => Raise (ValidationError (field ++ ": Input should be a valid string"))
  end.

Definition as_optional_str (field : string) (v : json) : result (option string) :=
  match v with
  | JNull => Ok None
  | JStr s => Ok (Some s)
  | _ => Raise (ValidationError (field ++ ": Input should be a valid string"))
  end.

(** ** The [payments] table (adapters/db.py, class PaymentRecord) *)

Module PaymentRecord.

Record t : Type := {
  payment_id : string;
  order_id : string;
  status : PaymentStatus;
  amount : Q;
  payment_method : PaymentMethod;
  transaction_time : datetime;
  expiry_time : option datetime;
  payment_url : option string;
  token : json;
  redirect_url : json;
  qr_code_url : json;
  virtual_account_number : json;
  bank_code : json;
  additional_data : option dict;   (* the dict whose [json.dumps] text is stored *)
  created_at : datetime;
  updated_at : datetime
}.

End PaymentRecord.

(** ** Effects: the gateway, the clock, the table and the effect log *)

Inductive http_request : Type :=
| GET (url : string)
| POST (url : string) (data : option json).

Record response : Type := {
  status_code : Z;
  text : string;
  body : option json    (* [None]: [response.json()] raises *)
}.

Inductive http_reply : Type :=
| Unreachable (why : string)     (* requests raises a RequestException *)
| Reply (r : response).

Inductive event : Type :=
| Http (req : http_request)
| SelectById (payment_id : string)
| SelectByOrder (order_id : string)
| Insert (payment_id : string)
| Update (payment_id : string).

Record world : Type := {
  table : list PaymentRecord.t;
  log : list event      (* the effects so far, the latest first *)
}.

(** What the surroundings supply during one operation: the gateway's
    answer to each request, the readings of the clock, and the text of the
    error with which the database refuses a row. *)
Record env : Type := {
  gateway : http_request -> http_reply;
  now : datetime;       (* datetime.now() *)
  utcnow : datetime;    (* datetime.utcnow() *)
  sqlalchemy_error : PaymentRecord.t -> string    (* str(e) of the SQLAlchemyError *)
}.

Definition M (A : Type) : Type := world -> result A * world.

Definition ret {A : Type} (a : A) : M A := fun w => (Ok a, w).

Definition raise {A : Type} (e : exn) : M A := fun w => (Raise e, w).

Definition bind {A B : Type} (c : M A) (k : A -> M B) : M B :=
  fun w =>
    match c w with
    | (Ok a, w') => k a w'
    | (Raise e, w') => (Raise e, w')
    end.

(** [try: c  except Exception as e: handler e]; what [c] wrote before it
    raised stays written. *)
Definition try_except {A : Type} (c : M A) (handler : exn -> M A) : M A :=
  fun w =>
    match c w with
    | (Ok a, w') => (Ok a, w')
    | (Raise e, w') => handler e w'
    end.

Definition lift {A : Type} (r : result A) : M A := fun w => (r, w).

Definition emit (e : event) : M unit :=
  fun w => (Ok tt, {| table := table w; log := e :: log w |}).

Definition read_table : M (list PaymentRecord.t) := fun w => (Ok (table w), w).

Definition write_table (rows : list PaymentRecord.t) : M unit :=
  fun w => (Ok tt, {| table := rows; log := log w |}).

Declare Scope monad_scope.
Delimit Scope monad_scope with monad.
Notation "x <- c ;; k" := (bind c (fun x => k))
  (at level 61, c at next level, right associativity) : monad_scope.
Notation "c ;; k" := (bind c (fun _ => k))
  (at level 61, right associativity) : monad_scope.
Local Open Scope monad_scope.

(** [requests.get] / [requests.post] *)
Definition requests (E : env) (req : http_request) : M response :=
  emit (Http req) ;;
  match gateway E req with
  | Unreachable why => raise (RequestException why)
  | Reply r => ret r
  end.

(** [response.json()]; the decoding error of requests is a
    RequestException. *)
Definition response_json (r : response) : result json :=
  match body r with
  | Some v => Ok v
  | None => Raise (RequestException "Expecting value: line 1 column 1 (char 0)")
  end.

(** [response.raise_for_status()] *)
Definition raise_for_status (url : string) (r : response) : result unit :=
  if (400 <=? status_code r) && (status_code r <? 600)
  then Raise (RequestException (str_int (status_code r) ++ " Error for url: " ++ url))
  else Ok tt.

(** The attribute [.get] exists on a dict only. *)
Definition as_dict (v : json) : result dict :=
  match v with
  | JObj fields => Ok fields
  | _ => Raise (AttributeError "object has no attribute 'get'")
  end.

(** A value inside an f-string. *)
Definition format_value (py : python) (v : json) : string :=
  match v with
  | JStr s => s
  | JNull => "None"
  | JBool true => "True"
  | JBool false => "False"
  | _ => repr py v
  end.

(** [float(v)] *)
Definition py_float (py : python) (v : json) : result Q :=
  match v with
  | JNum q => Ok q
  | JBool b => Ok (if b then 1%Q else 0%Q)
  | JStr s =>
      match float_of_str py s with
      | Some q => Ok q
      | None => Raise (ValueError ("could not convert string to float: " ++ repr py v))
      end
  | _ => Raise (TypeError "float() argument must be a string or a real number")
  end.

(** ** adapters/db.py *)

Module DatabaseAdapter.

(** [session.query(PaymentRecord).filter_by(payment_id=...).first()] *)
Definition query_first (payment_id : string) : M (option PaymentRecord.t) :=
  emit (SelectById payment_id) ;;
  rows <- read_table ;;
  ret (find (fun r => String.eqb (PaymentRecord.payment_id r) payment_id) rows).

(** The row a session object stands for is written back under its key. *)
Fixpoint replace_row (record : PaymentRecord.t) (rows : list PaymentRecord.t)
  : list PaymentRecord.t :=
  match rows with
  | [] => []
  | r :: rest =>
      if String.eqb (PaymentRecord.payment_id r) (PaymentRecord.payment_id record)
      then record :: rest
      else r :: replace_row record rest
  end.

(** [session.commit()] after the attributes of a loaded row were set. *)
Definition commit_update (record : PaymentRecord.t) : M unit :=
  emit (Update (PaymentRecord.payment_id record)) ;;
  rows <- read_table ;;
  write_table (replace_row record rows).

(** [session.add(new_payment); session.commit()] *)
Definition commit_insert (record : PaymentRecord.t) : M unit :=
  emit (Insert (PaymentRecord.payment_id record)) ;;
  rows <- read_table ;;
  write_table (rows ++ [record]).

Definition put_if_set (key : string) (column : json) (metadata : dict) : dict :=
  if truthy column then set_item metadata key column else metadata.

Definition _payment_record_to_response (record : PaymentRecord.t) : PaymentResponse :=
  let metadata := [] in
  let metadata := put_if_set "token" (PaymentRecord.token record) metadata in
  let metadata := put_if_set "redirect_url" (PaymentRecord.redirect_url record) metadata in
  let metadata := put_if_set "qr_code_url" (PaymentRecord.qr_code_url record) metadata in
  let metadata :=
    put_if_set "virtual_account_number"
      (PaymentRecord.virtual_account_number record) metadata in
  let metadata := put_if_set "bank_code" (PaymentRecord.bank_code record) metadata in
  let metadata :=
    match PaymentRecord.additional_data record with
    | Some additional => update metadata additional
    | None => metadata
    end in
  {| id := PaymentRecord.payment_id record;
     order_id := PaymentRecord.order_id record;
     transaction_id := PaymentRecord.payment_id record;
     amount := PaymentRecord.amount record;
     status := PaymentRecord.status record;
     payment_method := PaymentRecord.payment_method record;
     payment_url := PaymentRecord.payment_url record;
     created_at := PaymentRecord.created_at record;
     updated_at := PaymentRecord.updated_at record;
     metadata := match metadata with [] => None | _ => Some metadata end |}.

(** The six assignments under [if payment.metadata:]. *)
Definition with_metadata (payment : PaymentResponse) (record : PaymentRecord.t)
  : PaymentRecord.t :=
  match metadata payment with
  | Some ((_ :: _) as md) =>
      {| PaymentRecord.payment_id := PaymentRecord.payment_id record;
         PaymentRecord.order_id := PaymentRecord.order_id record;
         PaymentRecord.status := PaymentRecord.status record;
         PaymentRecord.amount := PaymentRecord.amount record;
         PaymentRecord.payment_method := PaymentRecord.payment_method record;
         PaymentRecord.transaction_time := PaymentRecord.transaction_time record;
         PaymentRecord.expiry_time := PaymentRecord.expiry_time record;
         PaymentRecord.payment_url := PaymentRecord.payment_url record;
         PaymentRecord.token := get md "token";
         PaymentRecord.redirect_url := get md "redirect_url";
         PaymentRecord.qr_code_url := get md "qr_code_url";
         PaymentRecord.virtual_account_number := get md "virtual_account_number";
         PaymentRecord.bank_code := get md "bank_code";
         PaymentRecord.additional_data := Some md;
         PaymentRecord.created_at := PaymentRecord.created_at record;
         PaymentRecord.updated_at := PaymentRecord.updated_at record |}
  | _ => record
  end.

(** The branch [if existing:] of [save_payment]. *)
Definition overwrite (E : env) (existing : PaymentRecord.t) (payment : PaymentResponse)
  : PaymentRecord.t :=
  with_metadata payment
    {| PaymentRecord.payment_id := PaymentRecord.payment_id existing;
       PaymentRecord.order_id := PaymentRecord.order_id existing;
       PaymentRecord.status := status payment;
       PaymentRecord.amount := amount payment;
       PaymentRecord.payment_method := payment_method payment;
       PaymentRecord.transaction_time := created_at payment;
       PaymentRecord.expiry_time := PaymentRecord.expiry_time existing;
       PaymentRecord.payment_url := payment_url payment;
       PaymentRecord.token := PaymentRecord.token existing;
       PaymentRecord.redirect_url := PaymentRecord.redirect_url existing;
       PaymentRecord.qr_code_url := PaymentRecord.qr_code_url existing;
       PaymentRecord.virtual_account_number :=
         PaymentRecord.virtual_account_number existing;
       PaymentRecord.bank_code := PaymentRecord.bank_code existing;
       PaymentRecord.additional_data := PaymentRecord.additional_data existing;
       PaymentRecord.created_at := PaymentRecord.created_at existing;
       PaymentRecord.updated_at := utcnow E |}.

(** The branch [else:] of [save_payment]. *)
Definition new_payment (payment : PaymentResponse) : PaymentRecord.t :=
  with_metadata payment
    {| PaymentRecord.payment_id := id payment;
       PaymentRecord.order_id := order_id payment;
       PaymentRecord.status := status payment;
       PaymentRecord.amount := amount payment;
       PaymentRecord.payment_method := payment_method payment;
       PaymentRecord.transaction_time := created_at payment;
       PaymentRecord.expiry_time := None;
       PaymentRecord.payment_url := payment_url payment;
       PaymentRecord.token := JNull;
       PaymentRecord.redirect_url := JNull;
       PaymentRecord.qr_code_url := JNull;
       PaymentRecord.virtual_account_number := JNull;
       PaymentRecord.bank_code := JNull;
       PaymentRecord.additional_data := None;
       PaymentRecord.created_at := created_at payment;
       PaymentRecord.updated_at := updated_at payment |}.

(** The column [amount = Column(DECIMAL(15, 2), nullable=False)]: the
    database rounds the value to two decimals, half away from zero, and a
    value that then needs more than thirteen digits before the point is a
    numeric overflow. *)
Definition round_half_away (q : Q) : Z :=
  Z.sgn (Qnum q) * ((2 * Z.abs (Qnum q) + Zpos (Qden q)) / (2 * Zpos (Qden q))).

Definition fits_decimal_15_2 (q : Q) : bool :=
  Z.abs (round_half_away (q * inject_Z 100)%Q) <? 10 ^ 15.

(** [session.commit()] under [except SQLAlchemyError] in [save_payment]:
    the row is written, or the database refuses its amount, the session is
    rolled back and a ValueError is raised. *)
Definition commit_or_rollback (E : env) (record : PaymentRecord.t)
  (commit : PaymentRecord.t -> M unit) : M unit :=
  if fits_decimal_15_2 (PaymentRecord.amount record) then commit record
  else raise (ValueError ("Failed to save payment: " ++ sqlalchemy_error E record)).

Definition save_payment (E : env) (payment : PaymentResponse) : M unit :=
  existing <- query_first (id payment) ;;
  match existing with
  | Some existing => commit_or_rollback E (overwrite E existing payment) commit_update
  | None => commit_or_rollback E (new_payment payment) commit_insert
  end.

Definition get_payment (payment_id : string) : M (option PaymentResponse) :=
  record <- query_first payment_id ;;
  match record with
  | Some record => ret (Some (_payment_record_to_response record))
  | None => ret None
  end.

(** [record.status = status; record.updated_at = datetime.utcnow()] *)
Definition set_status (E : env) (record : PaymentRecord.t) (new_status : PaymentStatus)
  : PaymentRecord.t :=
  {| PaymentRecord.payment_id := PaymentRecord.payment_id record;
     PaymentRecord.order_id := PaymentRecord.order_id record;
     PaymentRecord.status := new_status;
     PaymentRecord.amount := PaymentRecord.amount record;
     PaymentRecord.payment_method := PaymentRecord.payment_method record;
     PaymentRecord.transaction_time := PaymentRecord.transaction_time record;
     PaymentRecord.expiry_time := PaymentRecord.expiry_time record;
     PaymentRecord.payment_url := PaymentRecord.payment_url record;
     PaymentRecord.token := PaymentRecord.token record;
     PaymentRecord.redirect_url := PaymentRecord.redirect_url record;
     PaymentRecord.qr_code_url := PaymentRecord.qr_code_url record;
     PaymentRecord.virtual_account_number := PaymentRecord.virtual_account_number record;
     PaymentRecord.bank_code := PaymentRecord.bank_code record;
     PaymentRecord.additional_data := PaymentRecord.additional_data record;
     PaymentRecord.created_at := PaymentRecord.created_at record;
     PaymentRecord.updated_at := utcnow E |}.

Definition update_payment_status (E : env) (payment_id : string) (new_status : PaymentStatus)
  : M unit :=
  record <- query_first payment_id ;;
  match record with
  | Some record => commit_update (set_status E record new_status)
  | None => raise (ValueError ("Payment with ID " ++ payment_id ++ " not found"))
  end.

(** [ORDER BY created_at DESC]. The database returns rows with the same
    [created_at] in an order of its choice; this sort lists them in
    physical order, which is one such choice. *)
Fixpoint insert_desc (r : PaymentRecord.t) (sorted : list PaymentRecord.t)
  : list PaymentRecord.t :=
  match sorted with
  | [] => [r]
  | x :: rest =>
      if PaymentRecord.created_at x <=? PaymentRecord.created_at r
      then r :: x :: rest
      else x :: insert_desc r rest
  end.

Definition order_by_created_at_desc (rows : list PaymentRecord.t) : list PaymentRecord.t :=
  fold_right insert_desc [] rows.

Definition get_payments_by_order (order_id : string) : M (list PaymentResponse) :=
  emit (SelectByOrder order_id) ;;
  rows <- read_table ;;
  let records :=
    order_by_created_at_desc
      (filter (fun r => String.eqb (PaymentRecord.order_id r) order_id) rows) in
  ret (map _payment_record_to_response records).

(** The alias kept for compatibility. *)
Definition get_payments_by_order_id (order_id : string) : M (list PaymentResponse) :=
  get_payments_by_order order_id.

End DatabaseAdapter.

(** ** adapters/midtrans_adapter.py *)

Module MidtransAdapter.

Record config : Type := {
  server_key : string;
  client_key : string;
  is_production : bool
}.

Definition api_url (self : config) : string :=
  if is_production self
  then "https://api.midtrans.com/v2"
  else "https://api.sandbox.midtrans.com/v2".

Definition snap_url (self : config) : string :=
  if is_production self
  then "https://app.midtrans.com/snap/v1/transactions"
  else "https://app.sandbox.midtrans.com/snap/v1/transactions".

Definition _map_payment_method (payment_method : PaymentMethod) : dict :=
  match payment_method with
  | CREDIT_CARD =>
      [("enabled_payments", JList [JStr "credit_card"]);
       ("credit_card", JObj [("secure", JBool true)])]
  | BANK_TRANSFER =>
      [("enabled_payments", JList [JStr "bank_transfer"]);
       ("bank_transfer", JObj [("bank", JStr "bca")])]
  | E_WALLET =>
      [("enabled_payments", JList [JStr "gopay"]);
       ("gopay", JObj [("enable_callback", JBool true)])]
  | QRIS =>
      [("enabled_payments", JList [JStr "qris"]);
       ("qris", JObj [("acquirer", JStr "gopay")])]
  | RETAIL =>
      [("enabled_payments", JList [JStr "cstore"]);
       ("cstore", JObj [("store", JStr "indomaret")])]
  end.

Definition num (n : Z) : json := JNum (inject_Z n).

(** The detail of a reply that is not 201: [error_messages] of a JSON
    object, the text of the reply otherwise. *)
Definition error_detail (py : python) (r : response) : string :=
  match body r with
  | Some (JObj error_json) =>
      format_value py (get_default error_json "error_messages" (JList [JStr (text r)]))
  | _ => text r
  end.

Definition create_payment (py : python) (self : config) (E : env)
  (payment_request : PaymentRequest) : M PaymentResponse :=
  let transaction_time := now E in
  if String.eqb (req_order_id payment_request) "" then
    raise (ValueError "Order ID is required")
  else if Qeq_bool (req_amount payment_request) 0
          || Qle_bool (req_amount payment_request) 0 then
    raise (ValueError "Amount must be greater than 0")
  else
    let payload :=
      [("transaction_details",
        JObj [("order_id", JStr (req_order_id payment_request));
              ("gross_amount", num (py_int (req_amount payment_request)))]);
       ("customer_details", JObj (req_customer_details payment_request));
       ("item_details", JList (req_item_details payment_request))] in
    let payload :=
      if req_expiry_duration payment_request =? 0 then payload
      else set_item payload "expiry"
             (JObj [("unit", JStr "hour");
                    ("duration", num (req_expiry_duration payment_request))]) in
    let payment_config := _map_payment_method (req_payment_method payment_request) in
    let payload := update payload payment_config in
    try_except
      (response <- requests E (POST (snap_url self) (Some (JObj payload))) ;;
       if negb (status_code response =? 201) then
         raise (ValueError ("Midtrans API error: " ++ str_int (status_code response)
                            ++ " - " ++ error_detail py response))
       else
         result <- lift (response_json response) ;;
         fields <- lift (as_dict result) ;;
         let metadata :=
           [("token", get fields "token");
            ("redirect_url", get fields "redirect_url");
            ("midtrans_response", result);
            ("payment_config", JObj payment_config);
            ("expiry_duration", num (req_expiry_duration payment_request))] in
         url <- lift (as_optional_str "payment_url" (get fields "redirect_url")) ;;
         ret {| id := "payment-" ++ req_order_id payment_request;
                order_id := req_order_id payment_request;
                transaction_id := req_order_id payment_request;
                amount := req_amount payment_request;
                status := PENDING;
                payment_method := req_payment_method payment_request;
                payment_url := url;
                created_at := transaction_time;
                updated_at := transaction_time;
                metadata := Some metadata |})
      (fun e =>
         match e with
         | RequestException msg =>
             raise (ValueError ("Failed to create payment with Midtrans: " ++ msg))
         | _ => raise (ValueError ("Unexpected error creating payment: " ++ str_exn e))
         end).

(** [status_mapping.get(key, default)] where the key came out of a JSON
    document: a list or an object cannot be hashed. *)
Definition mapping_get (mapping : list (string * PaymentStatus)) (key : json)
  (default : PaymentStatus) : result PaymentStatus :=
  match key with
  | JStr s => Ok (get_default mapping s default)
  | JList _ | JObj _ => Raise (TypeError "unhashable type")
  | _ => Ok default
  end.

(** The table inside [get_payment_status] (the definition at the end of
    the class, which replaces the earlier one of the same name). *)
Definition status_mapping : list (string * PaymentStatus) :=
  [("capture", SUCCESS); ("settlement", SUCCESS); ("pending", PENDING);
   ("deny", FAILED); ("cancel", CANCELED); ("expire", EXPIRED);
   ("refund", REFUNDED); ("partial_refund", REFUNDED)].

Definition get_payment_status (self : config) (E : env) (order_id : string)
  : M PaymentStatus :=
  try_except
    (let status_url := api_url self ++ "/" ++ order_id ++ "/status" in
     response <- requests E (GET status_url) ;;
     if status_code response =? 200 then
       result <- lift (response_json response) ;;
       fields <- lift (as_dict result) ;;
       let transaction_status := get fields "transaction_status" in
       let fraud_status := get fields "fraud_status" in
       if eq_str fraud_status "deny" then ret FAILED
       else lift (mapping_get status_mapping transaction_status PENDING)
     else if status_code response =? 404 then ret PENDING
     else ret PENDING)
    (fun _ => ret PENDING).

(** The common part of [cancel_payment] and [refund_payment]: the reply to
    the POST becomes a PaymentResponse. *)
Definition gateway_payment (py : python) (E : env) (transaction_id : string)
  (reply : json) (amount : result Q) (new_status : PaymentStatus)
  : result PaymentResponse :=
  match as_dict reply with
  | Raise e => Raise e
  | Ok fields =>
      match amount with
      | Raise e => Raise e
      | Ok amount =>
          match as_str "order_id" (get_default fields "order_id" (JStr transaction_id)) with
          | Raise e => Raise e
          | Ok order_id =>
              Ok {| id := "payment-" ++ transaction_id;
                    order_id := order_id;
                    transaction_id := transaction_id;
                    amount := amount;
                    status := new_status;
                    payment_method := CREDIT_CARD;
                    payment_url := None;
                    created_at := now E;
                    updated_at := now E;
                    metadata := Some fields |}
          end
      end
  end.

Definition cancel_payment (py : python) (self : config) (E : env)
  (transaction_id : string) : M PaymentResponse :=
  try_except
    (let url := api_url self ++ "/" ++ transaction_id ++ "/cancel" in
     response <- requests E (POST url None) ;;
     lift (raise_for_status url response) ;;
     result <- lift (response_json response) ;;
     lift (gateway_payment py E transaction_id result
             (match as_dict result with
              | Ok fields => py_float py (get_default fields "gross_amount" (num 0))
              | Raise e => Raise e
              end) CANCELED))
    (fun e =>
       match e with
       | RequestException msg => raise (ValueError ("Failed to cancel payment: " ++ msg))
       | _ => raise e
       end).

Definition refund_payment (py : python) (self : config) (E : env)
  (transaction_id : string) (amount : option Q) : M PaymentResponse :=
  try_except
    (amount <-
       match amount with
       | Some amount => ret amount
       | None =>
           let status_url := api_url self ++ "/" ++ transaction_id ++ "/status" in
           status_response <- requests E (GET status_url) ;;
           lift (raise_for_status status_url status_response) ;;
           status_result <- lift (response_json status_response) ;;
           fields <- lift (as_dict status_result) ;;
           lift (py_float py (get_default fields "gross_amount" (num 0)))
       end ;;
     let refund_payload :=
       [("refund_key", JStr ("refund-" ++ transaction_id ++ "-" ++ str_int (now E)));
        ("amount", num (py_int amount));
        ("reason", JStr "Customer requested refund")] in
     let url := api_url self ++ "/" ++ transaction_id ++ "/refund" in
     response <- requests E (POST url (Some (JObj refund_payload))) ;;
     lift (raise_for_status url response) ;;
     result <- lift (response_json response) ;;
     lift (gateway_payment py E transaction_id result (Ok amount) REFUNDED))
    (fun e =>
       match e with
       | RequestException msg => raise (ValueError ("Failed to refund payment: " ++ msg))
       | _ => raise e
       end).

(** [v.lower()] exists on a string only. *)
Definition str_lower (v : json) : result string :=
  match v with
  | JStr s => Ok (lower s)
  | _ => Raise (AttributeError "object has no attribute 'lower'")
  end.

(** The table inside [handle_notification]. *)
Definition notification_status_mapping : list (string * PaymentStatus) :=
  [("pending", PENDING); ("capture", SUCCESS); ("settlement", SUCCESS);
   ("deny", FAILED); ("cancel", CANCELED); ("expire", EXPIRED);
   ("refund", REFUNDED); ("partial_refund", REFUNDED)].

(** The lines after the [try] statement of [handle_notification] are never
    reached and are left out. *)
Definition handle_notification (py : python) (E : env) (notification_data : dict)
  : M PaymentNotification :=
  try_except
    (let transaction_id := get_default notification_data "transaction_id" (JStr "") in
     let order_id := get_default notification_data "order_id" (JStr "") in
     let transaction_status :=
       get_default notification_data "transaction_status" (JStr "") in
     gross_amount <-
       lift (py_float py (get_default notification_data "gross_amount" (num 0))) ;;
     let payment_type := get_default notification_data "payment_type" (JStr "") in
     lowered <- lift (str_lower transaction_status) ;;
     let status := get_default notification_status_mapping lowered PENDING in
     transaction_id <- lift (as_str "transaction_id" transaction_id) ;;
     order_id <- lift (as_str "order_id" order_id) ;;
     payment_type <- lift (as_str "payment_type" payment_type) ;;
     ret {| pn_transaction_id := transaction_id;
            pn_order_id := order_id;
            pn_status := status;
            pn_amount := gross_amount;
            pn_payment_type := payment_type;
            pn_processed_at := now E |})
    (fun e => raise (ValueError ("Failed to process notification: " ++ str_exn e))).

(** [handle_webhook]: the notification turned into a payment; the id is
    built from the transaction id of the gateway. *)
Definition handle_webhook (py : python) (E : env) (notification_data : dict)
  : M PaymentResponse :=
  try_except
    (let transaction_id := get_default notification_data "transaction_id" (JStr "") in
     let order_id := get_default notification_data "order_id" (JStr "") in
     let transaction_status :=
       get_default notification_data "transaction_status" (JStr "") in
     gross_amount <-
       lift (py_float py (get_default notification_data "gross_amount" (num 0))) ;;
     lowered <- lift (str_lower transaction_status) ;;
     let status := get_default notification_status_mapping lowered PENDING in
     let payment_id := "payment-" ++ format_value py transaction_id in
     order_id <- lift (as_str "order_id" order_id) ;;
     transaction_id <- lift (as_str "transaction_id" transaction_id) ;;
     ret {| id := payment_id;
            order_id := order_id;
            transaction_id := transaction_id;
            amount := gross_amount;
            status := status;
            payment_method := CREDIT_CARD;
            payment_url := None;
            created_at := now E;
            updated_at := now E;
            metadata := Some notification_data |})
    (fun e => raise (ValueError ("Failed to process webhook: " ++ str_exn e))).

End MidtransAdapter.

(** ** adapters/webhook_handler.py *)

Module WebhookHandler.

Definition verify_signature (py : python) (server_key : string) (notification_data : dict)
  : bool :=
  let order_id := get notification_data "order_id" in
  let status_code := get notification_data "status_code" in
  let gross_amount := get notification_data "gross_amount" in
  let signature_key := get notification_data "signature_key" in
  let signature_string :=
    format_value py order_id ++ format_value py status_code
    ++ format_value py gross_amount ++ server_key in
  match sha512_hexdigest py signature_string with
  | Some calculated_signature => eq_str signature_key calculated_signature
  | None => false
  end.

Definition required_fields : list string :=
  ["transaction_id"; "order_id"; "transaction_status"; "gross_amount"; "payment_type"].

Fixpoint check_required (fields : list string) (notification_data : dict) : result unit :=
  match fields with
  | [] => Ok tt
  | field :: rest =>
      if contains notification_data field then check_required rest notification_data
      else Raise (HTTPException 400 ("Missing required field: " ++ field))
  end.

Definition and_then {A B : Type} (r : result A) (k : A -> result B) : result B :=
  match r with
  | Ok a => k a
  | Raise e => Raise e
  end.

Definition parse_notification (notification_data : dict) : result WebhookNotification :=
  and_then (check_required required_fields notification_data) (fun _ =>
  and_then (as_str "transaction_id" (get notification_data "transaction_id")) (fun a =>
  and_then (as_str "order_id" (get notification_data "order_id")) (fun b =>
  and_then (as_str "transaction_status" (get notification_data "transaction_status")) (fun c =>
  and_then (as_str "gross_amount" (get notification_data "gross_amount")) (fun d =>
  and_then (as_str "payment_type" (get notification_data "payment_type")) (fun e =>
  and_then (as_optional_str "fraud_status" (get notification_data "fraud_status")) (fun f =>
  and_then (as_optional_str "signature_key" (get notification_data "signature_key")) (fun g =>
  and_then (as_optional_str "transaction_time" (get notification_data "transaction_time"))
    (fun h =>
  Ok {| wn_transaction_id := a;
        wn_order_id := b;
        wn_transaction_status := c;
        wn_gross_amount := d;
        wn_payment_type := e;
        wn_fraud_status := f;
        wn_signature_key := g;
        wn_transaction_time := h |}))))))))).

Definition status_mapping : list (string * PaymentStatus) :=
  [("capture", SUCCESS); ("settlement", SUCCESS); ("pending", PENDING);
   ("deny", FAILED); ("cancel", CANCELED); ("expire", EXPIRED);
   ("refund", REFUNDED); ("partial_refund", REFUNDED)].

Definition map_status_to_payment_status (transaction_status : string)
  (fraud_status : option string) : PaymentStatus :=
  match fraud_status with
  | Some "deny" => FAILED
  | _ => get_default status_mapping (lower transaction_status) PENDING
  end.

(** [payment_repository] is the storage adapter the route passes in. *)
Definition process_webhook (py : python) (server_key : string) (E : env)
  (notification_data : dict) (verify : bool) : M dict :=
  try_except
    (if verify && negb (verify_signature py server_key notification_data) then
       raise (HTTPException 401 "Invalid signature")
     else
       notification <- lift (parse_notification notification_data) ;;
       let new_status :=
         map_status_to_payment_status
           (wn_transaction_status notification) (wn_fraud_status notification) in
       payments <- DatabaseAdapter.get_payments_by_order (wn_order_id notification) ;;
       match payments with
       | [] => ret [("status", JStr "warning"); ("message", JStr "Payment not found")]
       | payment :: _ =>
           (if negb (status_eqb (status payment) new_status)
            then DatabaseAdapter.update_payment_status E (id payment) new_status
            else ret tt) ;;
           ret [("status", JStr "success");
                ("message", JStr "Notification processed successfully");
                ("payment_id", JStr (id payment));
                ("old_status", JStr (status_value (status payment)));
                ("new_status", JStr (status_value new_status))]
       end)
    (fun e =>
       match e with
       | HTTPException _ _ => raise e
       | _ => raise (HTTPException 500 ("Failed to process webhook: " ++ str_exn e))
       end).

End WebhookHandler.

(** ** domain/services.py

    The service is wired as in routes/payment.py: the gateway port is the
    Midtrans adapter, the storage port the database adapter. A status
    inside an f-string is rendered by [format_status]. *)

Module PaymentService.

Definition create_payment (py : python) (self : MidtransAdapter.config) (E : env)
  (payment_request : PaymentRequest) : M PaymentResponse :=
  try_except
    (payment_response <- MidtransAdapter.create_payment py self E payment_request ;;
     DatabaseAdapter.save_payment E payment_response ;;
     ret payment_response)
    (fun e => raise (ValueError ("Failed to create payment: " ++ str_exn e))).

Definition get_payment (self : MidtransAdapter.config) (E : env) (payment_id : string)
  : M (option PaymentResponse) :=
  try_except
    (payment <- DatabaseAdapter.get_payment payment_id ;;
     match payment with
     | None => ret None
     | Some payment =>
         if status_eqb (status payment) PENDING || status_eqb (status payment) PROCESSING
         then
           try_except
             (latest_status <-
                MidtransAdapter.get_payment_status self E (order_id payment) ;;
              if negb (status_eqb latest_status (status payment)) then
                DatabaseAdapter.update_payment_status E (id payment) latest_status ;;
                DatabaseAdapter.get_payment (id payment)
              else ret (Some payment))
             (fun _ => ret (Some payment))
         else ret (Some payment)
     end)
    (fun e => raise (ValueError ("Failed to get payment: " ++ str_exn e))).

Definition get_payment_status (self : MidtransAdapter.config) (E : env)
  (payment_id : string) : M PaymentStatus :=
  payment <- DatabaseAdapter.get_payment payment_id ;;
  match payment with
  | None => raise (ValueError ("Payment with ID " ++ payment_id ++ " not found"))
  | Some payment =>
      try_except
        (latest_status <- MidtransAdapter.get_payment_status self E (order_id payment) ;;
         if negb (status_eqb latest_status (status payment)) then
           DatabaseAdapter.update_payment_status E payment_id latest_status ;;
           ret latest_status
         else ret (status payment))
        (fun _ => ret (status payment))
  end.

Definition cancel_payment (py : python) (self : MidtransAdapter.config) (E : env)
  (payment_id : string) : M (option PaymentResponse) :=
  payment <- DatabaseAdapter.get_payment payment_id ;;
  match payment with
  | None => raise (ValueError ("Payment with ID " ++ payment_id ++ " not found"))
  | Some payment =>
      if negb (status_eqb (status payment) PENDING || status_eqb (status payment) PROCESSING)
      then
        raise (ValueError ("Cannot cancel payment with status: "
                           ++ format_status py (status payment)))
      else
        updated_payment <- MidtransAdapter.cancel_payment py self E (order_id payment) ;;
        DatabaseAdapter.update_payment_status E payment_id CANCELED ;;
        DatabaseAdapter.get_payment payment_id
  end.

Definition refund_payment (py : python) (self : MidtransAdapter.config) (E : env)
  (payment_id : string) (amount : option Q) : M (option PaymentResponse) :=
  payment <- DatabaseAdapter.get_payment payment_id ;;
  match payment with
  | None => raise (ValueError ("Payment with ID " ++ payment_id ++ " not found"))
  | Some payment =>
      if negb (status_eqb (status payment) SUCCESS) then
        raise (ValueError ("Cannot refund payment with status: "
                           ++ format_status py (status payment)))
      else
        updated_payment <-
          MidtransAdapter.refund_payment py self E (order_id payment) amount ;;
        DatabaseAdapter.update_payment_status E payment_id REFUNDED ;;
        DatabaseAdapter.get_payment payment_id
  end.

Definition handle_notification (py : python) (E : env) (notification_data : dict)
  : M PaymentNotification :=
  try_except
    (notification <- MidtransAdapter.handle_notification py E notification_data ;;
     payments <- DatabaseAdapter.get_payments_by_order (pn_order_id notification) ;;
     match payments with
     | payment :: _ =>
         (if negb (status_eqb (status payment) (pn_status notification))
          then DatabaseAdapter.update_payment_status E (id payment) (pn_status notification)
          else ret tt) ;;
         ret notification
     | [] => ret notification
     end)
    (fun e => raise (ValueError ("Failed to handle notification: " ++ str_exn e))).

Definition get_payments_by_order_id (order_id : string) : M (list PaymentResponse) :=
  DatabaseAdapter.get_payments_by_order order_id.

End PaymentService.

(** ** routes/payment.py

    Each handler runs the service and turns what it raises into an
    HTTPException. The validation error of pydantic is a ValueError. The
    handler of the health check and the wiring of the dependencies are left
    out. *)

Module Routes.

(** [except ValueError] *)
Definition is_value_error (e : exn) : bool :=
  match e with
  | ValueError _ | ValidationError _ => true
  | _ => false
  end.

(** [except HTTPException: raise] followed by [except Exception]. *)
Definition reraise_or {A : Type} (wrap : exn -> exn) (e : exn) : M A :=
  match e with
  | HTTPException _ _ => raise e
  | _ => raise (wrap e)
  end.

(** [PaymentStatus(value)] *)
Definition status_of_value (value : string) : result PaymentStatus :=
  match lookup value
          (map (fun s => (status_value s, s))
             [PENDING; PROCESSING; SUCCESS; FAILED; CANCELED; REFUNDED; EXPIRED]) with
  | Some s => Ok s
  | None => Raise (ValueError ("'" ++ value ++ "' is not a valid PaymentStatus"))
  end.

(** The [value] of a payment method. *)
Definition method_value (m : PaymentMethod) : string :=
  match m with
  | CREDIT_CARD => "credit_card"
  | BANK_TRANSFER => "bank_transfer"
  | E_WALLET => "e_wallet"
  | QRIS => "qris"
  | RETAIL => "retail"
  end.

(** POST / *)
Definition create_payment (py : python) (self : MidtransAdapter.config) (E : env)
  (payment_request : PaymentRequest) : M PaymentResponse :=
  try_except
    (PaymentService.create_payment py self E payment_request)
    (fun e =>
       if is_value_error e then raise (HTTPException 400 (str_exn e))
       else raise (HTTPException 500 ("Failed to create payment: " ++ str_exn e))).

(** GET /{payment_id} *)
Definition get_payment (self : MidtransAdapter.config) (E : env) (payment_id : string)
  : M PaymentResponse :=
  try_except
    (payment <- PaymentService.get_payment self E payment_id ;;
     match payment with
     | None => raise (HTTPException 404 "Payment not found")
     | Some payment => ret payment
     end)
    (reraise_or (fun e => HTTPException 500 ("Failed to get payment: " ++ str_exn e))).

(** POST /{payment_id}/cancel *)
Definition cancel_payment (py : python) (self : MidtransAdapter.config) (E : env)
  (payment_id : string) : M (option PaymentResponse) :=
  try_except
    (PaymentService.cancel_payment py self E payment_id)
    (fun e =>
       if is_value_error e then raise (HTTPException 400 (str_exn e))
       else raise (HTTPException 500 "Failed to cancel payment")).

(** POST /{payment_id}/refund *)
Definition refund_payment (py : python) (self : MidtransAdapter.config) (E : env)
  (payment_id : string) (amount : option Q) : M (option PaymentResponse) :=
  try_except
    (PaymentService.refund_payment py self E payment_id amount)
    (fun e =>
       if is_value_error e then raise (HTTPException 400 (str_exn e))
       else raise (HTTPException 500 "Failed to refund payment")).

(** GET /order/{order_id} *)
Definition get_payments_by_order (order_id : string) : M (list PaymentResponse) :=
  try_except
    (PaymentService.get_payments_by_order_id order_id)
    (fun _ => raise (HTTPException 500 "Failed to retrieve payments")).

(** POST /webhook: the signature is always verified. *)
Definition handle_webhook (py : python) (self : MidtransAdapter.config) (E : env)
  (notification_data : dict) : M dict :=
  try_except
    (WebhookHandler.process_webhook py (MidtransAdapter.server_key self) E
       notification_data true)
    (reraise_or (fun e => HTTPException 500 ("Failed to handle webhook: " ++ str_exn e))).

(** GET /{payment_id}/status: three calls of the service, each with the
    answers of the gateway and the clock at its time. A datetime in the
    answer is the number that stands for it. *)
Definition force_check_payment_status (self : MidtransAdapter.config) (E1 E2 E3 : env)
  (payment_id : string) : M dict :=
  try_except
    (payment <- PaymentService.get_payment self E1 payment_id ;;
     match payment with
     | None => raise (HTTPException 404 "Payment not found")
     | Some payment =>
         current_status <- PaymentService.get_payment_status self E2 payment_id ;;
         updated_payment <- PaymentService.get_payment self E3 payment_id ;;
         match updated_payment with
         | None => raise (AttributeError "'NoneType' object has no attribute 'updated_at'")
         | Some updated_payment =>
             ret [("payment_id", JStr payment_id);
                  ("order_id", JStr (order_id payment));
                  ("current_status", JStr (status_value current_status));
                  ("last_updated", JNum (inject_Z (updated_at updated_payment)));
                  ("amount", JNum (amount payment));
                  ("payment_method", JStr (method_value (payment_method payment)));
                  ("auto_updated", JBool true)]
         end
     end)
    (reraise_or
       (fun e => HTTPException 500 ("Failed to check payment status: " ++ str_exn e))).

(** PUT /{payment_id}/status: the body is a dict of strings. *)
Definition update_payment_status (self : MidtransAdapter.config) (E1 E2 : env)
  (payment_id : string) (status_update : list (string * string)) : M PaymentResponse :=
  try_except
    (match lookup "status" status_update with
     | None | Some "" => raise (HTTPException 400 "Status is required")
     | Some new_status_str =>
         match status_of_value (lower new_status_str) with
         | Raise _ => raise (HTTPException 400 ("Invalid status: " ++ new_status_str))
         | Ok new_status =>
             DatabaseAdapter.update_payment_status E1 payment_id new_status ;;
             updated_payment <- PaymentService.get_payment self E2 payment_id ;;
             match updated_payment with
             | None => raise (HTTPException 404 "Payment not found")
             | Some updated_payment => ret updated_payment
             end
         end
     end)
    (reraise_or
       (fun e => HTTPException 500 ("Failed to update payment status: " ++ str_exn e))).

End Routes.

(** ** Sequences of update operations *)

Inductive operation : Type :=
| Get (payment_id : string)                       (* PaymentService.get_payment *)
| ForceCheck (payment_id : string)                (* PaymentService.get_payment_status *)
| Webhook (notification_data : dict) (verify : bool)   (* WebhookHandler.process_webhook *)
| Notify (notification_data : dict)               (* PaymentService.handle_notification *)
| Cancel (payment_id : string)                    (* PaymentService.cancel_payment *)
| Refund (payment_id : string) (amount : option Q).   (* PaymentService.refund_payment *)

(** An operation run for its effect: whether it returned or raised, and
    the world it leaves. *)
Definition outcome {A : Type} (r : result A * world) : result unit * world :=
  (match fst r with
   | Ok _ => Ok tt
   | Raise e => Raise e
   end, snd r).

Definition run (py : python) (self : MidtransAdapter.config) (E : env)
  (op : operation) (w : world) : result unit * world :=
  match op with
  | Get payment_id => outcome (PaymentService.get_payment self E payment_id w)
  | ForceCheck payment_id => outcome (PaymentService.get_payment_status self E payment_id w)
  | Webhook notification_data verify =>
      outcome (WebhookHandler.process_webhook py (MidtransAdapter.server_key self) E
                 notification_data verify w)
  | Notify notification_data =>
      outcome (PaymentService.handle_notification py E notification_data w)
  | Cancel payment_id => outcome (PaymentService.cancel_payment py self E payment_id w)
  | Refund payment_id amount =>
      outcome (PaymentService.refund_payment py self E payment_id amount w)
  end.

Definition step (py : python) (self : MidtransAdapter.config) (E : env)
  (op : operation) (w : world) : world :=
  snd (run py self E op w).

Definition find_row (payment_id : string) (rows : list PaymentRecord.t)
  : option PaymentRecord.t :=
  find (fun r => String.eqb (PaymentRecord.payment_id r) payment_id) rows.

Definition stored_status (payment_id : string) (w : world) : option PaymentStatus :=
  option_map PaymentRecord.status (find_row payment_id (table w)).

(** The world with more events in its log (the latest first) and the same
    table. *)
Definition logged (w : world) (events : list event) : world :=
  {| table := table w; log := events ++ log w |}.

(** The rows of an order, the latest first, and the row at index 0. *)
Definition rows_of_order (order_id : string) (rows : list PaymentRecord.t)
  : list PaymentRecord.t :=
  DatabaseAdapter.order_by_created_at_desc
    (filter (fun r => String.eqb (PaymentRecord.order_id r) order_id) rows).

Definition active_payment (order_id : string) (w : world) : option PaymentRecord.t :=
  head (rows_of_order order_id (table w)).

(** The primary key of the table. *)
Definition primary_key (rows : list PaymentRecord.t) : Prop :=
  NoDup (map PaymentRecord.payment_id rows).

(** The order and the status a notification carries, as each of the two
    notification paths reads them. *)
Definition notified (py : python) (E : env) (op : operation)
  : option (string * PaymentStatus) :=
  match op with
  | Webhook notification_data _ =>
      match WebhookHandler.parse_notification notification_data with
      | Ok n =>
          Some (wn_order_id n,
                WebhookHandler.map_status_to_payment_status
                  (wn_transaction_status n) (wn_fraud_status n))
      | Raise _ => None
      end
  | Notify notification_data =>
      match fst (MidtransAdapter.handle_notification py E notification_data
                   {| table := []; log := [] |}) with
      | Ok n => Some (pn_order_id n, pn_status n)
      | Raise _ => None
      end
  | _ => None
  end.

(** What a notification for [order_id] with status [new] does to the
    world: one lookup by order and, when the row at index 0 has another
    status, one write of that row. *)
Definition applied (E : env) (order_id : string) (new : PaymentStatus) (w : world)
  : world :=
  match active_payment order_id w with
  | Some r =>
      if status_eqb (PaymentRecord.status r) new
      then logged w [SelectByOrder order_id]
      else
        {| table := DatabaseAdapter.replace_row (DatabaseAdapter.set_status E r new) (table w);
           log := Update (PaymentRecord.payment_id r)
                  :: SelectById (PaymentRecord.payment_id r)
                  :: SelectByOrder order_id :: log w |}
  | None => logged w [SelectByOrder order_id]
  end.

Definition is_notification (op : operation) : bool :=
  match op with
  | Webhook _ _ | Notify _ => true
  | _ => false
  end.

(** The number of rows written so far. *)
Definition is_write (e : event) : bool :=
  match e with
  | Insert _ | Update _ => true
  | _ => false
  end.

Definition writes (w : world) : nat := length (filter is_write (log w)).

(** The status the gateway reports for an order when it is polled. *)
Definition polled (self : MidtransAdapter.config) (E : env) (order_id : string)
  : result PaymentStatus :=
  fst (MidtransAdapter.get_payment_status self E order_id {| table := []; log := [] |}).

(** The text the webhook signature is computed from. *)
Definition signature_string (py : python) (server_key : string) (notification_data : dict)
  : string :=
  format_value py (get notification_data "order_id")
  ++ format_value py (get notification_data "status_code")
  ++ format_value py (get notification_data "gross_amount")
  ++ server_key.

(** The values of [transaction_status] that the tables know. *)
Definition recognized : list string :=
  ["capture"; "settlement"; "pending"; "deny"; "cancel"; "expire"; "refund";
   "partial_refund"].

(** The status query fails: the request raises, the reply is not 200, or
    the body of a 200 reply is not a JSON object. *)
Definition gateway_failed (reply : http_reply) : Prop :=
  match reply with
  | Unreachable _ => True
  | Reply r =>
      status_code r <> 200 \/ body r = None
      \/ exists v, body r = Some v /\ forall fields, v <> JObj fields
  end.

Definition status_url (self : MidtransAdapter.config) (order_id : string) : string :=
  MidtransAdapter.api_url self ++ "/" ++ order_id ++ "/status".

(** The first letter of a message. *)
Definition first_char (s : string) : option ascii :=
  match s with
  | String c _ => Some c
  | EmptyString => None
  end.

(** What [update_payment_status] does to each row. *)
Definition restamp (E : env) (payment_id : string) (s : PaymentStatus)
  (x : PaymentRecord.t) : PaymentRecord.t :=
  if String.eqb (PaymentRecord.payment_id x) payment_id
  then DatabaseAdapter.set_status E x s
  else x.

(** The table after an operation is the table before, or the table before
    with one row restamped. *)
Inductive effect (E : env) (w : world) (after : world)
  : option (PaymentRecord.t * PaymentStatus) -> Prop :=
| Untouched : table after = table w -> effect E w after None
| Restamped r new :
    find_row (PaymentRecord.payment_id r) (table w) = Some r ->
    table after = DatabaseAdapter.replace_row (DatabaseAdapter.set_status E r new) (table w) ->
    effect E w after (Some (r, new)).

(** The value under a key of the metadata of a payment. *)
Definition lookup_metadata (key : string) (metadata : option dict) : option json :=
  match metadata with
  | Some d => lookup key d
  | None => None
  end.

(** An amount with at most two decimals: the column DECIMAL(15, 2) does
    not round it. *)
Definition two_decimals (q : Q) : bool :=
  (Qnum q * 100) mod Zpos (Qden q) =? 0.

(** No two rows of one order carry the same [created_at]: ORDER BY
    created_at DESC then has one answer. *)
Definition created_apart (rows : list PaymentRecord.t) : Prop :=
  forall a b,
    In a rows -> In b rows ->
    PaymentRecord.order_id a = PaymentRecord.order_id b ->
    PaymentRecord.created_at a = PaymentRecord.created_at b ->
    PaymentRecord.payment_id a = PaymentRecord.payment_id b.

(** The one row of an order that was created last. *)
Definition latest_of (order_id : string) (rows : list PaymentRecord.t)
  (r : PaymentRecord.t) : Prop :=
  In r rows /\
  PaymentRecord.order_id r = order_id /\
  forall other,
    In other rows -> PaymentRecord.order_id other = order_id ->
    other = r \/ PaymentRecord.created_at other < PaymentRecord.created_at r.

(** Two rows that differ at most in [status] and [updated_at]. *)
Definition same_payment (a b : PaymentRecord.t) : Prop :=
  PaymentRecord.payment_id b = PaymentRecord.payment_id a /\
  PaymentRecord.order_id b = PaymentRecord.order_id a /\
  PaymentRecord.amount b = PaymentRecord.amount a /\
  PaymentRecord.payment_method b = PaymentRecord.payment_method a /\
  PaymentRecord.transaction_time b = PaymentRecord.transaction_time a /\
  PaymentRecord.expiry_time b = PaymentRecord.expiry_time a /\
  PaymentRecord.payment_url b = PaymentRecord.payment_url a /\
  PaymentRecord.token b = PaymentRecord.token a /\
  PaymentRecord.redirect_url b = PaymentRecord.redirect_url a /\
  PaymentRecord.qr_code_url b = PaymentRecord.qr_code_url a /\
  PaymentRecord.virtual_account_number b = PaymentRecord.virtual_account_number a /\
  PaymentRecord.bank_code b = PaymentRecord.bank_code a /\
  PaymentRecord.additional_data b = PaymentRecord.additional_data a /\
  PaymentRecord.created_at b = PaymentRecord.created_at a.

(** The gateway refuses a request: it cannot be reached, or it answers
    with a status from 400 to 599. *)
Definition refused (reply : http_reply) : Prop :=
  match reply with
  | Unreachable _ => True
  | Reply r => 400 <= status_code r < 600
  end.

Definition cancel_request (self : MidtransAdapter.config) (order_id : string)
  : http_request :=
  POST (MidtransAdapter.api_url self ++ "/" ++ order_id ++ "/cancel") None.

(** ** Data of the examples *)

Module Sample.

(** A stand-in for the library functions: a numeral of digits is a float,
    values are rendered as "?", the digest of a text is the text, and a
    status is formatted as Python 3.11 does. *)
Fixpoint digits (s : string) (acc : Z) : option Z :=
  match s with
  | EmptyString => Some acc
  | String c s' =>
      let n := Z.of_nat (nat_of_ascii c) in
      if (48 <=? n) && (n <=? 57) then digits s' (10 * acc + (n - 48)) else None
  end.

Definition py : python :=
  {| float_of_str := fun s => option_map inject_Z (digits s 0);
     repr := fun _ => "?";
     sha512_hexdigest := fun s => Some s;
     format_status := fun s => "PaymentStatus." ++ status_name s |}.

Definition self : MidtransAdapter.config :=
  {| MidtransAdapter.server_key := "SB-Mid-server-example";
     MidtransAdapter.client_key := "SB-Mid-client-example";
     MidtransAdapter.is_production := false |}.

(** A gateway that gives the same answer to every request. *)
Definition answering (reply : http_reply) (t : datetime) : env :=
  {| gateway := fun _ => reply;
     now := t;
     utcnow := t;
     sqlalchemy_error := fun _ => "numeric field overflow" |}.

Definition ok200 (fields : dict) : http_reply :=
  Reply {| status_code := 200; text := ""; body := Some (JObj fields) |}.

Definition empty : world := {| table := []; log := [] |}.

Definition row (order : string) (s : PaymentStatus) (created : datetime)
  : PaymentRecord.t :=
  {| PaymentRecord.payment_id := "payment-" ++ order;
     PaymentRecord.order_id := order;
     PaymentRecord.status := s;
     PaymentRecord.amount := inject_Z 100000;
     PaymentRecord.payment_method := QRIS;
     PaymentRecord.transaction_time := created;
     PaymentRecord.expiry_time := None;
     PaymentRecord.payment_url := Some "https://app.sandbox.midtrans.com/snap/v2/vtweb/t1";
     PaymentRecord.token := JStr "t1";
     PaymentRecord.redirect_url := JNull;
     PaymentRecord.qr_code_url := JNull;
     PaymentRecord.virtual_account_number := JNull;
     PaymentRecord.bank_code := JNull;
     PaymentRecord.additional_data := None;
     PaymentRecord.created_at := created;
     PaymentRecord.updated_at := created |}.

Definition holding (s : PaymentStatus) : world :=
  {| table := [row "ORD-1" s 1000]; log := [] |}.

Definition notification (transaction_status : string) (fraud : json) : dict :=
  [("transaction_id", JStr "tx-1"); ("order_id", JStr "ORD-1");
   ("transaction_status", JStr transaction_status); ("gross_amount", JStr "100000");
   ("payment_type", JStr "qris"); ("fraud_status", fraud);
   ("status_code", JStr "200")].

(** A create request for the order "ORD-1" and the reply of the gateway
    that accepts it. *)
Definition request (amount : Z) : PaymentRequest :=
  {| req_order_id := "ORD-1";
     req_amount := inject_Z amount;
     req_payment_method := QRIS;
     req_customer_details := [("email", JStr "budi@example.id")];
     req_item_details := [];
     req_description := None;
     req_expiry_duration := 24 |}.

Definition created : http_reply :=
  Reply {| status_code := 201;
           text := "";
           body := Some (JObj [("token", JStr "t1");
                               ("redirect_url",
                                JStr "https://app.sandbox.midtrans.com/snap/v2/vtweb/t1")]) |}.

End Sample.

(** * Properties *)

#[local] Arguments MidtransAdapter.api_url : simpl never.
#[local] Arguments MidtransAdapter.snap_url : simpl never.
#[local] Arguments String.append : simpl never.
#[local] Arguments status_eqb !a !b : simpl nomatch.

(** Closes a goal that compares two runs once their logs are unfolded. *)
Ltac same_run := cbn; unfold logged; cbn; try reflexivity.

(** Two messages that start with different letters are different. *)
Ltac other_message H :=
  apply (f_equal (fun r => match r with
                           | Raise (ValueError msg) => first_char msg
                           | _ => None
                           end)) in H;
  vm_compute in H; discriminate H.

(** Case analysis on an innermost scrutinee of the goal. *)
Ltac split_match :=
  match goal with
  | |- context [match ?x with _ => _ end] =>
      lazymatch x with
      | context [match _ with _ => _ end] => fail
      | _ => destruct x eqn:?; cbn
      end
  end.

(** ** The status tables *)

Lemma get_payment_status_returns self E order_id w :
  exists s,
    MidtransAdapter.get_payment_status self E order_id w
    = (Ok s, logged w [Http (GET (MidtransAdapter.api_url self ++ "/" ++ order_id
                                   ++ "/status"))]).
Proof.
  unfold MidtransAdapter.get_payment_status, try_except, bind, requests, emit, logged.
  cbn.
  destruct (gateway E _) as [why | r]; cbn; [now exists PENDING |].
  destruct (status_code r =? 200); cbn.
  - unfold lift, response_json. destruct (body r) as [v |]; cbn; [| now exists PENDING].
    destruct v; cbn; try (now exists PENDING).
    destruct (eq_str _ "deny"); cbn; [now exists FAILED |].
    destruct (MidtransAdapter.mapping_get _ _ _) as [s | e]; cbn;
      [now exists s | now exists PENDING].
  - destruct (status_code r =? 404); cbn; now exists PENDING.
Qed.

Lemma eq_str_true v s : eq_str v s = true <-> v = JStr s.
Proof.
  destruct v; cbn; try (split; [discriminate | intros H; discriminate H]).
  rewrite String.eqb_eq. split; [now intros -> | now intros [= ->]].
Qed.

Lemma eq_str_false v s : eq_str v s = false <-> v <> JStr s.
Proof.
  rewrite <- eq_str_true. destruct (eq_str v s); split; congruence.
Qed.

Lemma polled_status self E order_id w r fields :
  gateway E (GET (MidtransAdapter.api_url self ++ "/" ++ order_id ++ "/status")) = Reply r ->
  status_code r = 200 ->
  body r = Some (JObj fields) ->
  fst (MidtransAdapter.get_payment_status self E order_id w)
  = if eq_str (get fields "fraud_status") "deny" then Ok FAILED
    else match MidtransAdapter.mapping_get MidtransAdapter.status_mapping
                 (get fields "transaction_status") PENDING with
         | Ok s => Ok s
         | Raise _ => Ok PENDING
         end.
Proof.
  intros Hreply Hcode Hbody.
  unfold MidtransAdapter.get_payment_status, try_except, bind, requests, emit.
  cbn. rewrite Hreply. cbn. rewrite Hcode. cbn.
  unfold lift, response_json. rewrite Hbody. cbn.
  destruct (eq_str _ "deny"); cbn; [reflexivity |].
  now destruct (MidtransAdapter.mapping_get _ _ _).
Qed.

(** C2. A 200 reply of the gateway whose body is a JSON object is mapped by
    [MidtransAdapter.get_payment_status] row by row as the table of the
    gateway port says: a fraud status "deny" gives FAILED whatever the
    transaction status is; otherwise capture and settlement give SUCCESS,
    pending PENDING, deny FAILED, cancel CANCELED, expire EXPIRED, refund
    and partial_refund REFUNDED, and every other value (a string the table
    does not know, or a value that is not a string) gives PENDING; the call
    returns in every row. *)
Theorem get_payment_status_follows_table self E order_id w r fields :
  gateway E (GET (MidtransAdapter.api_url self ++ "/" ++ order_id ++ "/status")) = Reply r ->
  status_code r = 200 ->
  body r = Some (JObj fields) ->
  let transaction_status := get fields "transaction_status" in
  let fraud_status := get fields "fraud_status" in
  let mapped := fst (MidtransAdapter.get_payment_status self E order_id w) in
  (fraud_status = JStr "deny" -> mapped = Ok FAILED) /\
  (fraud_status <> JStr "deny" ->
   (transaction_status = JStr "capture" -> mapped = Ok SUCCESS) /\
   (transaction_status = JStr "settlement" -> mapped = Ok SUCCESS) /\
   (transaction_status = JStr "pending" -> mapped = Ok PENDING) /\
   (transaction_status = JStr "deny" -> mapped = Ok FAILED) /\
   (transaction_status = JStr "cancel" -> mapped = Ok CANCELED) /\
   (transaction_status = JStr "expire" -> mapped = Ok EXPIRED) /\
   (transaction_status = JStr "refund" -> mapped = Ok REFUNDED) /\
   (transaction_status = JStr "partial_refund" -> mapped = Ok REFUNDED) /\
   ((forall key, In key recognized -> transaction_status <> JStr key) ->
    mapped = Ok PENDING)).
Proof.
  intros Hreply Hcode Hbody transaction_status fraud_status mapped.
  subst mapped. rewrite (polled_status _ _ _ _ _ _ Hreply Hcode Hbody).
  fold transaction_status fraud_status. split.
  - intros Hdeny. apply eq_str_true in Hdeny. now rewrite Hdeny.
  - intros Hdeny. apply eq_str_false in Hdeny. rewrite Hdeny.
    repeat split; try (intros ->; reflexivity).
    intros Hnew. destruct transaction_status as [| b | q | s | items | obj];
      try reflexivity.
    cbn. unfold get_default. cbn.
    repeat match goal with
    | |- context [String.eqb s ?k] =>
        destruct (String.eqb_spec s k) as [-> | _];
        [exfalso; apply (Hnew k); [cbn; tauto | reflexivity] |]
    end.
    reflexivity.
Qed.

Lemma get_payment_status_follows_table_witness :
  let E := Sample.answering
             (Sample.ok200 [("transaction_status", JStr "chargeback");
                            ("fraud_status", JStr "accept")]) 2000 in
  fst (MidtransAdapter.get_payment_status Sample.self E "ORD-1" Sample.empty) = Ok PENDING.
Proof.
  intros E.
  refine (proj2 (proj2 (proj2 (proj2 (proj2 (proj2 (proj2 (proj2
    (proj2 (get_payment_status_follows_table Sample.self E "ORD-1" Sample.empty
              _ _ eq_refl eq_refl eq_refl) _)))))))) _).
  - cbn. discriminate.
  - cbn. intros key Hkey.
    repeat (destruct Hkey as [<- | Hkey]; [discriminate |]). destruct Hkey.
Defined.

(** C1. Evaluated on a settlement that the fraud check denies, the polling
    mapper and the webhook mapper give FAILED while the mapper of
    [MidtransAdapter.handle_notification], which never looks at
    [fraud_status], gives SUCCESS; and on the transaction status written in
    capitals the polling mapper, which does not lower its key, gives PENDING
    while the webhook mapper gives SUCCESS. *)
Theorem status_mappers_disagree :
  let denied := [("transaction_status", JStr "settlement"); ("fraud_status", JStr "deny")] in
  let capitals := [("transaction_status", JStr "SETTLEMENT"); ("fraud_status", JNull)] in
  fst (MidtransAdapter.get_payment_status Sample.self
         (Sample.answering (Sample.ok200 denied) 2000) "ORD-1" Sample.empty) = Ok FAILED /\
  WebhookHandler.map_status_to_payment_status "settlement" (Some "deny") = FAILED /\
  (exists n,
     fst (MidtransAdapter.handle_notification Sample.py
            (Sample.answering (Sample.ok200 denied) 2000)
            (Sample.notification "settlement" (JStr "deny")) Sample.empty) = Ok n /\
     pn_status n = SUCCESS) /\
  fst (MidtransAdapter.get_payment_status Sample.self
         (Sample.answering (Sample.ok200 capitals) 2000) "ORD-1" Sample.empty) = Ok PENDING /\
  WebhookHandler.map_status_to_payment_status "SETTLEMENT" None = SUCCESS.
Proof.
  cbv zeta. repeat split; try reflexivity.
  eexists. split; reflexivity.
Qed.

(** ** The storage adapter as a function of the table *)

Lemma logged_logged w a b : logged (logged w a) b = logged w (b ++ a).
Proof. unfold logged. cbn. now rewrite <- app_assoc. Qed.

Lemma find_row_id payment_id rows r :
  find_row payment_id rows = Some r -> PaymentRecord.payment_id r = payment_id.
Proof.
  unfold find_row. intros H. apply find_some in H. now apply String.eqb_eq.
Qed.

Lemma find_row_replace_same payment_id rows r r' :
  find_row payment_id rows = Some r ->
  PaymentRecord.payment_id r' = payment_id ->
  find_row payment_id (DatabaseAdapter.replace_row r' rows) = Some r'.
Proof.
  unfold find_row. intros Hfind Hid. induction rows as [| x rows IH]; [discriminate |].
  cbn in *. rewrite Hid.
  destruct (String.eqb (PaymentRecord.payment_id x) payment_id) eqn:Hx.
  - cbn. now rewrite Hid, String.eqb_refl.
  - cbn. rewrite Hx. now apply IH.
Qed.

Lemma find_row_replace_other payment_id rows r' :
  PaymentRecord.payment_id r' <> payment_id ->
  find_row payment_id (DatabaseAdapter.replace_row r' rows) = find_row payment_id rows.
Proof.
  unfold find_row. intros Hid. induction rows as [| x rows IH]; [reflexivity |].
  cbn. destruct (String.eqb_spec (PaymentRecord.payment_id x) (PaymentRecord.payment_id r'))
    as [Heq | Hne]; cbn.
  - destruct (String.eqb_spec (PaymentRecord.payment_id r') payment_id); [contradiction |].
    destruct (String.eqb_spec (PaymentRecord.payment_id x) payment_id); [congruence |].
    reflexivity.
  - now rewrite IH.
Qed.

Lemma db_get_payment payment_id w :
  DatabaseAdapter.get_payment payment_id w
  = (Ok (option_map DatabaseAdapter._payment_record_to_response
           (find_row payment_id (table w))),
     logged w [SelectById payment_id]).
Proof.
  unfold DatabaseAdapter.get_payment, DatabaseAdapter.query_first, bind, emit, read_table,
    ret, find_row, logged.
  cbn. now destruct (find _ (table w)).
Qed.

Lemma db_update_payment_status E payment_id s w :
  DatabaseAdapter.update_payment_status E payment_id s w
  = match find_row payment_id (table w) with
    | Some r =>
        (Ok tt,
         {| table := DatabaseAdapter.replace_row (DatabaseAdapter.set_status E r s) (table w);
            log := Update (PaymentRecord.payment_id r) :: SelectById payment_id :: log w |})
    | None =>
        (Raise (ValueError ("Payment with ID " ++ payment_id ++ " not found")),
         logged w [SelectById payment_id])
    end.
Proof.
  unfold DatabaseAdapter.update_payment_status, DatabaseAdapter.query_first,
    DatabaseAdapter.commit_update, bind, emit, read_table, write_table, ret, raise,
    find_row, logged.
  cbn. now destruct (find _ (table w)).
Qed.

#[local] Arguments DatabaseAdapter.get_payment : simpl never.
#[local] Arguments DatabaseAdapter.update_payment_status : simpl never.
#[local] Arguments DatabaseAdapter.get_payments_by_order : simpl never.
#[local] Arguments DatabaseAdapter.save_payment : simpl never.
#[local] Arguments DatabaseAdapter.replace_row : simpl never.
#[local] Arguments DatabaseAdapter._payment_record_to_response : simpl never.
#[local] Arguments MidtransAdapter.get_payment_status : simpl never.
#[local] Arguments MidtransAdapter.cancel_payment : simpl never.
#[local] Arguments MidtransAdapter.refund_payment : simpl never.
#[local] Arguments MidtransAdapter.create_payment : simpl never.
#[local] Arguments MidtransAdapter.handle_notification : simpl never.
#[local] Arguments find_row : simpl never.
#[local] Arguments rows_of_order : simpl never.

Lemma response_status record :
  status (DatabaseAdapter._payment_record_to_response record) = PaymentRecord.status record.
Proof. reflexivity. Qed.

Lemma response_id record :
  id (DatabaseAdapter._payment_record_to_response record) = PaymentRecord.payment_id record.
Proof. reflexivity. Qed.

Lemma response_order_id record :
  order_id (DatabaseAdapter._payment_record_to_response record)
  = PaymentRecord.order_id record.
Proof. reflexivity. Qed.

(** ** Read-with-refresh *)

(** C7. [PaymentService.get_payment] on a stored payment in SUCCESS, FAILED,
    CANCELED, EXPIRED or REFUNDED returns it as the storage adapter reads it
    (id, order id, amount, status, payment url, creation and update times
    and metadata are those of the stored row); the table is the same
    afterwards and the only effect is the one lookup by id: no request goes
    to the gateway and nothing is written. *)
Theorem get_payment_settled_is_read_only self E payment_id w record :
  find_row payment_id (table w) = Some record ->
  In (PaymentRecord.status record) [SUCCESS; FAILED; CANCELED; EXPIRED; REFUNDED] ->
  exists payment,
    PaymentService.get_payment self E payment_id w
    = (Ok (Some payment), logged w [SelectById payment_id]) /\
    table (logged w [SelectById payment_id]) = table w /\
    id payment = PaymentRecord.payment_id record /\
    order_id payment = PaymentRecord.order_id record /\
    amount payment = PaymentRecord.amount record /\
    status payment = PaymentRecord.status record /\
    payment_url payment = PaymentRecord.payment_url record /\
    created_at payment = PaymentRecord.created_at record /\
    updated_at payment = PaymentRecord.updated_at record /\
    metadata payment = metadata (DatabaseAdapter._payment_record_to_response record).
Proof.
  intros Hfind Hstatus.
  exists (DatabaseAdapter._payment_record_to_response record).
  split; [| repeat split].
  unfold PaymentService.get_payment, try_except, bind.
  rewrite db_get_payment, Hfind. cbn. rewrite response_status.
  cbn in Hstatus.
  destruct (PaymentRecord.status record); cbn; try reflexivity;
    exfalso; intuition discriminate.
Qed.

Lemma get_payment_settled_is_read_only_witness :
  exists payment,
    PaymentService.get_payment Sample.self (Sample.answering (Unreachable "timeout") 2000)
      "payment-ORD-1" (Sample.holding REFUNDED)
    = (Ok (Some payment), logged (Sample.holding REFUNDED) [SelectById "payment-ORD-1"]) /\
    status payment = REFUNDED /\ updated_at payment = 1000.
Proof.
  destruct (get_payment_settled_is_read_only Sample.self
              (Sample.answering (Unreachable "timeout") 2000)
              "payment-ORD-1" (Sample.holding REFUNDED) (Sample.row "ORD-1" REFUNDED 1000)
              eq_refl (or_intror (or_intror (or_intror (or_intror (or_introl eq_refl))))))
    as (payment & Hrun & _ & _ & _ & _ & Hstatus & _ & _ & Hupdated & _).
  exists payment. repeat split; assumption.
Defined.

Lemma polled_status_failed self E order_id w :
  gateway_failed (gateway E (GET (status_url self order_id))) ->
  MidtransAdapter.get_payment_status self E order_id w
  = (Ok PENDING, logged w [Http (GET (status_url self order_id))]).
Proof.
  unfold status_url, MidtransAdapter.get_payment_status, try_except, bind, requests, emit,
    logged.
  cbn. destruct (gateway E _) as [why | r]; cbn; [reflexivity |].
  intros [Hcode | [Hbody | (v & Hbody & Hobj)]].
  - apply Z.eqb_neq in Hcode. rewrite Hcode. now destruct (status_code r =? 404).
  - destruct (status_code r =? 200); [| now destruct (status_code r =? 404)].
    unfold lift, response_json. now rewrite Hbody.
  - destruct (status_code r =? 200); [| now destruct (status_code r =? 404)].
    unfold lift, response_json. rewrite Hbody. cbn.
    destruct v; try reflexivity. now elim (Hobj fields).
Qed.

(** Read-with-refresh of a PENDING payment while the status query fails:
    the stored payment is returned and nothing is written. *)
Lemma get_payment_pending_gateway_down self E payment_id w record :
  find_row payment_id (table w) = Some record ->
  PaymentRecord.status record = PENDING ->
  gateway_failed (gateway E (GET (status_url self (PaymentRecord.order_id record)))) ->
  PaymentService.get_payment self E payment_id w
  = (Ok (Some (DatabaseAdapter._payment_record_to_response record)),
     logged w [Http (GET (status_url self (PaymentRecord.order_id record)));
               SelectById payment_id]).
Proof.
  intros Hfind Hstatus Hdown.
  unfold PaymentService.get_payment, try_except, bind.
  rewrite db_get_payment, Hfind. cbn.
  rewrite response_status, response_order_id, Hstatus. cbn.
  rewrite (polled_status_failed _ _ _ _ Hdown). cbn.
  now rewrite logged_logged.
Qed.

(** C6. What the code does where the claim fails: read-with-refresh of a
    stored payment in PROCESSING while the status query fails does not
    raise, but it writes PENDING over the stored status, stamps the row
    with the time of the call and returns the payment as PENDING. *)
Theorem get_payment_processing_gateway_down self E payment_id w record :
  find_row payment_id (table w) = Some record ->
  PaymentRecord.status record = PROCESSING ->
  gateway_failed (gateway E (GET (status_url self (PaymentRecord.order_id record)))) ->
  let after := PaymentService.get_payment self E payment_id w in
  fst after
  = Ok (Some (DatabaseAdapter._payment_record_to_response
                (DatabaseAdapter.set_status E record PENDING))) /\
  find_row payment_id (table (snd after)) = Some (DatabaseAdapter.set_status E record PENDING) /\
  stored_status payment_id w = Some PROCESSING /\
  stored_status payment_id (snd after) = Some PENDING.
Proof.
  intros Hfind Hstatus Hdown after.
  pose proof (find_row_id _ _ _ Hfind) as Hid.
  assert (Hrun : after
    = (Ok (Some (DatabaseAdapter._payment_record_to_response
                   (DatabaseAdapter.set_status E record PENDING))),
       logged
         {| table := DatabaseAdapter.replace_row
                       (DatabaseAdapter.set_status E record PENDING) (table w);
            log := log w |}
         [SelectById payment_id; Update payment_id; SelectById payment_id;
          Http (GET (status_url self (PaymentRecord.order_id record)));
          SelectById payment_id])).
  { subst after. unfold PaymentService.get_payment, try_except, bind.
    rewrite db_get_payment, Hfind. cbn.
    rewrite response_status, response_order_id, response_id, Hstatus. cbn.
    rewrite (polled_status_failed _ _ _ _ Hdown). cbn.
    rewrite db_update_payment_status. cbn. rewrite Hid, Hfind.
    rewrite db_get_payment. cbn.
    rewrite (find_row_replace_same _ _ _ _ Hfind) by exact Hid.
    rewrite Hid. same_run. }
  rewrite Hrun. cbn.
  rewrite (find_row_replace_same _ _ _ _ Hfind) by exact Hid.
  unfold stored_status. rewrite Hfind. cbn. rewrite Hstatus.
  rewrite (find_row_replace_same _ _ _ _ Hfind) by exact Hid.
  repeat split.
Qed.

Lemma get_payment_processing_gateway_down_witness :
  let E := Sample.answering (Unreachable "Read timed out") 2000 in
  let after := PaymentService.get_payment Sample.self E "payment-ORD-1"
                 (Sample.holding PROCESSING) in
  stored_status "payment-ORD-1" (Sample.holding PROCESSING) = Some PROCESSING /\
  stored_status "payment-ORD-1" (snd after) = Some PENDING.
Proof.
  intros E after.
  exact (proj2 (proj2 (get_payment_processing_gateway_down Sample.self E "payment-ORD-1"
                         (Sample.holding PROCESSING) (Sample.row "ORD-1" PROCESSING 1000)
                         eq_refl eq_refl I))).
Defined.

(** ** Force-check *)

(** C10. [PaymentService.get_payment_status] on a stored payment whose status
    is not PENDING, while the status query fails (the request raises, the
    reply is not 200, or its body is not a JSON object), returns PENDING and
    leaves the stored row with status PENDING and the time of the call as
    its [updated_at]. *)
Theorem force_check_gateway_down_stores_pending self E payment_id w record :
  find_row payment_id (table w) = Some record ->
  PaymentRecord.status record <> PENDING ->
  gateway_failed (gateway E (GET (status_url self (PaymentRecord.order_id record)))) ->
  let after := PaymentService.get_payment_status self E payment_id w in
  fst after = Ok PENDING /\
  find_row payment_id (table (snd after)) = Some (DatabaseAdapter.set_status E record PENDING) /\
  stored_status payment_id (snd after) = Some PENDING /\
  option_map PaymentRecord.updated_at (find_row payment_id (table (snd after)))
  = Some (utcnow E).
Proof.
  intros Hfind Hstatus Hdown after.
  pose proof (find_row_id _ _ _ Hfind) as Hid.
  assert (Hrun : after
    = (Ok PENDING,
       {| table := DatabaseAdapter.replace_row
                     (DatabaseAdapter.set_status E record PENDING) (table w);
          log := [Update payment_id; SelectById payment_id;
                  Http (GET (status_url self (PaymentRecord.order_id record)));
                  SelectById payment_id] ++ log w |})).
  { subst after. unfold PaymentService.get_payment_status, try_except, bind.
    rewrite db_get_payment, Hfind. cbn.
    rewrite response_status, response_order_id.
    rewrite (polled_status_failed _ _ _ _ Hdown). cbn.
    assert (Hne : status_eqb PENDING (PaymentRecord.status record) = false)
      by (destruct (PaymentRecord.status record); try reflexivity; congruence).
    rewrite Hne. cbn.
    rewrite db_update_payment_status. cbn. rewrite Hfind, Hid.
    same_run. }
  rewrite Hrun. cbn. unfold stored_status. cbn.
  rewrite (find_row_replace_same _ _ _ _ Hfind) by exact Hid.
  repeat split.
Qed.

Lemma force_check_gateway_down_stores_pending_witness :
  let E := Sample.answering
             (Reply {| status_code := 503; text := "Service Unavailable"; body := None |})
             2000 in
  let after := PaymentService.get_payment_status Sample.self E "payment-ORD-1"
                 (Sample.holding SUCCESS) in
  fst after = Ok PENDING /\ stored_status "payment-ORD-1" (snd after) = Some PENDING.
Proof.
  intros E after.
  assert (Hfind : find_row "payment-ORD-1" (table (Sample.holding SUCCESS))
                  = Some (Sample.row "ORD-1" SUCCESS 1000)) by reflexivity.
  assert (Hstatus : PaymentRecord.status (Sample.row "ORD-1" SUCCESS 1000) <> PENDING)
    by discriminate.
  assert (Hdown : gateway_failed
                    (gateway E (GET (status_url Sample.self
                       (PaymentRecord.order_id (Sample.row "ORD-1" SUCCESS 1000))))))
    by (left; discriminate).
  destruct (force_check_gateway_down_stores_pending Sample.self E "payment-ORD-1"
              (Sample.holding SUCCESS) (Sample.row "ORD-1" SUCCESS 1000)
              Hfind Hstatus Hdown)
    as (Hfst & _ & Hstored & _).
  split; assumption.
Defined.

(** ** Cancel and refund *)

Lemma cancel_payment_outcome py self E transaction_id w :
  table (snd (MidtransAdapter.cancel_payment py self E transaction_id w)) = table w /\
  forall name,
    fst (MidtransAdapter.cancel_payment py self E transaction_id w)
    <> Raise (ValueError ("Cannot cancel payment with status: " ++ name)).
Proof.
  unfold MidtransAdapter.cancel_payment, MidtransAdapter.gateway_payment, try_except, bind,
    requests, emit, lift, raise, ret, raise_for_status, response_json, as_dict, py_float,
    as_str.
  cbn.
  repeat split_match; (split; [reflexivity | intros name H; try discriminate H]);
    try other_message H.
Qed.

Lemma refund_payment_outcome py self E transaction_id amount w :
  table (snd (MidtransAdapter.refund_payment py self E transaction_id amount w)) = table w /\
  forall name,
    fst (MidtransAdapter.refund_payment py self E transaction_id amount w)
    <> Raise (ValueError ("Cannot refund payment with status: " ++ name)).
Proof.
  unfold MidtransAdapter.refund_payment, MidtransAdapter.gateway_payment, try_except, bind,
    requests, emit, lift, raise, ret, raise_for_status, response_json, as_dict, py_float,
    as_str.
  cbn.
  repeat split_match; (split; [reflexivity | intros name H; try discriminate H]);
    try other_message H.
Qed.

Lemma cancel_payment_permitted py self E payment_id w record :
  find_row payment_id (table w) = Some record ->
  PaymentRecord.status record = PENDING \/ PaymentRecord.status record = PROCESSING ->
  forall name,
    fst (PaymentService.cancel_payment py self E payment_id w)
    <> Raise (ValueError ("Cannot cancel payment with status: " ++ name)).
Proof.
  intros Hfind Hstatus name.
  unfold PaymentService.cancel_payment, bind.
  rewrite db_get_payment, Hfind. cbn. rewrite response_status, response_order_id.
  assert (Hgo : negb (status_eqb (PaymentRecord.status record) PENDING
                      || status_eqb (PaymentRecord.status record) PROCESSING) = false)
    by (destruct Hstatus as [-> | ->]; reflexivity).
  rewrite Hgo.
  destruct (cancel_payment_outcome py self E (PaymentRecord.order_id record)
              (logged w [SelectById payment_id])) as [Htable Hmsg].
  destruct (MidtransAdapter.cancel_payment _ _ _ _ _) as [[updated | e] w1]; cbn in *.
  - rewrite db_update_payment_status, Htable, Hfind. cbn.
    rewrite db_get_payment. cbn. discriminate.
  - intros H. apply (Hmsg name). congruence.
Qed.

Lemma refund_payment_permitted py self E payment_id amount w record :
  find_row payment_id (table w) = Some record ->
  PaymentRecord.status record = SUCCESS ->
  forall name,
    fst (PaymentService.refund_payment py self E payment_id amount w)
    <> Raise (ValueError ("Cannot refund payment with status: " ++ name)).
Proof.
  intros Hfind Hstatus name.
  unfold PaymentService.refund_payment, bind.
  rewrite db_get_payment, Hfind. cbn. rewrite response_status, response_order_id, Hstatus.
  cbn.
  destruct (refund_payment_outcome py self E (PaymentRecord.order_id record) amount
              (logged w [SelectById payment_id])) as [Htable Hmsg].
  destruct (MidtransAdapter.refund_payment _ _ _ _ _ _) as [[updated | e] w1]; cbn in *.
  - rewrite db_update_payment_status, Htable, Hfind. cbn.
    rewrite db_get_payment. cbn. discriminate.
  - intros H. apply (Hmsg name). congruence.
Qed.

Lemma cancel_payment_rejected py self E payment_id w record :
  find_row payment_id (table w) = Some record ->
  PaymentRecord.status record <> PENDING ->
  PaymentRecord.status record <> PROCESSING ->
  PaymentService.cancel_payment py self E payment_id w
  = (Raise (ValueError ("Cannot cancel payment with status: "
                        ++ format_status py (PaymentRecord.status record))),
     logged w [SelectById payment_id]).
Proof.
  intros Hfind Hp Hq.
  unfold PaymentService.cancel_payment, bind.
  rewrite db_get_payment, Hfind. cbn. rewrite response_status.
  destruct (PaymentRecord.status record); try reflexivity; congruence.
Qed.

Lemma refund_payment_rejected py self E payment_id amount w record :
  find_row payment_id (table w) = Some record ->
  PaymentRecord.status record <> SUCCESS ->
  PaymentService.refund_payment py self E payment_id amount w
  = (Raise (ValueError ("Cannot refund payment with status: "
                        ++ format_status py (PaymentRecord.status record))),
     logged w [SelectById payment_id]).
Proof.
  intros Hfind Hp.
  unfold PaymentService.refund_payment, bind.
  rewrite db_get_payment, Hfind. cbn. rewrite response_status.
  destruct (PaymentRecord.status record); try reflexivity; congruence.
Qed.

(** C5. For a stored payment, [PaymentService.cancel_payment] raises the
    error "Cannot cancel payment with status: ..." exactly when the stored
    status is neither PENDING nor PROCESSING, and
    [PaymentService.refund_payment] raises "Cannot refund payment with
    status: ..." exactly when the stored status is not SUCCESS; the message
    then ends with the stored status as the f-string of the running Python
    formats it ("pending" up to 3.10, "PaymentStatus.PENDING" from 3.11
    on), and the world afterwards is the one before plus the lookup by id:
    no request went to the gateway and the table is the same. *)
Theorem cancel_and_refund_guards py self E payment_id amount w record :
  find_row payment_id (table w) = Some record ->
  let s := PaymentRecord.status record in
  let cancel := PaymentService.cancel_payment py self E payment_id w in
  let refund := PaymentService.refund_payment py self E payment_id amount w in
  ((exists name,
      fst cancel = Raise (ValueError ("Cannot cancel payment with status: " ++ name)))
   <-> s <> PENDING /\ s <> PROCESSING) /\
  (s <> PENDING /\ s <> PROCESSING ->
   cancel = (Raise (ValueError ("Cannot cancel payment with status: "
                                ++ format_status py s)),
             logged w [SelectById payment_id])) /\
  ((exists name,
      fst refund = Raise (ValueError ("Cannot refund payment with status: " ++ name)))
   <-> s <> SUCCESS) /\
  (s <> SUCCESS ->
   refund = (Raise (ValueError ("Cannot refund payment with status: "
                                ++ format_status py s)),
             logged w [SelectById payment_id])).
Proof.
  intros Hfind s cancel refund. subst s cancel refund.
  split; [split |]; [| | split; [| split; [split |]]].
  - intros [name H]. split; intros Heq.
    + exact (cancel_payment_permitted py self E _ _ _ Hfind (or_introl Heq) name H).
    + exact (cancel_payment_permitted py self E _ _ _ Hfind (or_intror Heq) name H).
  - intros [Hp Hq]. eexists.
    now rewrite (cancel_payment_rejected py self E _ _ _ Hfind Hp Hq).
  - intros [Hp Hq]. exact (cancel_payment_rejected py self E _ _ _ Hfind Hp Hq).
  - intros [name H] Heq.
    exact (refund_payment_permitted py self E _ amount _ _ Hfind Heq name H).
  - intros Hp. eexists.
    now rewrite (refund_payment_rejected py self E _ amount _ _ Hfind Hp).
  - intros Hp. exact (refund_payment_rejected py self E _ amount _ _ Hfind Hp).
Qed.

Lemma cancel_and_refund_guards_witness :
  let E := Sample.answering (Sample.ok200 []) 2000 in
  PaymentService.refund_payment Sample.py Sample.self E "payment-ORD-1" None
    (Sample.holding PENDING)
  = (Raise (ValueError "Cannot refund payment with status: PaymentStatus.PENDING"),
     logged (Sample.holding PENDING) [SelectById "payment-ORD-1"]).
Proof.
  intros E.
  assert (Hfind : find_row "payment-ORD-1" (table (Sample.holding PENDING))
                  = Some (Sample.row "ORD-1" PENDING 1000)) by reflexivity.
  assert (Hstatus : PaymentRecord.status (Sample.row "ORD-1" PENDING 1000) <> SUCCESS)
    by discriminate.
  exact (proj2 (proj2 (proj2
           (cancel_and_refund_guards Sample.py Sample.self E "payment-ORD-1" None
              (Sample.holding PENDING) (Sample.row "ORD-1" PENDING 1000) Hfind)))
           Hstatus).
Defined.

(** ** The webhook *)

(** C8, as the code has it. A payload processed with [verify] set whose
    [signature_key] is not the digest of the text order_id + status_code +
    gross_amount + server_key as the f-string builds it, a field the payload
    lacks being the text "None" (in particular when computing the digest
    raises, so that there is no digest), makes [process_webhook] raise the
    401 error "Invalid signature"; the world is the same afterwards: the
    table was neither read nor written. *)
Theorem process_webhook_rejects_bad_signature py server_key E notification_data w :
  (forall digest,
     sha512_hexdigest py (signature_string py server_key notification_data) = Some digest ->
     get notification_data "signature_key" <> JStr digest) ->
  WebhookHandler.process_webhook py server_key E notification_data true w
  = (Raise (HTTPException 401 "Invalid signature"), w).
Proof.
  intros Hbad.
  assert (Hverify : WebhookHandler.verify_signature py server_key notification_data = false).
  { unfold WebhookHandler.verify_signature. fold (signature_string py server_key notification_data).
    destruct (sha512_hexdigest py _) as [digest |] eqn:Hdigest; [| reflexivity].
    apply eq_str_false. now apply Hbad. }
  unfold WebhookHandler.process_webhook, try_except.
  rewrite Hverify. reflexivity.
Qed.

(** A field the payload lacks does not make the computation raise: the
    f-string renders it as "None", and a signature computed over that text
    is accepted. *)
Example missing_field_is_signed_as_None :
  let payload :=
    [("order_id", JStr "ORD-1"); ("gross_amount", JStr "100000");
     ("signature_key", JStr "ORD-1None100000SB-Mid-server-example")] in
  get payload "status_code" = JNull /\
  WebhookHandler.verify_signature Sample.py "SB-Mid-server-example" payload = true.
Proof. split; reflexivity. Qed.

(** C8, as the claim has it, fails: a payload that lacks [status_code] does
    not count as a failed verification. Signed over the text that has
    "None" in the place of the field (the digest of the sample is the text
    itself), it passes the check with [verify] set, and the payment of its
    order is written with the notified status. *)
Lemma payload_without_status_code_is_processed :
  let payload :=
    [("transaction_id", JStr "tx-1"); ("order_id", JStr "ORD-1");
     ("transaction_status", JStr "settlement"); ("gross_amount", JStr "100000");
     ("payment_type", JStr "qris");
     ("signature_key", JStr "ORD-1None100000SB-Mid-server-example")] in
  let after :=
    WebhookHandler.process_webhook Sample.py "SB-Mid-server-example"
      (Sample.answering (Unreachable "unused") 2000) payload true (Sample.holding PENDING) in
  contains payload "status_code" = false /\
  (exists answer, fst after = Ok answer) /\
  stored_status "payment-ORD-1" (Sample.holding PENDING) = Some PENDING /\
  stored_status "payment-ORD-1" (snd after) = Some SUCCESS /\
  writes (snd after) = 1%nat.
Proof.
  cbv zeta. split; [reflexivity |]. split; [eexists; vm_compute; reflexivity |].
  repeat split; vm_compute; reflexivity.
Qed.

Lemma process_webhook_rejects_bad_signature_witness :
  let payload := ("signature_key", JStr "forged") :: Sample.notification "settlement" JNull in
  WebhookHandler.process_webhook Sample.py "SB-Mid-server-example"
    (Sample.answering (Unreachable "unused") 2000) payload true (Sample.holding PENDING)
  = (Raise (HTTPException 401 "Invalid signature"), Sample.holding PENDING).
Proof.
  intros payload.
  apply (process_webhook_rejects_bad_signature Sample.py "SB-Mid-server-example"
           (Sample.answering (Unreachable "unused") 2000) payload (Sample.holding PENDING)).
  intros digest Hdigest. vm_compute in Hdigest. injection Hdigest as <-.
  vm_compute. discriminate.
Defined.

(** ** Notifications applied to the table *)

Lemma db_get_payments_by_order order_id w :
  DatabaseAdapter.get_payments_by_order order_id w
  = (Ok (map DatabaseAdapter._payment_record_to_response
           (rows_of_order order_id (table w))),
     logged w [SelectByOrder order_id]).
Proof. reflexivity. Qed.

Lemma find_row_in payment_id rows r :
  find_row payment_id rows = Some r -> In r rows.
Proof. unfold find_row. intros H. now apply find_some in H. Qed.

Lemma find_row_none payment_id rows :
  ~ In payment_id (map PaymentRecord.payment_id rows) -> find_row payment_id rows = None.
Proof.
  unfold find_row. induction rows as [| x rows IH]; [reflexivity |].
  cbn. intros Hnot.
  destruct (String.eqb_spec (PaymentRecord.payment_id x) payment_id) as [Heq | Hne].
  - elim Hnot. now left.
  - apply IH. intros Hin. apply Hnot. now right.
Qed.

Lemma primary_key_find rows r :
  primary_key rows -> In r rows -> find_row (PaymentRecord.payment_id r) rows = Some r.
Proof.
  unfold primary_key, find_row. induction rows as [| x rows IH]; [intros _ [] |].
  cbn. intros Hkey Hin. inversion Hkey as [| ? ? Hfresh Hrest]; subst.
  destruct (String.eqb_spec (PaymentRecord.payment_id x) (PaymentRecord.payment_id r))
    as [Heq | Hne].
  - destruct Hin as [-> | Hin]; [reflexivity |].
    elim Hfresh. rewrite Heq. now apply in_map.
  - destruct Hin as [-> | Hin]; [congruence |]. now apply IH.
Qed.

Lemma restamp_fresh E payment_id s rows :
  ~ In payment_id (map PaymentRecord.payment_id rows) ->
  map (restamp E payment_id s) rows = rows.
Proof.
  induction rows as [| x rows IH]; [reflexivity |].
  cbn. intros Hnot. unfold restamp at 1.
  destruct (String.eqb_spec (PaymentRecord.payment_id x) payment_id) as [Heq | Hne].
  - elim Hnot. now left.
  - rewrite IH; [reflexivity |]. intros Hin. apply Hnot. now right.
Qed.

Lemma replace_row_cons record x rows :
  DatabaseAdapter.replace_row record (x :: rows)
  = if String.eqb (PaymentRecord.payment_id x) (PaymentRecord.payment_id record)
    then record :: rows
    else x :: DatabaseAdapter.replace_row record rows.
Proof. reflexivity. Qed.

Lemma replace_row_restamp E payment_id s rows r :
  primary_key rows ->
  find_row payment_id rows = Some r ->
  DatabaseAdapter.replace_row (DatabaseAdapter.set_status E r s) rows
  = map (restamp E payment_id s) rows.
Proof.
  unfold primary_key, find_row. induction rows as [| x rows IH]; [discriminate |].
  cbn. intros Hkey Hfind. inversion Hkey as [| ? ? Hfresh Hrest]; subst.
  unfold restamp at 1. rewrite replace_row_cons. cbn.
  destruct (String.eqb_spec (PaymentRecord.payment_id x) payment_id) as [Heq | Hne].
  - injection Hfind as <-. rewrite String.eqb_refl.
    rewrite restamp_fresh; [reflexivity | now rewrite <- Heq].
  - pose proof (find_row_id _ _ _ Hfind) as Hid.
    apply (proj2 (String.eqb_neq _ _)) in Hne.
    rewrite Hid. rewrite Hne. f_equal. now apply IH.
Qed.

Lemma restamp_payment_id E payment_id s x :
  PaymentRecord.payment_id (restamp E payment_id s x) = PaymentRecord.payment_id x.
Proof. unfold restamp. now destruct (String.eqb _ _). Qed.

Lemma restamp_order_id E payment_id s x :
  PaymentRecord.order_id (restamp E payment_id s x) = PaymentRecord.order_id x.
Proof. unfold restamp. now destruct (String.eqb _ _). Qed.

Lemma restamp_created_at E payment_id s x :
  PaymentRecord.created_at (restamp E payment_id s x) = PaymentRecord.created_at x.
Proof. unfold restamp. now destruct (String.eqb _ _). Qed.

Lemma insert_desc_restamp E payment_id s r sorted :
  DatabaseAdapter.insert_desc (restamp E payment_id s r) (map (restamp E payment_id s) sorted)
  = map (restamp E payment_id s) (DatabaseAdapter.insert_desc r sorted).
Proof.
  induction sorted as [| x sorted IH]; [reflexivity |].
  cbn. rewrite !restamp_created_at.
  destruct (PaymentRecord.created_at x <=? PaymentRecord.created_at r); [reflexivity |].
  cbn. now rewrite IH.
Qed.

Lemma rows_of_order_restamp E payment_id s order_id rows :
  rows_of_order order_id (map (restamp E payment_id s) rows)
  = map (restamp E payment_id s) (rows_of_order order_id rows).
Proof.
  unfold rows_of_order. induction rows as [| x rows IH]; [reflexivity |].
  cbn. rewrite restamp_order_id.
  destruct (String.eqb (PaymentRecord.order_id x) order_id); [| exact IH].
  unfold DatabaseAdapter.order_by_created_at_desc in *. cbn.
  rewrite IH. apply insert_desc_restamp.
Qed.

Lemma primary_key_restamp E payment_id s rows :
  primary_key rows -> primary_key (map (restamp E payment_id s) rows).
Proof.
  unfold primary_key. rewrite map_map.
  now rewrite (map_ext _ PaymentRecord.payment_id (restamp_payment_id E payment_id s)).
Qed.

Lemma insert_desc_in r x sorted :
  In x (DatabaseAdapter.insert_desc r sorted) -> x = r \/ In x sorted.
Proof.
  induction sorted as [| y sorted IH]; cbn.
  - intros [<- | []]. now left.
  - destruct (PaymentRecord.created_at y <=? PaymentRecord.created_at r); cbn.
    + intros [<- | H]; [now left | now right].
    + intros [<- | H]; [right; now left |].
      destruct (IH H) as [-> | Hin]; [now left | right; now right].
Qed.

Lemma rows_of_order_in order_id rows x :
  In x (rows_of_order order_id rows) -> In x rows.
Proof.
  unfold rows_of_order. induction rows as [| y rows IH]; [intros [] |].
  cbn. destruct (String.eqb (PaymentRecord.order_id y) order_id); cbn.
  - intros H. destruct (insert_desc_in _ _ _ H) as [-> | Hin]; [now left |].
    right. now apply IH.
  - intros H. right. now apply IH.
Qed.

Lemma active_payment_in order_id w r :
  active_payment order_id w = Some r -> In r (table w).
Proof.
  unfold active_payment. intros H. apply (rows_of_order_in order_id).
  destruct (rows_of_order order_id (table w)); [discriminate |].
  injection H as ->. now left.
Qed.

Lemma status_eqb_eq a b : status_eqb a b = true <-> a = b.
Proof. destruct a, b; cbn; split; congruence. Qed.

Lemma status_eqb_refl a : status_eqb a a = true.
Proof. now apply status_eqb_eq. Qed.

Lemma handle_notification_pure py E notification_data w :
  MidtransAdapter.handle_notification py E notification_data w
  = (fst (MidtransAdapter.handle_notification py E notification_data
            {| table := []; log := [] |}), w).
Proof.
  unfold MidtransAdapter.handle_notification, try_except, bind, lift, raise, ret.
  cbn. repeat split_match; reflexivity.
Qed.

Lemma applied_twice E1 E2 order_id new w :
  primary_key (table w) ->
  applied E2 order_id new (applied E1 order_id new w)
  = logged (applied E1 order_id new w) [SelectByOrder order_id].
Proof.
  intros Hkey. unfold applied at 2 3.
  destruct (active_payment order_id w) as [r |] eqn:Hactive.
  - destruct (status_eqb (PaymentRecord.status r) new) eqn:Hsame.
    + unfold applied, active_payment in *. cbn. now rewrite Hactive, Hsame.
    + pose proof (primary_key_find _ _ Hkey (active_payment_in _ _ _ Hactive)) as Hfind.
      unfold applied, active_payment in *. cbn.
      rewrite (replace_row_restamp E1 _ new _ _ Hkey Hfind), rows_of_order_restamp.
      destruct (rows_of_order order_id (table w)) as [| r0 rest]; [discriminate |].
      injection Hactive as ->. cbn. unfold restamp at 1. rewrite String.eqb_refl. cbn.
      now rewrite status_eqb_refl.
  - unfold applied, active_payment in *. cbn. now rewrite Hactive.
Qed.

Lemma primary_key_applied E order_id new w :
  primary_key (table w) -> primary_key (table (applied E order_id new w)).
Proof.
  intros Hkey. unfold applied.
  destruct (active_payment order_id w) as [r |] eqn:Hactive; [| exact Hkey].
  destruct (status_eqb (PaymentRecord.status r) new); [exact Hkey |].
  pose proof (primary_key_find _ _ Hkey (active_payment_in _ _ _ Hactive)) as Hfind.
  cbn. rewrite (replace_row_restamp E _ new _ _ Hkey Hfind).
  now apply primary_key_restamp.
Qed.

(** The block both notification paths share: the row at index 0 of the
    order is written when its status differs. *)
Lemma update_active_runs E order_id new w :
  primary_key (table w) ->
  forall A (k : PaymentResponse -> A) (none : A),
    (payments <- DatabaseAdapter.get_payments_by_order order_id ;;
     match payments with
     | [] => ret none
     | payment :: _ =>
         (if negb (status_eqb (status payment) new)
          then DatabaseAdapter.update_payment_status E (id payment) new
          else ret tt) ;;
         ret (k payment)
     end) w
    = (Ok match active_payment order_id w with
          | Some r => k (DatabaseAdapter._payment_record_to_response r)
          | None => none
          end,
       applied E order_id new w).
Proof.
  intros Hkey A k none. unfold bind at 1. rewrite db_get_payments_by_order.
  unfold applied. destruct (active_payment order_id w) as [r |] eqn:Hactive.
  - pose proof (primary_key_find _ _ Hkey (active_payment_in _ _ _ Hactive)) as Hfind.
    unfold active_payment in Hactive.
    destruct (rows_of_order order_id (table w)) as [| r0 rest]; [discriminate |].
    injection Hactive as ->. cbn. rewrite response_status, response_id.
    destruct (status_eqb (PaymentRecord.status r) new); cbn; [reflexivity |].
    unfold bind. rewrite db_update_payment_status. cbn. rewrite Hfind. reflexivity.
  - unfold active_payment in Hactive.
    destruct (rows_of_order order_id (table w)); [reflexivity | discriminate].
Qed.

Lemma process_webhook_runs py server_key E notification_data verify w n :
  verify && negb (WebhookHandler.verify_signature py server_key notification_data) = false ->
  WebhookHandler.parse_notification notification_data = Ok n ->
  primary_key (table w) ->
  outcome (WebhookHandler.process_webhook py server_key E notification_data verify w)
  = (Ok tt,
     applied E (wn_order_id n)
       (WebhookHandler.map_status_to_payment_status
          (wn_transaction_status n) (wn_fraud_status n)) w).
Proof.
  intros Hverify Hparse Hkey.
  unfold WebhookHandler.process_webhook, try_except. rewrite Hverify.
  unfold bind at 1, lift. rewrite Hparse.
  now rewrite (update_active_runs E _ _ w Hkey).
Qed.

Lemma handle_notification_runs py E notification_data w n :
  fst (MidtransAdapter.handle_notification py E notification_data
         {| table := []; log := [] |}) = Ok n ->
  primary_key (table w) ->
  outcome (PaymentService.handle_notification py E notification_data w)
  = (Ok tt, applied E (pn_order_id n) (pn_status n) w).
Proof.
  intros Hn Hkey.
  unfold PaymentService.handle_notification, try_except. unfold bind at 1.
  rewrite handle_notification_pure, Hn.
  assert (Hrun := update_active_runs E (pn_order_id n) (pn_status n) w Hkey
                    _ (fun _ => n) n).
  cbv beta in Hrun.
  match goal with
  | |- outcome (let (r, w') := ?c w in _) = _ =>
      replace (c w) with
        (Ok match active_payment (pn_order_id n) w with
            | Some _ => n
            | None => n
            end, applied E (pn_order_id n) (pn_status n) w)
  end.
  now destruct (active_payment (pn_order_id n) w).
Qed.

Lemma notified_any_clock py E1 E2 op : notified py E1 op = notified py E2 op.
Proof.
  destruct op; try reflexivity.
  unfold notified, MidtransAdapter.handle_notification, try_except, bind, lift, raise, ret.
  cbn. repeat split_match; reflexivity.
Qed.

Lemma notification_returned py self E op w :
  is_notification op = true ->
  primary_key (table w) ->
  fst (run py self E op w) = Ok tt ->
  exists order_id new,
    notified py E op = Some (order_id, new) /\
    run py self E op w = (Ok tt, applied E order_id new w).
Proof.
  intros Hop Hkey Hreturned. destruct op as [| | data verify | data | |]; try discriminate.
  - cbn in *.
    destruct (verify && negb (WebhookHandler.verify_signature py
                                (MidtransAdapter.server_key self) data)) eqn:Hverify.
    { unfold WebhookHandler.process_webhook, try_except in Hreturned.
      rewrite Hverify in Hreturned. discriminate. }
    destruct (WebhookHandler.parse_notification data) as [n | e] eqn:Hparse.
    + exists (wn_order_id n), (WebhookHandler.map_status_to_payment_status
                                 (wn_transaction_status n) (wn_fraud_status n)).
      split; [reflexivity |].
      exact (process_webhook_runs py _ E data verify w n Hverify Hparse Hkey).
    + unfold WebhookHandler.process_webhook, try_except in Hreturned.
      rewrite Hverify in Hreturned. unfold bind, lift in Hreturned.
      rewrite Hparse in Hreturned. now destruct e.
  - cbn in *.
    destruct (fst (MidtransAdapter.handle_notification py E data {| table := []; log := [] |}))
      as [n | e] eqn:Hn.
    + exists (pn_order_id n), (pn_status n). split; [reflexivity |].
      exact (handle_notification_runs py E data w n Hn Hkey).
    + unfold PaymentService.handle_notification, try_except, bind in Hreturned.
      rewrite handle_notification_pure, Hn in Hreturned. discriminate.
Qed.

Lemma process_webhook_raised py server_key E notification_data verify w e :
  primary_key (table w) ->
  fst (WebhookHandler.process_webhook py server_key E notification_data verify w) = Raise e ->
  snd (WebhookHandler.process_webhook py server_key E notification_data verify w) = w.
Proof.
  intros Hkey Hraised.
  destruct (verify && negb (WebhookHandler.verify_signature py server_key notification_data))
    eqn:Hverify.
  - unfold WebhookHandler.process_webhook, try_except. now rewrite Hverify.
  - destruct (WebhookHandler.parse_notification notification_data) as [n | e'] eqn:Hparse.
    + pose proof (process_webhook_runs py server_key E notification_data verify w n
                    Hverify Hparse Hkey) as Hrun.
      apply (f_equal fst) in Hrun. unfold outcome in Hrun. cbn in Hrun.
      rewrite Hraised in Hrun. discriminate.
    + unfold WebhookHandler.process_webhook, try_except. rewrite Hverify.
      unfold bind, lift. rewrite Hparse. now destruct e'.
Qed.

Lemma handle_notification_raised py E notification_data w e :
  primary_key (table w) ->
  fst (PaymentService.handle_notification py E notification_data w) = Raise e ->
  snd (PaymentService.handle_notification py E notification_data w) = w.
Proof.
  intros Hkey Hraised.
  destruct (fst (MidtransAdapter.handle_notification py E notification_data
                   {| table := []; log := [] |})) as [n | e'] eqn:Hn.
  - pose proof (handle_notification_runs py E notification_data w n Hn Hkey) as Hrun.
    apply (f_equal fst) in Hrun. unfold outcome in Hrun. cbn in Hrun.
    rewrite Hraised in Hrun. discriminate.
  - unfold PaymentService.handle_notification, try_except. unfold bind at 1.
    now rewrite handle_notification_pure, Hn.
Qed.

Lemma notification_returns_again py self E1 E2 op w w' :
  is_notification op = true ->
  primary_key (table w) ->
  primary_key (table w') ->
  fst (run py self E1 op w) = Ok tt ->
  fst (run py self E2 op w') = Ok tt.
Proof.
  intros Hop Hkey Hkey' Hreturned.
  destruct (notification_returned py self E1 op w Hop Hkey Hreturned)
    as (order_id & new & Hnotified & _).
  destruct op as [| | data verify | data | |]; try discriminate.
  - cbn in Hreturned |- *.
    destruct (verify && negb (WebhookHandler.verify_signature py
                                (MidtransAdapter.server_key self) data)) eqn:Hverify.
    { unfold WebhookHandler.process_webhook, try_except in Hreturned.
      rewrite Hverify in Hreturned. discriminate. }
    cbn in Hnotified.
    destruct (WebhookHandler.parse_notification data) as [n |] eqn:Hparse; [| discriminate].
    change (fst (outcome (WebhookHandler.process_webhook py
                            (MidtransAdapter.server_key self) E2 data verify w')) = Ok tt).
    now rewrite (process_webhook_runs py _ E2 data verify _ n Hverify Hparse Hkey').
  - rewrite (notified_any_clock py E1 E2) in Hnotified. cbn in Hnotified |- *.
    destruct (fst (MidtransAdapter.handle_notification py E2 data
                     {| table := []; log := [] |})) as [n |] eqn:Hn; [| discriminate].
    change (fst (outcome (PaymentService.handle_notification py E2 data w')) = Ok tt).
    now rewrite (handle_notification_runs py E2 data _ n Hn Hkey').
Qed.

(** A notification that is refused leaves the world as it was. *)
Lemma notification_refused py self E op w e :
  is_notification op = true ->
  primary_key (table w) ->
  fst (run py self E op w) = Raise e ->
  step py self E op w = w.
Proof.
  intros Hop Hkey Hraised. unfold step.
  destruct op as [| | data verify | data | |]; try discriminate;
    unfold run, outcome in *; cbn [fst snd] in *.
  - destruct (fst (WebhookHandler.process_webhook _ _ _ _ _ _)) as [| e'] eqn:Hfst;
      [discriminate |].
    exact (process_webhook_raised _ _ _ _ _ _ e' Hkey Hfst).
  - destruct (fst (PaymentService.handle_notification _ _ _ _)) as [| e'] eqn:Hfst;
      [discriminate |].
    exact (handle_notification_raised _ _ _ _ e' Hkey Hfst).
Qed.

(** C9, as the code has it. A notification (through
    [WebhookHandler.process_webhook] or through
    [PaymentService.handle_notification]) is applied twice to a table in
    which the rows of an order differ in [created_at]. The second
    application writes no row and leaves the table as the first left it,
    and the two together write at most one row. When the first application
    returns, the second returns as well and its only effect is the lookup
    by order; the first has written one row when the status of the row at
    index 0 differed from the notified one (the row then carries the
    notified status and the time of the first application) and none when
    it was already equal or the order has no row. *)
Theorem notification_twice_writes_once py self E1 E2 op w :
  is_notification op = true ->
  primary_key (table w) ->
  created_apart (table w) ->
  let w1 := step py self E1 op w in
  let w2 := step py self E2 op w1 in
  table w2 = table w1 /\
  writes w2 = writes w1 /\
  (writes w1 = writes w \/ writes w1 = S (writes w)) /\
  (fst (run py self E1 op w) = Ok tt ->
   exists order_id new,
     notified py E1 op = Some (order_id, new) /\
     run py self E2 op w1 = (Ok tt, logged w1 [SelectByOrder order_id]) /\
     match active_payment order_id w with
     | Some r =>
         if status_eqb (PaymentRecord.status r) new
         then table w1 = table w /\ writes w1 = writes w
         else
           writes w1 = S (writes w) /\
           active_payment order_id w2 = Some (DatabaseAdapter.set_status E1 r new) /\
           find_row (PaymentRecord.payment_id r) (table w2)
           = Some (DatabaseAdapter.set_status E1 r new)
     | None => table w1 = table w /\ writes w1 = writes w
     end).
Proof.
  intros Hop Hkey _ w1 w2.
  destruct (fst (run py self E1 op w)) as [[] | e] eqn:Hreturned.
  - destruct (notification_returned py self E1 op w Hop Hkey Hreturned)
      as (order_id & new & Hnotified & Hrun1).
    assert (Hw1 : w1 = applied E1 order_id new w)
      by (subst w1; unfold step; now rewrite Hrun1).
    assert (Hkey1 : primary_key (table w1))
      by (rewrite Hw1; now apply primary_key_applied).
    assert (Hagain := notification_returns_again py self E1 E2 op w w1
                        Hop Hkey Hkey1 Hreturned).
    destruct (notification_returned py self E2 op w1 Hop Hkey1 Hagain)
      as (order_id' & new' & Hnotified' & Hrun2).
    rewrite (notified_any_clock py E2 E1), Hnotified in Hnotified'.
    injection Hnotified' as <- <-.
    rewrite Hw1, applied_twice in Hrun2 by exact Hkey. rewrite <- Hw1 in Hrun2.
    assert (Hw2 : w2 = logged w1 [SelectByOrder order_id])
      by (subst w2; unfold step; now rewrite Hrun2).
    assert (Hcases :
      match active_payment order_id w with
      | Some r =>
          if status_eqb (PaymentRecord.status r) new
          then table w1 = table w /\ writes w1 = writes w
          else
            writes w1 = S (writes w) /\
            active_payment order_id w2 = Some (DatabaseAdapter.set_status E1 r new) /\
            find_row (PaymentRecord.payment_id r) (table w2)
            = Some (DatabaseAdapter.set_status E1 r new)
      | None => table w1 = table w /\ writes w1 = writes w
      end).
    { rewrite Hw2, Hw1. unfold applied.
      destruct (active_payment order_id w) as [r |] eqn:Hactive; [| now split].
      destruct (status_eqb (PaymentRecord.status r) new) eqn:Hsame; [now split |].
      pose proof (primary_key_find _ _ Hkey (active_payment_in _ _ _ Hactive)) as Hfind.
      split; [reflexivity |]. cbn [table logged].
      split.
      - unfold active_payment in *. unfold logged. cbn [table].
        rewrite (replace_row_restamp E1 _ new _ _ Hkey Hfind), rows_of_order_restamp.
        destruct (rows_of_order order_id (table w)) as [| r0 rest]; [discriminate |].
        injection Hactive as ->. cbn. unfold restamp. now rewrite String.eqb_refl.
      - now apply (find_row_replace_same _ _ r). }
    split; [now rewrite Hw2 |]. split; [now rewrite Hw2 |].
    split.
    + destruct (active_payment order_id w) as [r |]; [| left; tauto].
      destruct (status_eqb (PaymentRecord.status r) new); [left | right]; tauto.
    + intros _. exists order_id, new. now repeat split.
  - assert (Hw1 : w1 = w) by exact (notification_refused py self E1 op w e Hop Hkey Hreturned).
    assert (Hw2 : w2 = w).
    { subst w2. rewrite Hw1.
      destruct (fst (run py self E2 op w)) as [[] | e2] eqn:Hsecond.
      - pose proof (notification_returns_again py self E2 E1 op w w Hop Hkey Hkey Hsecond)
          as Hfirst.
        rewrite Hreturned in Hfirst. discriminate.
      - exact (notification_refused py self E2 op w e2 Hop Hkey Hsecond). }
    rewrite Hw2, Hw1. repeat split; [now left | discriminate].
Qed.

Lemma notification_twice_writes_once_witness :
  let op := Webhook (Sample.notification "expire" JNull) false in
  let w1 := step Sample.py Sample.self (Sample.answering (Unreachable "unused") 2000) op
              (Sample.holding PENDING) in
  let w2 := step Sample.py Sample.self (Sample.answering (Unreachable "unused") 3000) op w1 in
  table w2 = table w1 /\ writes w2 = writes w1.
Proof.
  intros op w1 w2.
  assert (Hkey : primary_key (table (Sample.holding PENDING))).
  { unfold primary_key. cbn. constructor; [intros [] | constructor]. }
  assert (Hapart : created_apart (table (Sample.holding PENDING))).
  { intros a b [<- | []] [<- | []] _ _. reflexivity. }
  destruct (notification_twice_writes_once Sample.py Sample.self
              (Sample.answering (Unreachable "unused") 2000)
              (Sample.answering (Unreachable "unused") 3000) op (Sample.holding PENDING)
              eq_refl Hkey Hapart)
    as (Htable & Hwrites & _).
  split; assumption.
Defined.

(** C9, as the claim has it, fails: a notification of "expire" for a
    payment that is stored as EXPIRED is applied twice and both
    applications return, yet no row is written and the stored row keeps its
    [updated_at]: there is no status transition, not one. *)
Lemma notification_already_applied :
  let op := Webhook (Sample.notification "expire" JNull) false in
  let before := Sample.holding EXPIRED in
  let first := run Sample.py Sample.self (Sample.answering (Unreachable "unused") 2000) op
                 before in
  let second := run Sample.py Sample.self (Sample.answering (Unreachable "unused") 3000) op
                  (snd first) in
  fst first = Ok tt /\ fst second = Ok tt /\
  writes (snd second) = 0%nat /\
  table (snd second) = table before /\
  option_map PaymentRecord.updated_at (find_row "payment-ORD-1" (table (snd second)))
  = Some 1000.
Proof.
  cbv zeta. repeat split; vm_compute; reflexivity.
Qed.

(** ** Which operation stores which status *)

Lemma get_payment_status_polled self E order_id w :
  MidtransAdapter.get_payment_status self E order_id w
  = (polled self E order_id, logged w [Http (GET (status_url self order_id))]).
Proof.
  unfold polled, status_url, MidtransAdapter.get_payment_status, try_except, bind,
    requests, emit, lift, raise, ret, logged.
  cbn. repeat split_match; reflexivity.
Qed.

Lemma polled_returns self E order_id : exists s, polled self E order_id = Ok s.
Proof.
  unfold polled.
  destruct (get_payment_status_returns self E order_id {| table := []; log := [] |})
    as [s Hs].
  exists s. now rewrite Hs.
Qed.

Lemma stored_status_replace payment_id E r new rows :
  find_row (PaymentRecord.payment_id r) rows = Some r ->
  option_map PaymentRecord.status
    (find_row payment_id (DatabaseAdapter.replace_row (DatabaseAdapter.set_status E r new) rows))
  = if String.eqb (PaymentRecord.payment_id r) payment_id then Some new
    else option_map PaymentRecord.status (find_row payment_id rows).
Proof.
  intros Hfind.
  destruct (String.eqb_spec (PaymentRecord.payment_id r) payment_id) as [Heq | Hne].
  - subst payment_id. now rewrite (find_row_replace_same _ _ r).
  - now rewrite find_row_replace_other.
Qed.

Lemma get_payment_effect self E payment_id w after :
  after = snd (PaymentService.get_payment self E payment_id w) ->
  effect E w after None
  \/ exists r new,
       effect E w after (Some (r, new))
       /\ PaymentRecord.payment_id r = payment_id
       /\ (PaymentRecord.status r = PENDING \/ PaymentRecord.status r = PROCESSING)
       /\ polled self E (PaymentRecord.order_id r) = Ok new.
Proof.
  intros Hafter.
  unfold PaymentService.get_payment, try_except in Hafter. unfold bind at 1 in Hafter.
  rewrite db_get_payment in Hafter.
  destruct (find_row payment_id (table w)) as [r |] eqn:Hfind; cbn in Hafter;
    [| left; subst after; now constructor].
  pose proof (find_row_id _ _ _ Hfind) as Hid.
  rewrite response_status, response_order_id, response_id in Hafter.
  destruct (status_eqb (PaymentRecord.status r) PENDING
            || status_eqb (PaymentRecord.status r) PROCESSING) eqn:Hrefresh;
    cbn in Hafter; [| left; subst after; now constructor].
  unfold bind at 1 in Hafter. rewrite get_payment_status_polled in Hafter.
  destruct (polled_returns self E (PaymentRecord.order_id r)) as [latest Hlatest].
  rewrite Hlatest in Hafter.
  destruct (status_eqb latest (PaymentRecord.status r)); cbn in Hafter;
    [left; subst after; now constructor |].
  unfold bind in Hafter. rewrite db_update_payment_status in Hafter. cbn in Hafter.
  rewrite Hid, Hfind in Hafter. rewrite db_get_payment in Hafter. cbn in Hafter.
  right. exists r, latest. repeat split.
  - subst after. constructor; [now rewrite Hid | reflexivity].
  - exact Hid.
  - apply orb_prop in Hrefresh. destruct Hrefresh as [H | H]; apply status_eqb_eq in H; tauto.
  - exact Hlatest.
Qed.

Lemma get_payment_status_effect self E payment_id w after :
  after = snd (PaymentService.get_payment_status self E payment_id w) ->
  effect E w after None
  \/ exists r new,
       effect E w after (Some (r, new))
       /\ PaymentRecord.payment_id r = payment_id
       /\ polled self E (PaymentRecord.order_id r) = Ok new.
Proof.
  intros Hafter.
  unfold PaymentService.get_payment_status in Hafter. unfold bind at 1 in Hafter.
  rewrite db_get_payment in Hafter.
  destruct (find_row payment_id (table w)) as [r |] eqn:Hfind; cbn in Hafter;
    [| left; subst after; now constructor].
  pose proof (find_row_id _ _ _ Hfind) as Hid.
  rewrite response_status, response_order_id in Hafter.
  unfold try_except in Hafter. unfold bind at 1 in Hafter.
  rewrite get_payment_status_polled in Hafter.
  destruct (polled_returns self E (PaymentRecord.order_id r)) as [latest Hlatest].
  rewrite Hlatest in Hafter.
  destruct (status_eqb latest (PaymentRecord.status r)); cbn in Hafter;
    [left; subst after; now constructor |].
  unfold bind in Hafter. rewrite db_update_payment_status in Hafter. cbn in Hafter.
  rewrite Hfind in Hafter. cbn in Hafter.
  right. exists r, latest. repeat split.
  - subst after. constructor; [now rewrite Hid | reflexivity].
  - exact Hid.
  - exact Hlatest.
Qed.

Lemma cancel_payment_effect py self E payment_id w after :
  after = snd (PaymentService.cancel_payment py self E payment_id w) ->
  effect E w after None
  \/ exists r,
       effect E w after (Some (r, CANCELED))
       /\ PaymentRecord.payment_id r = payment_id
       /\ (PaymentRecord.status r = PENDING \/ PaymentRecord.status r = PROCESSING).
Proof.
  intros Hafter.
  unfold PaymentService.cancel_payment in Hafter. unfold bind at 1 in Hafter.
  rewrite db_get_payment in Hafter.
  destruct (find_row payment_id (table w)) as [r |] eqn:Hfind; cbn in Hafter;
    [| left; subst after; now constructor].
  pose proof (find_row_id _ _ _ Hfind) as Hid.
  rewrite response_status, response_order_id in Hafter.
  destruct (status_eqb (PaymentRecord.status r) PENDING
            || status_eqb (PaymentRecord.status r) PROCESSING) eqn:Hpermitted;
    cbn in Hafter; [| left; subst after; now constructor].
  pose proof (proj1 (cancel_payment_outcome py self E (PaymentRecord.order_id r)
                       (logged w [SelectById payment_id]))) as Htable.
  unfold bind at 1 in Hafter.
  destruct (MidtransAdapter.cancel_payment _ _ _ _ _) as [[updated | e] w1];
    cbn in Htable, Hafter; [| left; subst after; now constructor].
  unfold bind in Hafter. rewrite db_update_payment_status, Htable, Hfind in Hafter.
  rewrite db_get_payment in Hafter. cbn in Hafter.
  right. exists r. repeat split.
  - subst after. constructor; [now rewrite Hid | reflexivity].
  - exact Hid.
  - apply orb_prop in Hpermitted.
    destruct Hpermitted as [H | H]; apply status_eqb_eq in H; tauto.
Qed.

Lemma refund_payment_effect py self E payment_id amount w after :
  after = snd (PaymentService.refund_payment py self E payment_id amount w) ->
  effect E w after None
  \/ exists r,
       effect E w after (Some (r, REFUNDED))
       /\ PaymentRecord.payment_id r = payment_id
       /\ PaymentRecord.status r = SUCCESS.
Proof.
  intros Hafter.
  unfold PaymentService.refund_payment in Hafter. unfold bind at 1 in Hafter.
  rewrite db_get_payment in Hafter.
  destruct (find_row payment_id (table w)) as [r |] eqn:Hfind; cbn in Hafter;
    [| left; subst after; now constructor].
  pose proof (find_row_id _ _ _ Hfind) as Hid.
  rewrite response_status, response_order_id in Hafter.
  destruct (status_eqb (PaymentRecord.status r) SUCCESS) eqn:Hpermitted;
    cbn in Hafter; [| left; subst after; now constructor].
  pose proof (proj1 (refund_payment_outcome py self E (PaymentRecord.order_id r) amount
                       (logged w [SelectById payment_id]))) as Htable.
  unfold bind at 1 in Hafter.
  destruct (MidtransAdapter.refund_payment _ _ _ _ _ _) as [[updated | e] w1];
    cbn in Htable, Hafter; [| left; subst after; now constructor].
  unfold bind in Hafter. rewrite db_update_payment_status, Htable, Hfind in Hafter.
  rewrite db_get_payment in Hafter. cbn in Hafter.
  right. exists r. repeat split.
  - subst after. constructor; [now rewrite Hid | reflexivity].
  - exact Hid.
  - now apply status_eqb_eq.
Qed.

Lemma applied_effect E order_id new w :
  primary_key (table w) ->
  effect E w (applied E order_id new w) None
  \/ exists r, effect E w (applied E order_id new w) (Some (r, new)).
Proof.
  intros Hkey. unfold applied.
  destruct (active_payment order_id w) as [r |] eqn:Hactive; [| left; now constructor].
  destruct (status_eqb (PaymentRecord.status r) new); [left; now constructor |].
  right. exists r. constructor; [| reflexivity].
  exact (primary_key_find _ _ Hkey (active_payment_in _ _ _ Hactive)).
Qed.

Lemma notification_effect py self E op w :
  is_notification op = true ->
  primary_key (table w) ->
  effect E w (step py self E op w) None
  \/ exists r order_id new,
       effect E w (step py self E op w) (Some (r, new))
       /\ notified py E op = Some (order_id, new).
Proof.
  intros Hop Hkey.
  destruct (fst (run py self E op w)) as [[] | e] eqn:Hreturned.
  - destruct (notification_returned py self E op w Hop Hkey Hreturned)
      as (order_id & new & Hnotified & Hrun).
    unfold step. rewrite Hrun. cbn [snd].
    destruct (applied_effect E order_id new w Hkey) as [H | [r H]]; [now left |].
    right. now exists r, order_id, new.
  - left. constructor. unfold step.
    destruct op as [| | data verify | data | |]; try discriminate;
      unfold run, outcome in *; cbn [fst snd] in *.
    + destruct (fst (WebhookHandler.process_webhook _ _ _ _ _ _)) as [| e'] eqn:Hfst;
        [discriminate |].
      now rewrite (process_webhook_raised _ _ _ _ _ _ e' Hkey Hfst).
    + destruct (fst (PaymentService.handle_notification _ _ _ _)) as [| e'] eqn:Hfst;
        [discriminate |].
      now rewrite (handle_notification_raised _ _ _ _ e' Hkey Hfst).
Qed.

Lemma effect_on_status E w after change payment_id s :
  effect E w after change ->
  stored_status payment_id w = Some s ->
  s <> REFUNDED ->
  stored_status payment_id after = Some REFUNDED ->
  exists r,
    change = Some (r, REFUNDED) /\ PaymentRecord.payment_id r = payment_id
    /\ PaymentRecord.status r = s /\ find_row payment_id (table w) = Some r.
Proof.
  unfold stored_status. intros Heffect Hbefore Hs Hafter.
  destruct Heffect as [Hsame | r new Hfind Htable].
  - rewrite Hsame, Hbefore in Hafter. congruence.
  - rewrite Htable, (stored_status_replace payment_id E r new _ Hfind) in Hafter.
    destruct (String.eqb_spec (PaymentRecord.payment_id r) payment_id) as [Heq | Hne].
    + injection Hafter as ->. exists r. subst payment_id.
      rewrite Hfind in Hbefore |- *. cbn in Hbefore. injection Hbefore as <-.
      now repeat split.
    + rewrite Hbefore in Hafter. congruence.
Qed.

(** C3, as the code has it. When one operation changes the stored status of
    a payment to REFUNDED, the operation is either the refund of that
    payment, and the status before was SUCCESS, or an update driven by the
    gateway for which the gateway reported REFUNDED: a read-with-refresh of
    that payment (whose status before was PENDING or PROCESSING), a
    force-check of that payment, or a notification, whatever the status
    before was. Cancel never stores REFUNDED. *)
Theorem refunded_by_refund_or_gateway py self E op w payment_id s :
  primary_key (table w) ->
  stored_status payment_id w = Some s ->
  s <> REFUNDED ->
  stored_status payment_id (step py self E op w) = Some REFUNDED ->
  match op with
  | Refund refunded _ => refunded = payment_id /\ s = SUCCESS
  | Cancel _ => False
  | Get read =>
      read = payment_id /\ (s = PENDING \/ s = PROCESSING) /\
      exists r, find_row payment_id (table w) = Some r
                /\ polled self E (PaymentRecord.order_id r) = Ok REFUNDED
  | ForceCheck checked =>
      checked = payment_id /\
      exists r, find_row payment_id (table w) = Some r
                /\ polled self E (PaymentRecord.order_id r) = Ok REFUNDED
  | Webhook _ _ | Notify _ =>
      exists order_id, notified py E op = Some (order_id, REFUNDED)
  end.
Proof.
  intros Hkey Hbefore Hs Hafter.
  destruct op as [read | checked | data verify | data | canceled | refunded amount].
  - destruct (get_payment_effect self E read w _ eq_refl)
      as [H | (r & new & H & Hid & Hstatus & Hpolled)];
      destruct (effect_on_status _ _ _ _ _ _ H Hbefore Hs Hafter)
        as (r' & Hchange & Hid' & Hstatus' & Hfind'); [discriminate |].
    injection Hchange as <- ->. subst s. repeat split; try congruence.
    now exists r.
  - destruct (get_payment_status_effect self E checked w _ eq_refl)
      as [H | (r & new & H & Hid & Hpolled)];
      destruct (effect_on_status _ _ _ _ _ _ H Hbefore Hs Hafter)
        as (r' & Hchange & Hid' & Hstatus' & Hfind'); [discriminate |].
    injection Hchange as <- ->. split; [congruence |]. now exists r.
  - destruct (notification_effect py self E (Webhook data verify) w eq_refl Hkey)
      as [H | (r & order_id & new & H & Hnotified)];
      destruct (effect_on_status _ _ _ _ _ _ H Hbefore Hs Hafter)
        as (r' & Hchange & _); [discriminate |].
    injection Hchange as <- ->. now exists order_id.
  - destruct (notification_effect py self E (Notify data) w eq_refl Hkey)
      as [H | (r & order_id & new & H & Hnotified)];
      destruct (effect_on_status _ _ _ _ _ _ H Hbefore Hs Hafter)
        as (r' & Hchange & _); [discriminate |].
    injection Hchange as <- ->. now exists order_id.
  - destruct (cancel_payment_effect py self E canceled w _ eq_refl)
      as [H | (r & H & Hid & Hstatus)];
      destruct (effect_on_status _ _ _ _ _ _ H Hbefore Hs Hafter)
        as (r' & Hchange & _); discriminate.
  - destruct (refund_payment_effect py self E refunded amount w _ eq_refl)
      as [H | (r & H & Hid & Hstatus)];
      destruct (effect_on_status _ _ _ _ _ _ H Hbefore Hs Hafter)
        as (r' & Hchange & Hid' & Hstatus' & _); [discriminate |].
    injection Hchange as <-. split; congruence.
Qed.

Lemma refunded_by_refund_or_gateway_witness :
  let E := Sample.answering (Sample.ok200 [("order_id", JStr "ORD-1")]) 2000 in
  let before := Sample.holding SUCCESS in
  let op := Refund "payment-ORD-1" (Some (inject_Z 100000)) in
  stored_status "payment-ORD-1" before = Some SUCCESS /\
  stored_status "payment-ORD-1" (step Sample.py Sample.self E op before) = Some REFUNDED /\
  "payment-ORD-1" = "payment-ORD-1" /\ SUCCESS = SUCCESS.
Proof.
  intros E before op.
  assert (Hkey : primary_key (table before)).
  { unfold primary_key. cbn. constructor; [intros [] | constructor]. }
  assert (Hbefore : stored_status "payment-ORD-1" before = Some SUCCESS) by reflexivity.
  assert (Hs : SUCCESS <> REFUNDED) by discriminate.
  assert (Hafter : stored_status "payment-ORD-1" (step Sample.py Sample.self E op before)
                   = Some REFUNDED) by reflexivity.
  split; [exact Hbefore |]. split; [exact Hafter |].
  exact (refunded_by_refund_or_gateway Sample.py Sample.self E op before
           "payment-ORD-1" SUCCESS Hkey Hbefore Hs Hafter).
Defined.

(** C3, as the claim has it, fails: a read-with-refresh of a PENDING
    payment for which the gateway reports "refund" stores REFUNDED, and the
    status before that step is PENDING, not SUCCESS. *)
Lemma refunded_reached_from_pending :
  let E := Sample.answering (Sample.ok200 [("transaction_status", JStr "refund")]) 2000 in
  let before := Sample.holding PENDING in
  let after := step Sample.py Sample.self E (Get "payment-ORD-1") before in
  stored_status "payment-ORD-1" before = Some PENDING /\
  stored_status "payment-ORD-1" after = Some REFUNDED /\
  PENDING <> SUCCESS.
Proof.
  cbv zeta. repeat split; try reflexivity. discriminate.
Qed.

(** ** Create *)

Lemma with_metadata_keeps payment record :
  let stored := DatabaseAdapter.with_metadata payment record in
  PaymentRecord.payment_id stored = PaymentRecord.payment_id record /\
  PaymentRecord.order_id stored = PaymentRecord.order_id record /\
  PaymentRecord.status stored = PaymentRecord.status record /\
  PaymentRecord.amount stored = PaymentRecord.amount record /\
  PaymentRecord.payment_method stored = PaymentRecord.payment_method record /\
  PaymentRecord.transaction_time stored = PaymentRecord.transaction_time record /\
  PaymentRecord.payment_url stored = PaymentRecord.payment_url record /\
  PaymentRecord.created_at stored = PaymentRecord.created_at record /\
  PaymentRecord.updated_at stored = PaymentRecord.updated_at record.
Proof.
  unfold DatabaseAdapter.with_metadata.
  destruct (metadata payment) as [[| entry md] |]; cbn; repeat split.
Qed.

Lemma overwrite_payment_id E existing payment :
  PaymentRecord.payment_id (DatabaseAdapter.overwrite E existing payment)
  = PaymentRecord.payment_id existing.
Proof.
  unfold DatabaseAdapter.overwrite. now rewrite (proj1 (with_metadata_keeps payment _)).
Qed.

Lemma new_payment_id payment :
  PaymentRecord.payment_id (DatabaseAdapter.new_payment payment) = id payment.
Proof.
  unfold DatabaseAdapter.new_payment. now rewrite (proj1 (with_metadata_keeps payment _)).
Qed.

Lemma overwrite_amount E existing payment :
  PaymentRecord.amount (DatabaseAdapter.overwrite E existing payment) = amount payment.
Proof.
  unfold DatabaseAdapter.overwrite.
  destruct (with_metadata_keeps payment
              {| PaymentRecord.payment_id := PaymentRecord.payment_id existing;
                 PaymentRecord.order_id := PaymentRecord.order_id existing;
                 PaymentRecord.status := status payment;
                 PaymentRecord.amount := amount payment;
                 PaymentRecord.payment_method := payment_method payment;
                 PaymentRecord.transaction_time := created_at payment;
                 PaymentRecord.expiry_time := PaymentRecord.expiry_time existing;
                 PaymentRecord.payment_url := payment_url payment;
                 PaymentRecord.token := PaymentRecord.token existing;
                 PaymentRecord.redirect_url := PaymentRecord.redirect_url existing;
                 PaymentRecord.qr_code_url := PaymentRecord.qr_code_url existing;
                 PaymentRecord.virtual_account_number :=
                   PaymentRecord.virtual_account_number existing;
                 PaymentRecord.bank_code := PaymentRecord.bank_code existing;
                 PaymentRecord.additional_data := PaymentRecord.additional_data existing;
                 PaymentRecord.created_at := PaymentRecord.created_at existing;
                 PaymentRecord.updated_at := utcnow E |})
    as (_ & _ & _ & Hamount & _).
  exact Hamount.
Qed.

Lemma new_payment_amount payment :
  PaymentRecord.amount (DatabaseAdapter.new_payment payment) = amount payment.
Proof.
  unfold DatabaseAdapter.new_payment.
  match goal with
  | |- context [DatabaseAdapter.with_metadata payment ?base] =>
      destruct (with_metadata_keeps payment base) as (_ & _ & _ & Hamount & _)
  end.
  exact Hamount.
Qed.

#[local] Arguments DatabaseAdapter.fits_decimal_15_2 : simpl never.

(** The row [save_payment] asks the database to write. *)
Lemma db_save_payment E payment w :
  DatabaseAdapter.save_payment E payment w
  = if DatabaseAdapter.fits_decimal_15_2 (amount payment)
    then
      (Ok tt,
       match find_row (id payment) (table w) with
       | Some existing =>
           {| table := DatabaseAdapter.replace_row
                         (DatabaseAdapter.overwrite E existing payment) (table w);
              log := Update (PaymentRecord.payment_id existing)
                     :: SelectById (id payment) :: log w |}
       | None =>
           {| table := table w ++ [DatabaseAdapter.new_payment payment];
              log := Insert (id payment) :: SelectById (id payment) :: log w |}
       end)
    else
      (Raise (ValueError
                ("Failed to save payment: "
                 ++ sqlalchemy_error E
                      match find_row (id payment) (table w) with
                      | Some existing => DatabaseAdapter.overwrite E existing payment
                      | None => DatabaseAdapter.new_payment payment
                      end)),
       logged w [SelectById (id payment)]).
Proof.
  unfold DatabaseAdapter.save_payment, DatabaseAdapter.query_first,
    DatabaseAdapter.commit_or_rollback, DatabaseAdapter.commit_update,
    DatabaseAdapter.commit_insert, bind, emit, read_table, write_table, ret, raise,
    find_row, logged.
  cbn. destruct (find _ (table w)) as [existing |]; cbn.
  - rewrite overwrite_amount.
    destruct (DatabaseAdapter.fits_decimal_15_2 (amount payment)); [| reflexivity].
    now rewrite overwrite_payment_id.
  - rewrite new_payment_amount.
    destruct (DatabaseAdapter.fits_decimal_15_2 (amount payment)); [| reflexivity].
    now rewrite new_payment_id.
Qed.

Lemma db_save_payment_returns E payment w :
  fst (DatabaseAdapter.save_payment E payment w) = Ok tt <->
  DatabaseAdapter.fits_decimal_15_2 (amount payment) = true.
Proof.
  rewrite db_save_payment.
  destruct (DatabaseAdapter.fits_decimal_15_2 (amount payment)); cbn; split;
    intros H; try reflexivity; discriminate H.
Qed.

Lemma db_save_payment_fits E payment w :
  DatabaseAdapter.fits_decimal_15_2 (amount payment) = true ->
  DatabaseAdapter.save_payment E payment w
  = (Ok tt,
     match find_row (id payment) (table w) with
     | Some existing =>
         {| table := DatabaseAdapter.replace_row
                       (DatabaseAdapter.overwrite E existing payment) (table w);
            log := Update (PaymentRecord.payment_id existing)
                   :: SelectById (id payment) :: log w |}
     | None =>
         {| table := table w ++ [DatabaseAdapter.new_payment payment];
            log := Insert (id payment) :: SelectById (id payment) :: log w |}
     end).
Proof. intros Hfits. now rewrite db_save_payment, Hfits. Qed.

Lemma db_save_payment_table E payment w e :
  fst (DatabaseAdapter.save_payment E payment w) = Raise e ->
  (exists msg, e = ValueError ("Failed to save payment: " ++ msg)) /\
  snd (DatabaseAdapter.save_payment E payment w) = logged w [SelectById (id payment)].
Proof.
  rewrite db_save_payment.
  destruct (DatabaseAdapter.fits_decimal_15_2 (amount payment)); cbn; [discriminate |].
  intros [= <-]. split; [eexists |]; reflexivity.
Qed.

Lemma find_row_app_new payment_id rows r :
  find_row payment_id rows = None ->
  PaymentRecord.payment_id r = payment_id ->
  find_row payment_id (rows ++ [r]) = Some r.
Proof.
  unfold find_row. intros Hnone Hid. induction rows as [| x rows IH]; cbn in *.
  - now rewrite Hid, String.eqb_refl.
  - destruct (String.eqb (PaymentRecord.payment_id x) payment_id); [discriminate |].
    now apply IH.
Qed.


(** What a payment made by the gateway adapter looks like. *)
Lemma adapter_create_payment_returns py self E payment_request w payment w' :
  MidtransAdapter.create_payment py self E payment_request w = (Ok payment, w') ->
  table w' = table w /\
  id payment = "payment-" ++ req_order_id payment_request /\
  order_id payment = req_order_id payment_request /\
  amount payment = req_amount payment_request /\
  status payment = PENDING /\
  payment_method payment = req_payment_method payment_request /\
  created_at payment = now E /\
  updated_at payment = now E.
Proof.
  unfold MidtransAdapter.create_payment, try_except, bind, requests, emit, lift, raise, ret,
    response_json, as_dict, as_optional_str.
  cbn. repeat split_match; intros [= <- <-]; repeat split.
Qed.

Lemma service_create_payment_returns py self E payment_request w payment w' :
  PaymentService.create_payment py self E payment_request w = (Ok payment, w') ->
  exists w0,
    MidtransAdapter.create_payment py self E payment_request w = (Ok payment, w0) /\
    DatabaseAdapter.fits_decimal_15_2 (amount payment) = true /\
    w' = snd (DatabaseAdapter.save_payment E payment w0).
Proof.
  unfold PaymentService.create_payment, try_except. unfold bind at 1.
  destruct (MidtransAdapter.create_payment py self E payment_request w)
    as [[made | e] w0]; [| discriminate].
  unfold bind. rewrite !db_save_payment.
  destruct (DatabaseAdapter.fits_decimal_15_2 (amount made)) eqn:Hfits; [| discriminate].
  cbn. intros H. injection H as Hmade Hworld.
  subst made w'. exists w0. split; [reflexivity |]. split; [exact Hfits |].
  now rewrite db_save_payment, Hfits.
Qed.


Lemma service_create_payment_runs py self E payment_request w :
  PaymentService.create_payment py self E payment_request w
  = match MidtransAdapter.create_payment py self E payment_request w with
    | (Ok made, w0) =>
        match DatabaseAdapter.save_payment E made w0 with
        | (Ok _, w1) => (Ok made, w1)
        | (Raise e, w1) =>
            (Raise (ValueError ("Failed to create payment: " ++ str_exn e)), w1)
        end
    | (Raise e, w0) =>
        (Raise (ValueError ("Failed to create payment: " ++ str_exn e)), w0)
    end.
Proof.
  unfold PaymentService.create_payment, try_except. unfold bind at 1.
  destruct (MidtransAdapter.create_payment py self E payment_request w)
    as [[made | e0] w0]; [| reflexivity].
  unfold bind.
  now destruct (DatabaseAdapter.save_payment E made w0) as [[[] | e1] w1].
Qed.




(** * Further properties of the code *)

(** ** The storage adapter *)

Lemma lookup_set_item (d : dict) k k' v :
  lookup k (set_item d k' v) = if String.eqb k k' then Some v else lookup k d.
Proof.
  induction d as [| [k0 v0] d IH]; cbn.
  - reflexivity.
  - destruct (String.eqb_spec k' k0) as [-> | Hne]; cbn.
    + now destruct (String.eqb k k0).
    + destruct (String.eqb_spec k k0) as [-> | Hne'].
      * destruct (String.eqb_spec k0 k'); [congruence | reflexivity].
      * exact IH.
Qed.

Lemma lookup_absent {A : Type} k (d : list (string * A)) :
  ~ In k (map fst d) -> lookup k d = None.
Proof.
  induction d as [| [k0 v0] d IH]; cbn; [reflexivity |].
  intros Hnot. destruct (String.eqb_spec k k0) as [-> | Hne].
  - elim Hnot. now left.
  - apply IH. intros Hin. apply Hnot. now right.
Qed.

Lemma lookup_update (other d : dict) k :
  NoDup (map fst other) ->
  lookup k (update d other)
  = match lookup k other with
    | Some v => Some v
    | None => lookup k d
    end.
Proof.
  unfold update. revert d. induction other as [| [k1 v1] other IH]; intros d Hkeys; cbn.
  - reflexivity.
  - inversion Hkeys as [| ? ? Hfresh Hrest]; subst.
    rewrite IH by exact Hrest. rewrite lookup_set_item.
    destruct (String.eqb_spec k k1) as [-> | Hne]; [| reflexivity].
    now rewrite (lookup_absent k1 other Hfresh).
Qed.

Lemma lookup_put_if_set key column (d : dict) k :
  lookup k (DatabaseAdapter.put_if_set key column d)
  = if truthy column && String.eqb k key then Some column else lookup k d.
Proof.
  unfold DatabaseAdapter.put_if_set. destruct (truthy column); cbn; [| reflexivity].
  apply lookup_set_item.
Qed.

Lemma get_absent (d : dict) k : lookup k d = None -> truthy (get d k) = false.
Proof. unfold get, get_default. now intros ->. Qed.

(** The metadata read back from a row that was written with [md]. *)
Lemma stored_metadata_lookup payment record md k :
  metadata payment = Some md ->
  NoDup (map fst md) ->
  lookup_metadata k
    (metadata (DatabaseAdapter._payment_record_to_response
                 (DatabaseAdapter.with_metadata payment record)))
  = match md with
    | [] =>
        lookup_metadata k
          (metadata (DatabaseAdapter._payment_record_to_response record))
    | _ => lookup k md
    end.
Proof.
  intros Hmd Hkeys. unfold DatabaseAdapter.with_metadata. rewrite Hmd.
  destruct md as [| entry rest]; [reflexivity |].
  set (full := entry :: rest) in *.
  unfold DatabaseAdapter._payment_record_to_response. cbn [metadata].
  cbn [PaymentRecord.token PaymentRecord.redirect_url PaymentRecord.qr_code_url
       PaymentRecord.virtual_account_number PaymentRecord.bank_code
       PaymentRecord.additional_data].
  match goal with
  | |- context [update ?columns full] => set (d := update columns full)
  end.
  assert (Hlookup : lookup k d = lookup k full).
  { subst d. rewrite lookup_update by exact Hkeys.
    destruct (lookup k full) as [v |] eqn:Hk; [reflexivity |].
    rewrite !lookup_put_if_set.
    repeat match goal with
    | |- context [truthy (get full ?key) && String.eqb k ?key] =>
        let Hkey := fresh "Hkey" in
        destruct (String.eqb k key) eqn:Hkey;
        [apply String.eqb_eq in Hkey;
         rewrite (get_absent full key) by (rewrite <- Hkey; exact Hk)
        | rewrite andb_false_r]; cbn [andb]
    end;
    reflexivity. }
  clearbody d. destruct d; exact Hlookup.
Qed.

Lemma new_payment_read_back E payment w :
  find_row (id payment) (table w) = None ->
  (forall md, metadata payment = Some md -> NoDup (map fst md)) ->
  fst (DatabaseAdapter.save_payment E payment w) = Ok tt ->
  exists stored,
    fst (DatabaseAdapter.get_payment (id payment)
           (snd (DatabaseAdapter.save_payment E payment w))) = Ok (Some stored) /\
    id stored = id payment /\
    order_id stored = order_id payment /\
    transaction_id stored = id payment /\
    amount stored = amount payment /\
    status stored = status payment /\
    payment_method stored = payment_method payment /\
    payment_url stored = payment_url payment /\
    created_at stored = created_at payment /\
    updated_at stored = updated_at payment /\
    forall key, lookup_metadata key (metadata stored) = lookup_metadata key (metadata payment).
Proof.
  intros Hfresh Hkeys Hsaved. apply db_save_payment_returns in Hsaved.
  exists (DatabaseAdapter._payment_record_to_response (DatabaseAdapter.new_payment payment)).
  split.
  { rewrite db_save_payment_fits, Hfresh, db_get_payment by exact Hsaved.
    cbn [fst snd table].
    rewrite (find_row_app_new _ _ _ Hfresh (new_payment_id payment)). reflexivity. }
  unfold DatabaseAdapter.new_payment.
  match goal with
  | |- context [DatabaseAdapter.with_metadata payment ?base] =>
      destruct (with_metadata_keeps payment base)
        as (Hi & Ho & Hs & Ha & Hm & _ & Hu & Hc & Hp);
      set (fresh_row := base) in *
  end.
  change (id (DatabaseAdapter._payment_record_to_response ?r))
    with (PaymentRecord.payment_id r).
  change (order_id (DatabaseAdapter._payment_record_to_response ?r))
    with (PaymentRecord.order_id r).
  change (transaction_id (DatabaseAdapter._payment_record_to_response ?r))
    with (PaymentRecord.payment_id r).
  change (amount (DatabaseAdapter._payment_record_to_response ?r))
    with (PaymentRecord.amount r).
  change (status (DatabaseAdapter._payment_record_to_response ?r))
    with (PaymentRecord.status r).
  change (payment_method (DatabaseAdapter._payment_record_to_response ?r))
    with (PaymentRecord.payment_method r).
  change (payment_url (DatabaseAdapter._payment_record_to_response ?r))
    with (PaymentRecord.payment_url r).
  change (created_at (DatabaseAdapter._payment_record_to_response ?r))
    with (PaymentRecord.created_at r).
  change (updated_at (DatabaseAdapter._payment_record_to_response ?r))
    with (PaymentRecord.updated_at r).
  rewrite Hi, Ho, Hs, Ha, Hm, Hu, Hc, Hp.
  repeat (split; [reflexivity |]).
  intros key. destruct (metadata payment) as [md |] eqn:Hmd.
  - rewrite (stored_metadata_lookup payment fresh_row md key Hmd (Hkeys md eq_refl)).
    now destruct md.
  - unfold DatabaseAdapter.with_metadata. now rewrite Hmd.
Qed.

(** X1. A payment with an amount of at most two decimals whose save under
    an id the table does not hold yet returns (the database has not
    refused the row) is read back by [get_payment] with the same id, order
    id, amount, status, payment method, payment url and times, and with
    the same value under every key of its metadata; its transaction id is
    read back as the payment id. *)
Theorem save_then_get_payment E payment w :
  find_row (id payment) (table w) = None ->
  (forall md, metadata payment = Some md -> NoDup (map fst md)) ->
  two_decimals (amount payment) = true ->
  fst (DatabaseAdapter.save_payment E payment w) = Ok tt ->
  exists stored,
    fst (DatabaseAdapter.get_payment (id payment)
           (snd (DatabaseAdapter.save_payment E payment w))) = Ok (Some stored) /\
    id stored = id payment /\
    order_id stored = order_id payment /\
    transaction_id stored = id payment /\
    amount stored = amount payment /\
    status stored = status payment /\
    payment_method stored = payment_method payment /\
    payment_url stored = payment_url payment /\
    created_at stored = created_at payment /\
    updated_at stored = updated_at payment /\
    forall key, lookup_metadata key (metadata stored) = lookup_metadata key (metadata payment).
Proof.
  intros Hfresh Hkeys _ Hsaved.
  exact (new_payment_read_back E payment w Hfresh Hkeys Hsaved).
Qed.

Lemma save_then_get_payment_witness :
  let payment :=
    {| id := "payment-ORD-7"; order_id := "ORD-7"; transaction_id := "ORD-7";
       amount := inject_Z 50000; status := PENDING; payment_method := RETAIL;
       payment_url := None; created_at := 500; updated_at := 500;
       metadata := Some [("token", JStr "t7"); ("store", JStr "indomaret")] |} in
  exists stored,
    fst (DatabaseAdapter.get_payment "payment-ORD-7"
           (snd (DatabaseAdapter.save_payment (Sample.answering (Unreachable "unused") 600)
                   payment (Sample.holding SUCCESS)))) = Ok (Some stored) /\
    transaction_id stored = "payment-ORD-7" /\
    lookup_metadata "store" (metadata stored) = Some (JStr "indomaret").
Proof.
  intros payment.
  assert (Hfresh : find_row (id payment) (table (Sample.holding SUCCESS)) = None)
    by reflexivity.
  assert (Hkeys : forall md, metadata payment = Some md -> NoDup (map fst md)).
  { intros md [= <-]. cbn. constructor; [intros [H | []]; discriminate H |].
    constructor; [intros [] | constructor]. }
  assert (Hdecimals : two_decimals (amount payment) = true) by reflexivity.
  assert (Hsaved : fst (DatabaseAdapter.save_payment
                          (Sample.answering (Unreachable "unused") 600) payment
                          (Sample.holding SUCCESS)) = Ok tt) by reflexivity.
  destruct (save_then_get_payment (Sample.answering (Unreachable "unused") 600) payment
              (Sample.holding SUCCESS) Hfresh Hkeys Hdecimals Hsaved)
    as (stored & Hget & _ & _ & Htx & _ & _ & _ & _ & _ & _ & Hmeta).
  exists stored. split; [exact Hget |]. split; [exact Htx |]. exact (Hmeta "store").
Defined.

Lemma same_payment_refl r : same_payment r r.
Proof. unfold same_payment. repeat split. Qed.

Lemma same_payment_set_status E r s : same_payment r (DatabaseAdapter.set_status E r s).
Proof. unfold same_payment. repeat split. Qed.

Lemma Forall2_same_payment_refl rows : Forall2 same_payment rows rows.
Proof. induction rows; constructor; [apply same_payment_refl | assumption]. Qed.

Lemma replace_row_same_payment E r s rows :
  find_row (PaymentRecord.payment_id r) rows = Some r ->
  Forall2 same_payment rows (DatabaseAdapter.replace_row (DatabaseAdapter.set_status E r s) rows).
Proof.
  unfold find_row. induction rows as [| x rows IH]; [discriminate |].
  cbn [find]. rewrite replace_row_cons. cbn [PaymentRecord.payment_id DatabaseAdapter.set_status].
  destruct (String.eqb (PaymentRecord.payment_id x) (PaymentRecord.payment_id r)).
  - intros [= ->]. constructor; [apply same_payment_set_status |].
    apply Forall2_same_payment_refl.
  - intros Hfind. constructor; [apply same_payment_refl | now apply IH].
Qed.

(** X2. [update_payment_status] for an id the table does not hold raises
    "Payment with ID ... not found" after the lookup and writes nothing.
    For an id it holds it returns, the row of that id carries the new
    status and the time of the call, no row is added or removed, nothing
    but status and [updated_at] changes, the rows of other ids are the same,
    and [get_payment] then returns the payment with the new status. *)
Theorem update_payment_status_spec E payment_id s w :
  let after := DatabaseAdapter.update_payment_status E payment_id s w in
  match find_row payment_id (table w) with
  | None =>
      after = (Raise (ValueError ("Payment with ID " ++ payment_id ++ " not found")),
               logged w [SelectById payment_id])
  | Some r =>
      fst after = Ok tt /\
      Forall2 same_payment (table w) (table (snd after)) /\
      find_row payment_id (table (snd after)) = Some (DatabaseAdapter.set_status E r s) /\
      (forall other, other <> payment_id ->
         find_row other (table (snd after)) = find_row other (table w)) /\
      fst (DatabaseAdapter.get_payment payment_id (snd after))
      = Ok (Some (DatabaseAdapter._payment_record_to_response
                    (DatabaseAdapter.set_status E r s)))
  end.
Proof.
  cbv zeta. rewrite db_update_payment_status.
  destruct (find_row payment_id (table w)) as [r |] eqn:Hfind; [| reflexivity].
  pose proof (find_row_id _ _ _ Hfind) as Hid. cbn [fst snd table].
  assert (Hsame : find_row payment_id
                    (DatabaseAdapter.replace_row (DatabaseAdapter.set_status E r s) (table w))
                  = Some (DatabaseAdapter.set_status E r s))
    by (apply (find_row_replace_same _ _ r); assumption).
  split; [reflexivity |]. split.
  { apply replace_row_same_payment. now rewrite Hid. }
  split; [exact Hsame |]. split.
  - intros other Hother. apply find_row_replace_other. cbn. congruence.
  - rewrite db_get_payment. cbn [fst table]. now rewrite Hsame.
Qed.

Lemma insert_desc_permutation r sorted :
  Permutation (DatabaseAdapter.insert_desc r sorted) (r :: sorted).
Proof.
  induction sorted as [| x sorted IH]; cbn; [reflexivity |].
  destruct (PaymentRecord.created_at x <=? PaymentRecord.created_at r); [reflexivity |].
  rewrite IH. apply perm_swap.
Qed.

Lemma order_by_permutation rows :
  Permutation (DatabaseAdapter.order_by_created_at_desc rows) rows.
Proof.
  unfold DatabaseAdapter.order_by_created_at_desc.
  induction rows as [| x rows IH]; cbn; [reflexivity |].
  rewrite insert_desc_permutation. now constructor.
Qed.

Lemma insert_desc_sorted r sorted :
  StronglySorted (fun a b => PaymentRecord.created_at b <= PaymentRecord.created_at a) sorted ->
  StronglySorted (fun a b => PaymentRecord.created_at b <= PaymentRecord.created_at a)
    (DatabaseAdapter.insert_desc r sorted).
Proof.
  induction sorted as [| x sorted IH]; intros Hsorted; cbn.
  - constructor; constructor.
  - inversion Hsorted as [| ? ? Hrest Hall]; subst.
    destruct (Z.leb_spec (PaymentRecord.created_at x) (PaymentRecord.created_at r))
      as [Hle | Hgt].
    + constructor; [exact Hsorted |]. constructor; [exact Hle |].
      eapply Forall_impl; [| exact Hall]. cbn. intros y Hy. lia.
    + constructor; [now apply IH |].
      apply (Permutation_Forall (Permutation_sym (insert_desc_permutation r sorted))).
      constructor; [lia | exact Hall].
Qed.

Lemma order_by_sorted rows :
  StronglySorted (fun a b => PaymentRecord.created_at b <= PaymentRecord.created_at a)
    (DatabaseAdapter.order_by_created_at_desc rows).
Proof.
  unfold DatabaseAdapter.order_by_created_at_desc.
  induction rows as [| x rows IH]; cbn; [constructor | now apply insert_desc_sorted].
Qed.

Lemma responses_sorted rows :
  StronglySorted (fun a b => PaymentRecord.created_at b <= PaymentRecord.created_at a) rows ->
  StronglySorted (fun a b => created_at b <= created_at a)
    (map DatabaseAdapter._payment_record_to_response rows).
Proof.
  induction 1 as [| x rows Hsorted IH Hall]; cbn; constructor; [exact IH |].
  apply Forall_map. exact Hall.
Qed.

(** X3. [get_payments_by_order] returns the payments of the rows that carry
    the order id, each of them once and no other, the latest created
    first; its only effect is the one query. *)
Theorem get_payments_by_order_sorted order w :
  exists payments,
    DatabaseAdapter.get_payments_by_order order w
    = (Ok payments, logged w [SelectByOrder order]) /\
    Forall (fun p => order_id p = order) payments /\
    StronglySorted (fun a b => created_at b <= created_at a) payments /\
    Permutation payments
      (map DatabaseAdapter._payment_record_to_response
         (filter (fun r => String.eqb (PaymentRecord.order_id r) order) (table w))).
Proof.
  eexists. split; [apply db_get_payments_by_order |].
  unfold rows_of_order. split; [| split].
  - apply Forall_map.
    apply (Permutation_Forall (Permutation_sym (order_by_permutation _))).
    apply Forall_forall. intros r Hin. apply filter_In in Hin.
    now apply String.eqb_eq.
  - apply responses_sorted, order_by_sorted.
  - apply Permutation_map, order_by_permutation.
Qed.

(** ** What the operations leave alone *)

Lemma effect_same_payment E w after change :
  effect E w after change -> Forall2 same_payment (table w) (table after).
Proof.
  intros [Hsame | r new Hfind Htable].
  - rewrite Hsame. apply Forall2_same_payment_refl.
  - rewrite Htable. now apply replace_row_same_payment.
Qed.

Lemma step_same_payment py self E op w :
  primary_key (table w) ->
  Forall2 same_payment (table w) (table (step py self E op w)).
Proof.
  intros Hkey.
  destruct op as [read | checked | data verify | data | canceled | refunded amount].
  - destruct (get_payment_effect self E read w _ eq_refl) as [H | (r & new & H & _)];
      exact (effect_same_payment _ _ _ _ H).
  - destruct (get_payment_status_effect self E checked w _ eq_refl)
      as [H | (r & new & H & _)];
      exact (effect_same_payment _ _ _ _ H).
  - destruct (notification_effect py self E (Webhook data verify) w eq_refl Hkey)
      as [H | (r & order & new & H & _)];
      exact (effect_same_payment _ _ _ _ H).
  - destruct (notification_effect py self E (Notify data) w eq_refl Hkey)
      as [H | (r & order & new & H & _)];
      exact (effect_same_payment _ _ _ _ H).
  - destruct (cancel_payment_effect py self E canceled w _ eq_refl) as [H | (r & H & _)];
      exact (effect_same_payment _ _ _ _ H).
  - destruct (refund_payment_effect py self E refunded amount w _ eq_refl)
      as [H | (r & H & _)];
      exact (effect_same_payment _ _ _ _ H).
Qed.

(** X4. None of the update operations (read-with-refresh, force-check, the
    two notification paths, cancel, refund) adds or removes a row, and none
    changes anything in a row but its status and [updated_at]: id, order
    id, amount, payment method, payment url, the gateway artifacts and
    [created_at] of every row are those before the operation, whether the
    operation returns or raises. *)
Theorem operations_keep_payments py self E op w :
  primary_key (table w) ->
  Forall2 same_payment (table w) (table (step py self E op w)).
Proof. exact (step_same_payment py self E op w). Qed.

Lemma operations_keep_payments_witness :
  Forall2 same_payment (table (Sample.holding PENDING))
    (table (step Sample.py Sample.self
              (Sample.answering (Sample.ok200 [("transaction_status", JStr "settlement")])
                 2000)
              (ForceCheck "payment-ORD-1") (Sample.holding PENDING))).
Proof.
  apply operations_keep_payments.
  unfold primary_key. cbn. constructor; [intros [] | constructor].
Defined.

Lemma same_payment_ids before after :
  Forall2 same_payment before after ->
  map PaymentRecord.payment_id after = map PaymentRecord.payment_id before.
Proof.
  induction 1 as [| a b before after Hab _ IH]; cbn; [reflexivity |].
  now rewrite IH, (proj1 Hab).
Qed.

Lemma primary_key_save E payment w :
  primary_key (table w) ->
  primary_key (table (snd (DatabaseAdapter.save_payment E payment w))).
Proof.
  unfold primary_key. intros Hkey. rewrite db_save_payment.
  destruct (DatabaseAdapter.fits_decimal_15_2 (amount payment)); [| exact Hkey].
  cbn [snd].
  destruct (find_row (id payment) (table w)) as [existing |] eqn:Hfind; cbn [table].
  - assert (Hids : forall record rows,
               map PaymentRecord.payment_id (DatabaseAdapter.replace_row record rows)
               = map PaymentRecord.payment_id rows).
    { intros record rows. induction rows as [| x rows IH]; [reflexivity |].
      rewrite replace_row_cons.
      destruct (String.eqb_spec (PaymentRecord.payment_id x)
                  (PaymentRecord.payment_id record)) as [Heq | _]; cbn.
      - now rewrite Heq.
      - now rewrite IH. }
    now rewrite Hids.
  - rewrite map_app. cbn. rewrite new_payment_id.
    apply NoDup_app_remove_l with (l := []). cbn.
    apply Permutation_NoDup with (l := id payment :: map PaymentRecord.payment_id (table w)).
    + apply Permutation_cons_append.
    + constructor; [| exact Hkey].
      intros Hin. apply in_map_iff in Hin. destruct Hin as (r & Hid & Hin).
      unfold find_row in Hfind.
      apply (find_none _ _ Hfind) in Hin. rewrite Hid, String.eqb_refl in Hin.
      discriminate.
Qed.

(** X5. The primary key is an invariant of the service: when no two rows
    share a payment id, none do after a create or after any of the update
    operations, whether the operation returns or raises. *)
Theorem operations_keep_primary_key py self E w :
  primary_key (table w) ->
  (forall payment_request,
     primary_key
       (table (snd (PaymentService.create_payment py self E payment_request w)))) /\
  (forall op, primary_key (table (step py self E op w))).
Proof.
  intros Hkey. split.
  - intros payment_request. rewrite service_create_payment_runs.
    destruct (MidtransAdapter.create_payment py self E payment_request w)
      as [[made | e] w0] eqn:Hmade.
    + destruct (adapter_create_payment_returns _ _ _ _ _ _ _ Hmade) as (Htable & _).
      assert (Hkey0 : primary_key (table w0)) by now rewrite Htable.
      pose proof (primary_key_save E made w0 Hkey0) as Hsaved.
      destruct (DatabaseAdapter.save_payment E made w0) as [[[] | e] w1]; exact Hsaved.
    + cbn. unfold MidtransAdapter.create_payment, try_except, bind, requests, emit, lift,
        raise, ret in Hmade.
      revert Hmade. cbn. repeat split_match; intros [= _ <-]; exact Hkey.
  - intros op. unfold primary_key.
    rewrite (same_payment_ids _ _ (step_same_payment py self E op w Hkey)).
    exact Hkey.
Qed.

Lemma operations_keep_primary_key_witness :
  primary_key
    (table (snd (PaymentService.create_payment Sample.py Sample.self
                   (Sample.answering Sample.created 2000) (Sample.request 100000)
                   (Sample.holding SUCCESS)))).
Proof.
  apply (operations_keep_primary_key Sample.py Sample.self
           (Sample.answering Sample.created 2000) (Sample.holding SUCCESS)).
  unfold primary_key. cbn. constructor; [intros [] | constructor].
Defined.

(** ** Create *)

(** X6. A create request with an empty order id or with an amount that is
    not above zero is refused before anything else happens: the service
    raises "Failed to create payment: " followed by "Order ID is required"
    or "Amount must be greater than 0", no request goes to the gateway and
    nothing is stored. *)
Theorem create_payment_refuses_bad_request py self E payment_request w :
  req_order_id payment_request = "" \/ (req_amount payment_request <= 0)%Q ->
  exists msg,
    (msg = "Order ID is required" \/ msg = "Amount must be greater than 0") /\
    MidtransAdapter.create_payment py self E payment_request w = (Raise (ValueError msg), w) /\
    PaymentService.create_payment py self E payment_request w
    = (Raise (ValueError ("Failed to create payment: " ++ msg)), w).
Proof.
  intros Hbad.
  assert (Hadapter : exists msg,
             (msg = "Order ID is required" \/ msg = "Amount must be greater than 0") /\
             MidtransAdapter.create_payment py self E payment_request w
             = (Raise (ValueError msg), w)).
  { unfold MidtransAdapter.create_payment.
    destruct (String.eqb_spec (req_order_id payment_request) "") as [Hempty | Hfilled].
    - exists "Order ID is required". split; [now left | reflexivity].
    - destruct Hbad as [Hempty | Hamount]; [contradiction |].
      apply Qle_bool_iff in Hamount. rewrite Hamount, orb_true_r.
      exists "Amount must be greater than 0". split; [now right | reflexivity]. }
  destruct Hadapter as (msg & Hmsg & Hrun). exists msg. split; [exact Hmsg |].
  split; [exact Hrun |].
  unfold PaymentService.create_payment, try_except. unfold bind at 1. now rewrite Hrun.
Qed.

Lemma create_payment_refuses_bad_request_witness :
  exists msg,
    PaymentService.create_payment Sample.py Sample.self
      (Sample.answering Sample.created 2000) (Sample.request 0) Sample.empty
    = (Raise (ValueError ("Failed to create payment: " ++ msg)), Sample.empty).
Proof.
  assert (Hbad : req_order_id (Sample.request 0) = ""
                 \/ (req_amount (Sample.request 0) <= 0)%Q)
    by (right; cbn; apply Qle_refl).
  destruct (create_payment_refuses_bad_request Sample.py Sample.self
              (Sample.answering Sample.created 2000) (Sample.request 0) Sample.empty Hbad)
    as (msg & _ & _ & Hrun).
  now exists msg.
Defined.

Lemma adapter_create_payment_raised py self E payment_request w e w' :
  MidtransAdapter.create_payment py self E payment_request w = (Raise e, w') ->
  (exists msg, e = ValueError msg) /\ (w' = w \/ exists req, w' = logged w [Http req]).
Proof.
  unfold MidtransAdapter.create_payment, try_except, bind, requests, emit, lift, raise, ret,
    response_json, as_dict, as_optional_str, logged.
  cbn. repeat split_match; intros [= <- <-];
    (split; [eexists; reflexivity | try (now left); right; eexists; reflexivity]).
Qed.

Lemma adapter_create_payment_accepted py self E payment_request w made w' :
  MidtransAdapter.create_payment py self E payment_request w = (Ok made, w') ->
  exists req r,
    gateway E req = Reply r /\ status_code r = 201 /\ w' = logged w [Http req].
Proof.
  unfold MidtransAdapter.create_payment, try_except, bind, requests, emit, lift, raise, ret,
    response_json, as_dict, as_optional_str, logged.
  cbn. repeat split_match; try discriminate; intros [= _ <-];
    match goal with
    | H : gateway _ ?req = Reply ?r, H' : negb (status_code ?r =? 201) = false |- _ =>
        exists req, r; apply negb_false_iff, Z.eqb_eq in H'; repeat split; assumption
    end.
Qed.

(** X7. Whenever the create of the service raises, it raises a ValueError
    that starts with "Failed to create payment: " and the table is as it
    was. Either at most the one request to the gateway has happened, or
    the gateway has accepted the request and the save has failed after the
    lookup by id, and the message goes on with "Failed to save payment: ".
    The create does raise, without a lookup, whenever the gateway cannot
    be reached or answers with a status other than 201, and it raises
    whenever the amount overflows the column DECIMAL(15, 2). *)
Theorem create_payment_failure_stores_nothing py self E payment_request w :
  let after := PaymentService.create_payment py self E payment_request w in
  (forall e, fst after = Raise e ->
     (exists msg, e = ValueError ("Failed to create payment: " ++ msg)) /\
     table (snd after) = table w /\
     (snd after = w
      \/ (exists req, snd after = logged w [Http req])
      \/ exists req msg,
           snd after
           = logged w [SelectById ("payment-" ++ req_order_id payment_request); Http req] /\
           e = ValueError ("Failed to create payment: Failed to save payment: " ++ msg))) /\
  ((forall req, match gateway E req with
                | Unreachable _ => True
                | Reply r => status_code r <> 201
                end) ->
   exists e,
     fst after = Raise e /\ (snd after = w \/ exists req, snd after = logged w [Http req])) /\
  (DatabaseAdapter.fits_decimal_15_2 (req_amount payment_request) = false ->
   exists e, fst after = Raise e).
Proof.
  cbv zeta. rewrite service_create_payment_runs.
  destruct (MidtransAdapter.create_payment py self E payment_request w)
    as [[made | e0] w0] eqn:Hmade.
  - destruct (adapter_create_payment_returns _ _ _ _ _ _ _ Hmade)
      as (Htable & Hid & _ & Hamount & _).
    destruct (adapter_create_payment_accepted _ _ _ _ _ _ _ Hmade)
      as (req & r & Hreply & Hcode & Hw0).
    rewrite db_save_payment, Hamount. split; [| split].
    + destruct (DatabaseAdapter.fits_decimal_15_2 (req_amount payment_request));
        [discriminate |].
      cbn [fst snd str_exn]. intros e [= <-].
      split; [eexists; reflexivity |]. split; [exact Htable |].
      right. right. exists req. eexists.
      split; [now rewrite Hw0, Hid, logged_logged | reflexivity].
    + intros Hdown. specialize (Hdown req). rewrite Hreply in Hdown. contradiction.
    + intros ->. eexists. reflexivity.
  - destruct (adapter_create_payment_raised _ _ _ _ _ _ _ Hmade) as ([msg ->] & Hworld).
    cbn [fst snd str_exn]. split; [| split].
    + intros e [= <-]. split; [now exists msg |].
      split; [destruct Hworld as [-> | [req ->]]; reflexivity |].
      destruct Hworld as [-> | [req ->]]; [now left | right; left; now exists req].
    + intros _. eexists. split; [reflexivity | exact Hworld].
    + intros _. eexists. reflexivity.
Qed.

Lemma create_payment_failure_stores_nothing_witness :
  let after :=
    PaymentService.create_payment Sample.py Sample.self
      (Sample.answering Sample.created 2000) (Sample.request (10 ^ 13))
      (Sample.holding SUCCESS) in
  fst after
  = Raise (ValueError
             "Failed to create payment: Failed to save payment: numeric field overflow") /\
  table (snd after) = table (Sample.holding SUCCESS).
Proof.
  intros after.
  assert (Hraised : fst after
                    = Raise (ValueError
                               "Failed to create payment: Failed to save payment: numeric field overflow"))
    by reflexivity.
  split; [exact Hraised |].
  exact (proj1 (proj2 (proj1 (create_payment_failure_stores_nothing Sample.py Sample.self
                                (Sample.answering Sample.created 2000)
                                (Sample.request (10 ^ 13)) (Sample.holding SUCCESS))
                         _ Hraised))).
Defined.

Lemma created_metadata_keys py self E payment_request w payment w' :
  MidtransAdapter.create_payment py self E payment_request w = (Ok payment, w') ->
  forall md, metadata payment = Some md -> NoDup (map fst md).
Proof.
  unfold MidtransAdapter.create_payment, try_except, bind, requests, emit, lift, raise, ret,
    response_json, as_dict, as_optional_str.
  cbn. repeat split_match; intros [= <- <-] md [= <-]; cbn;
    repeat (constructor; [cbn; intros H; repeat (destruct H as [H | H]; [discriminate H |]);
                          exact H |]);
    constructor.
Qed.

(** X8. After a create that returns, for an amount of at most two decimals
    and an order whose id is not stored yet, the storage adapter reads the
    payment back under the id "payment-" followed by the order id, with
    the order id and the amount of the request, the status PENDING, the
    payment url the create returned, the time of the create as
    [created_at], and the token and redirect url of the gateway in its
    metadata. *)
Theorem create_then_get_payment py self E payment_request w payment w' :
  PaymentService.create_payment py self E payment_request w = (Ok payment, w') ->
  find_row ("payment-" ++ req_order_id payment_request) (table w) = None ->
  two_decimals (req_amount payment_request) = true ->
  exists stored,
    fst (DatabaseAdapter.get_payment ("payment-" ++ req_order_id payment_request) w')
    = Ok (Some stored) /\
    id stored = "payment-" ++ req_order_id payment_request /\
    order_id stored = req_order_id payment_request /\
    amount stored = req_amount payment_request /\
    status stored = PENDING /\
    payment_url stored = payment_url payment /\
    created_at stored = now E /\
    lookup_metadata "token" (metadata stored) = lookup_metadata "token" (metadata payment) /\
    lookup_metadata "redirect_url" (metadata stored)
    = lookup_metadata "redirect_url" (metadata payment).
Proof.
  intros Hcreate Hfresh _.
  destruct (service_create_payment_returns _ _ _ _ _ _ _ Hcreate)
    as (w0 & Hmade & Hfits & Hw').
  destruct (adapter_create_payment_returns _ _ _ _ _ _ _ Hmade)
    as (Htable & Hid & Horder & Hamount & Hstatus & _ & Hcreated & _).
  rewrite <- Hid, <- Htable in Hfresh.
  destruct (new_payment_read_back E payment w0 Hfresh
              (created_metadata_keys _ _ _ _ _ _ _ Hmade)
              (proj2 (db_save_payment_returns E payment w0) Hfits))
    as (stored & Hget & Hi & Ho & _ & Ha & Hs & _ & Hu & Hc & _ & Hmeta).
  exists stored. rewrite <- Hid, Hw'.
  split; [exact Hget |].
  repeat split; try congruence; apply Hmeta.
Qed.

Lemma create_then_get_payment_witness :
  exists stored,
    fst (DatabaseAdapter.get_payment "payment-ORD-1"
           (snd (PaymentService.create_payment Sample.py Sample.self
                   (Sample.answering Sample.created 1000) (Sample.request 100000)
                   Sample.empty)))
    = Ok (Some stored) /\
    status stored = PENDING /\
    payment_url stored = Some "https://app.sandbox.midtrans.com/snap/v2/vtweb/t1".
Proof.
  destruct (PaymentService.create_payment Sample.py Sample.self
              (Sample.answering Sample.created 1000) (Sample.request 100000) Sample.empty)
    as [[payment | e] w'] eqn:Hcreate; [| vm_compute in Hcreate; discriminate Hcreate].
  destruct (create_then_get_payment Sample.py Sample.self
              (Sample.answering Sample.created 1000) (Sample.request 100000) Sample.empty
              payment w' Hcreate eq_refl eq_refl)
    as (stored & Hget & _ & _ & _ & Hstatus & Hurl & _).
  exists stored. split; [exact Hget |]. split; [exact Hstatus |].
  rewrite Hurl. vm_compute in Hcreate. now injection Hcreate as <- _.
Defined.

(** ** The status tables, once more *)

Lemma table_never_processing s :
  get_default MidtransAdapter.status_mapping s PENDING <> PROCESSING.
Proof.
  unfold get_default, MidtransAdapter.status_mapping, lookup.
  repeat match goal with
  | |- context [String.eqb s ?k] => destruct (String.eqb s k); [discriminate |]
  end.
  discriminate.
Qed.

Lemma notification_table_is_table s :
  get_default MidtransAdapter.notification_status_mapping s PENDING
  = get_default MidtransAdapter.status_mapping s PENDING.
Proof.
  unfold get_default, MidtransAdapter.notification_status_mapping,
    MidtransAdapter.status_mapping, lookup.
  destruct (String.eqb_spec s "pending") as [-> | _]; [reflexivity |].
  repeat match goal with
  | |- context [String.eqb s ?k] => destruct (String.eqb s k); [reflexivity |]
  end.
  reflexivity.
Qed.

(** X9. No path that maps a gateway status ever yields PROCESSING: neither
    the status query, nor the webhook mapper, nor [handle_notification],
    nor [handle_webhook]. *)
Theorem gateway_never_reports_processing py self E order fraud transaction_status data w :
  fst (MidtransAdapter.get_payment_status self E order w) <> Ok PROCESSING /\
  WebhookHandler.map_status_to_payment_status transaction_status fraud <> PROCESSING /\
  (forall n, fst (MidtransAdapter.handle_notification py E data w) = Ok n ->
             pn_status n <> PROCESSING) /\
  (forall p, fst (MidtransAdapter.handle_webhook py E data w) = Ok p ->
             status p <> PROCESSING).
Proof.
  split; [| split; [| split]].
  - unfold MidtransAdapter.get_payment_status, MidtransAdapter.mapping_get, try_except,
      bind, requests, emit, lift, raise, ret, response_json, as_dict.
    cbn. repeat split_match; try discriminate.
    all: intros [= H]; exact (table_never_processing _ H).
  - unfold WebhookHandler.map_status_to_payment_status.
    assert (H := table_never_processing (lower transaction_status)).
    destruct fraud as [f |]; [| exact H].
    destruct (String.eqb_spec f "deny") as [-> | Hne]; [discriminate |].
    repeat (destruct f as [| [[] [] [] [] [] [] [] []] f]; try exact H); congruence.
  - intros n. unfold MidtransAdapter.handle_notification, try_except, bind, lift, raise, ret,
      MidtransAdapter.str_lower.
    cbn. repeat split_match; try discriminate.
    all: intros [= <-]; cbn [pn_status]; rewrite notification_table_is_table;
      apply table_never_processing.
  - intros p. unfold MidtransAdapter.handle_webhook, try_except, bind, lift, raise, ret,
      MidtransAdapter.str_lower.
    cbn. repeat split_match; try discriminate.
    all: intros [= <-]; cbn [status]; rewrite notification_table_is_table;
      apply table_never_processing.
Qed.

Lemma map_status_unfolded transaction_status fraud :
  WebhookHandler.map_status_to_payment_status transaction_status fraud
  = match fraud with
    | Some f =>
        if String.eqb f "deny" then FAILED
        else get_default MidtransAdapter.status_mapping (lower transaction_status) PENDING
    | None => get_default MidtransAdapter.status_mapping (lower transaction_status) PENDING
    end.
Proof.
  unfold WebhookHandler.map_status_to_payment_status.
  destruct fraud as [f |]; [| reflexivity].
  destruct (String.eqb_spec f "deny") as [-> | Hne]; [reflexivity |].
  repeat (destruct f as [| [[] [] [] [] [] [] [] []] f]; try reflexivity); congruence.
Qed.

Lemma parse_notification_fields data parsed :
  WebhookHandler.parse_notification data = Ok parsed ->
  lookup "order_id" data = Some (JStr (wn_order_id parsed)) /\
  lookup "transaction_status" data = Some (JStr (wn_transaction_status parsed)).
Proof.
  unfold WebhookHandler.parse_notification, WebhookHandler.and_then,
    WebhookHandler.check_required, WebhookHandler.required_fields, as_str, as_optional_str,
    get, get_default, contains.
  destruct (lookup "transaction_id" data) as [[] |]; try discriminate;
    destruct (lookup "order_id" data) as [[] |]; try discriminate;
    destruct (lookup "transaction_status" data) as [[] |]; try discriminate;
    destruct (lookup "gross_amount" data) as [[] |]; try discriminate;
    destruct (lookup "payment_type" data) as [[] |]; try discriminate;
    repeat split_match; try discriminate;
    intros [= <-]; split; reflexivity.
Qed.

Lemma handle_notification_fields py E data w n :
  fst (MidtransAdapter.handle_notification py E data w) = Ok n ->
  exists transaction_status,
    get_default data "transaction_status" (JStr "") = JStr transaction_status /\
    get_default data "order_id" (JStr "") = JStr (pn_order_id n) /\
    pn_status n
    = get_default MidtransAdapter.status_mapping (lower transaction_status) PENDING.
Proof.
  unfold MidtransAdapter.handle_notification, try_except, bind, lift, raise, ret,
    MidtransAdapter.str_lower, as_str.
  cbn.
  destruct (get_default data "transaction_status" (JStr "")) as [| | | ts | |];
    destruct (get_default data "order_id" (JStr "")) as [| | | order | |];
    repeat split_match; try discriminate;
    intros [= <-]; exists ts; cbn; repeat split; apply notification_table_is_table.
Qed.

(** X10. On one payload the two notification paths read the same order and,
    unless the fraud status is "deny", the same status: what
    [MidtransAdapter.handle_notification] returns is what
    [WebhookHandler.parse_notification] and the webhook mapper give. *)
Theorem notification_paths_agree py E data w n parsed :
  fst (MidtransAdapter.handle_notification py E data w) = Ok n ->
  WebhookHandler.parse_notification data = Ok parsed ->
  wn_fraud_status parsed <> Some "deny" ->
  pn_order_id n = wn_order_id parsed /\
  pn_status n
  = WebhookHandler.map_status_to_payment_status
      (wn_transaction_status parsed) (wn_fraud_status parsed).
Proof.
  intros Hn Hparsed Hfraud. rewrite map_status_unfolded.
  destruct (parse_notification_fields data parsed Hparsed) as [Horder Hstatus].
  destruct (handle_notification_fields py E data w n Hn) as (ts & Hts & Horder' & Hmapped).
  unfold get_default in Hts, Horder'. rewrite Hstatus in Hts. rewrite Horder in Horder'.
  injection Hts as <-. injection Horder' as Heq.
  split; [now symmetry |]. rewrite Hmapped.
  destruct (wn_fraud_status parsed) as [f |]; [| reflexivity].
  destruct (String.eqb_spec f "deny") as [-> | _]; [congruence | reflexivity].
Qed.

Lemma notification_paths_agree_witness :
  exists n parsed,
    fst (MidtransAdapter.handle_notification Sample.py
           (Sample.answering (Unreachable "unused") 2000)
           (Sample.notification "Expire" (JStr "accept")) Sample.empty) = Ok n /\
    WebhookHandler.parse_notification (Sample.notification "Expire" (JStr "accept"))
    = Ok parsed /\
    pn_status n
    = WebhookHandler.map_status_to_payment_status
        (wn_transaction_status parsed) (wn_fraud_status parsed).
Proof.
  eexists _, _. split; [reflexivity |]. split; [reflexivity |].
  refine (proj2 (notification_paths_agree Sample.py
                   (Sample.answering (Unreachable "unused") 2000)
                   (Sample.notification "Expire" (JStr "accept")) Sample.empty
                   _ _ eq_refl eq_refl _)).
  cbn. discriminate.
Defined.

(** X11. The status query and the webhook mapper agree on every
    transaction status that is written in lower case: a 200 reply that
    carries such a status (and a fraud status that is a string or absent)
    is mapped by [get_payment_status] to what
    [map_status_to_payment_status] gives for the same pair. *)
Theorem polling_agrees_on_lower_case self E order w r fields transaction_status fraud :
  gateway E (GET (status_url self order)) = Reply r ->
  status_code r = 200 ->
  body r = Some (JObj fields) ->
  get fields "transaction_status" = JStr transaction_status ->
  lower transaction_status = transaction_status ->
  as_optional_str "fraud_status" (get fields "fraud_status") = Ok fraud ->
  fst (MidtransAdapter.get_payment_status self E order w)
  = Ok (WebhookHandler.map_status_to_payment_status transaction_status fraud).
Proof.
  intros Hreply Hcode Hbody Hstatus Hlower Hfraud.
  rewrite (polled_status self E order w r fields Hreply Hcode Hbody), Hstatus.
  rewrite map_status_unfolded, Hlower. cbn [MidtransAdapter.mapping_get].
  destruct (get fields "fraud_status") as [| | | f | |]; try discriminate;
    injection Hfraud as <-; cbn [eq_str]; [reflexivity |].
  now destruct (String.eqb f "deny").
Qed.

Lemma polling_agrees_on_lower_case_witness :
  let E := Sample.answering
             (Sample.ok200 [("transaction_status", JStr "partial_refund");
                            ("fraud_status", JStr "accept")]) 2000 in
  fst (MidtransAdapter.get_payment_status Sample.self E "ORD-1" Sample.empty)
  = Ok (WebhookHandler.map_status_to_payment_status "partial_refund" (Some "accept")).
Proof.
  intros E.
  exact (polling_agrees_on_lower_case Sample.self E "ORD-1" Sample.empty _ _
           "partial_refund" (Some "accept") eq_refl eq_refl eq_refl eq_refl eq_refl eq_refl).
Defined.

(** X12. [handle_webhook] and [handle_notification] read a payload alike:
    when both return, the payment and the notification carry the same
    order id, transaction id, amount and status, and the id of the payment
    is "payment-" followed by the transaction id. *)
Theorem handle_webhook_as_handle_notification py E data w p n :
  fst (MidtransAdapter.handle_webhook py E data w) = Ok p ->
  fst (MidtransAdapter.handle_notification py E data w) = Ok n ->
  order_id p = pn_order_id n /\
  transaction_id p = pn_transaction_id n /\
  amount p = pn_amount n /\
  status p = pn_status n /\
  id p = "payment-" ++ pn_transaction_id n.
Proof.
  unfold MidtransAdapter.handle_webhook, MidtransAdapter.handle_notification, try_except,
    bind, lift, raise, ret, MidtransAdapter.str_lower, as_str.
  cbn. repeat split_match; try discriminate.
  all: intros [= <-] [= <-]; repeat split.
Qed.

Lemma handle_webhook_as_handle_notification_witness :
  exists p n,
    fst (MidtransAdapter.handle_webhook Sample.py
           (Sample.answering (Unreachable "unused") 2000)
           (Sample.notification "capture" JNull) Sample.empty) = Ok p /\
    fst (MidtransAdapter.handle_notification Sample.py
           (Sample.answering (Unreachable "unused") 2000)
           (Sample.notification "capture" JNull) Sample.empty) = Ok n /\
    status p = pn_status n /\ id p = "payment-tx-1".
Proof.
  eexists _, _. split; [reflexivity |]. split; [reflexivity |].
  destruct (handle_webhook_as_handle_notification Sample.py
              (Sample.answering (Unreachable "unused") 2000)
              (Sample.notification "capture" JNull) Sample.empty _ _ eq_refl eq_refl)
    as (_ & _ & _ & Hstatus & Hid).
  split; [exact Hstatus | exact Hid].
Defined.

(** ** Cancel and refund at the gateway *)

Lemma service_cancel_payment_runs py self E payment_id w r :
  find_row payment_id (table w) = Some r ->
  PaymentRecord.status r = PENDING \/ PaymentRecord.status r = PROCESSING ->
  PaymentService.cancel_payment py self E payment_id w
  = match MidtransAdapter.cancel_payment py self E (PaymentRecord.order_id r)
            (logged w [SelectById payment_id]) with
    | (Ok _, w1) =>
        (Ok (Some (DatabaseAdapter._payment_record_to_response
                     (DatabaseAdapter.set_status E r CANCELED))),
         {| table := DatabaseAdapter.replace_row (DatabaseAdapter.set_status E r CANCELED)
                       (table w);
            log := SelectById payment_id :: Update payment_id :: SelectById payment_id
                   :: log w1 |})
    | (Raise e, w1) => (Raise e, w1)
    end.
Proof.
  intros Hfind Hstatus. pose proof (find_row_id _ _ _ Hfind) as Hid.
  unfold PaymentService.cancel_payment. unfold bind at 1.
  rewrite db_get_payment, Hfind. cbn. rewrite response_status, response_order_id.
  assert (Hgo : negb (status_eqb (PaymentRecord.status r) PENDING
                      || status_eqb (PaymentRecord.status r) PROCESSING) = false)
    by (destruct Hstatus as [-> | ->]; reflexivity).
  rewrite Hgo.
  pose proof (proj1 (cancel_payment_outcome py self E (PaymentRecord.order_id r)
                       (logged w [SelectById payment_id]))) as Htable.
  unfold bind at 1.
  destruct (MidtransAdapter.cancel_payment _ _ _ _ _) as [[updated | e] w1];
    cbn in Htable |- *; [| reflexivity].
  unfold bind. rewrite db_update_payment_status, Htable, Hfind.
  rewrite db_get_payment. cbn.
  rewrite (find_row_replace_same _ _ r) by assumption.
  now rewrite Hid.
Qed.

Lemma service_refund_payment_runs py self E payment_id amount w r :
  find_row payment_id (table w) = Some r ->
  PaymentRecord.status r = SUCCESS ->
  PaymentService.refund_payment py self E payment_id amount w
  = match MidtransAdapter.refund_payment py self E (PaymentRecord.order_id r) amount
            (logged w [SelectById payment_id]) with
    | (Ok _, w1) =>
        (Ok (Some (DatabaseAdapter._payment_record_to_response
                     (DatabaseAdapter.set_status E r REFUNDED))),
         {| table := DatabaseAdapter.replace_row (DatabaseAdapter.set_status E r REFUNDED)
                       (table w);
            log := SelectById payment_id :: Update payment_id :: SelectById payment_id
                   :: log w1 |})
    | (Raise e, w1) => (Raise e, w1)
    end.
Proof.
  intros Hfind Hstatus. pose proof (find_row_id _ _ _ Hfind) as Hid.
  unfold PaymentService.refund_payment. unfold bind at 1.
  rewrite db_get_payment, Hfind. cbn. rewrite response_status, response_order_id, Hstatus.
  cbn.
  pose proof (proj1 (refund_payment_outcome py self E (PaymentRecord.order_id r) amount
                       (logged w [SelectById payment_id]))) as Htable.
  unfold bind at 1.
  destruct (MidtransAdapter.refund_payment _ _ _ _ _ _) as [[updated | e] w1];
    cbn in Htable |- *; [| reflexivity].
  unfold bind. rewrite db_update_payment_status, Htable, Hfind.
  rewrite db_get_payment. cbn.
  rewrite (find_row_replace_same _ _ r) by assumption.
  now rewrite Hid.
Qed.

Lemma adapter_cancel_refused py self E order w :
  refused (gateway E (cancel_request self order)) ->
  exists msg,
    MidtransAdapter.cancel_payment py self E order w
    = (Raise (ValueError ("Failed to cancel payment: " ++ msg)),
       logged w [Http (cancel_request self order)]).
Proof.
  unfold refused, cancel_request, MidtransAdapter.cancel_payment, try_except, bind, requests,
    emit, lift, raise, ret, raise_for_status, logged.
  cbn. destruct (gateway E _) as [why | r]; cbn.
  - intros _. now exists why.
  - intros [Hlow Hhigh].
    apply Z.leb_le in Hlow. apply Z.ltb_lt in Hhigh. rewrite Hlow, Hhigh. cbn.
    eexists. reflexivity.
Qed.

(** X13. A cancel of the service that raises has written nothing: the table
    is the one before the call. For a payment in PENDING or PROCESSING
    whose cancel request the gateway refuses (it cannot be reached or
    answers with a status from 400 to 599) the service raises "Failed to
    cancel payment: ..." and the payment keeps its stored status. *)
Theorem cancel_payment_failure_writes_nothing py self E payment_id w :
  let after := PaymentService.cancel_payment py self E payment_id w in
  (forall e, fst after = Raise e -> table (snd after) = table w) /\
  (forall r,
     find_row payment_id (table w) = Some r ->
     PaymentRecord.status r = PENDING \/ PaymentRecord.status r = PROCESSING ->
     refused (gateway E (cancel_request self (PaymentRecord.order_id r))) ->
     (exists msg, fst after = Raise (ValueError ("Failed to cancel payment: " ++ msg))) /\
     find_row payment_id (table (snd after)) = Some r).
Proof.
  cbv zeta. split.
  - intros e Hraised.
    destruct (cancel_payment_effect py self E payment_id w _ eq_refl)
      as [H | (r & H & Hid & Hstatus)].
    + now inversion H.
    + rewrite <- Hid in Hraised.
      rewrite (service_cancel_payment_runs py self E _ w r) in Hraised.
      * pose proof (proj1 (cancel_payment_outcome py self E (PaymentRecord.order_id r)
                             (logged w [SelectById (PaymentRecord.payment_id r)])))
          as Htable.
        rewrite <- Hid.
        rewrite (service_cancel_payment_runs py self E _ w r).
        -- destruct (MidtransAdapter.cancel_payment _ _ _ _ _) as [[updated | e'] w1];
             [discriminate | exact Htable].
        -- now inversion H.
        -- exact Hstatus.
      * now inversion H.
      * exact Hstatus.
  - intros r Hfind Hstatus Hrefused.
    rewrite (service_cancel_payment_runs py self E _ w r Hfind Hstatus).
    destruct (adapter_cancel_refused py self E (PaymentRecord.order_id r)
                (logged w [SelectById payment_id]) Hrefused) as [msg Hrun].
    rewrite Hrun. cbn [fst snd]. split; [now exists msg | exact Hfind].
Qed.

Lemma cancel_payment_failure_writes_nothing_witness :
  let E := Sample.answering
             (Reply {| status_code := 503; text := "Service Unavailable"; body := None |})
             2000 in
  let after := PaymentService.cancel_payment Sample.py Sample.self E "payment-ORD-1"
                 (Sample.holding PENDING) in
  (exists msg, fst after = Raise (ValueError ("Failed to cancel payment: " ++ msg))) /\
  find_row "payment-ORD-1" (table (snd after)) = Some (Sample.row "ORD-1" PENDING 1000).
Proof.
  intros E after.
  assert (Hrefused : refused (gateway E (cancel_request Sample.self
                        (PaymentRecord.order_id (Sample.row "ORD-1" PENDING 1000)))))
    by (cbn; lia).
  exact (proj2 (cancel_payment_failure_writes_nothing Sample.py Sample.self E
                  "payment-ORD-1" (Sample.holding PENDING))
           (Sample.row "ORD-1" PENDING 1000) eq_refl (or_introl eq_refl) Hrefused).
Defined.

(** X14. A refund without an amount first asks the gateway for the status
    of the order. When that query is refused, the service raises "Failed
    to refund payment: ...", the refund request is never sent (the status
    query is the only request in the log) and the payment stays stored as
    it was. *)
Theorem refund_without_amount_asks_first py self E payment_id w r :
  find_row payment_id (table w) = Some r ->
  PaymentRecord.status r = SUCCESS ->
  refused (gateway E (GET (status_url self (PaymentRecord.order_id r)))) ->
  exists msg,
    PaymentService.refund_payment py self E payment_id None w
    = (Raise (ValueError ("Failed to refund payment: " ++ msg)),
       logged w [Http (GET (status_url self (PaymentRecord.order_id r)));
                 SelectById payment_id]).
Proof.
  intros Hfind Hstatus Hrefused.
  rewrite (service_refund_payment_runs py self E _ None w r Hfind Hstatus).
  revert Hrefused.
  unfold refused, status_url, MidtransAdapter.refund_payment, try_except, bind, requests,
    emit, lift, raise, ret, raise_for_status, logged.
  cbn. destruct (gateway E _) as [why | reply]; cbn.
  - intros _. now exists why.
  - intros [Hlow Hhigh].
    apply Z.leb_le in Hlow. apply Z.ltb_lt in Hhigh. rewrite Hlow, Hhigh. cbn.
    eexists. reflexivity.
Qed.

Lemma refund_without_amount_asks_first_witness :
  let E := Sample.answering (Unreachable "Connection refused") 2000 in
  exists msg,
    PaymentService.refund_payment Sample.py Sample.self E "payment-ORD-1" None
      (Sample.holding SUCCESS)
    = (Raise (ValueError ("Failed to refund payment: " ++ msg)),
       logged (Sample.holding SUCCESS)
         [Http (GET (status_url Sample.self "ORD-1")); SelectById "payment-ORD-1"]).
Proof.
  intros E.
  exact (refund_without_amount_asks_first Sample.py Sample.self E "payment-ORD-1"
           (Sample.holding SUCCESS) (Sample.row "ORD-1" SUCCESS 1000) eq_refl eq_refl I).
Defined.

Lemma adapter_cancel_any_world py self E order w w' :
  fst (MidtransAdapter.cancel_payment py self E order w)
  = fst (MidtransAdapter.cancel_payment py self E order w').
Proof.
  unfold MidtransAdapter.cancel_payment, MidtransAdapter.gateway_payment, try_except, bind,
    requests, emit, lift, raise, ret, raise_for_status, response_json, as_dict, py_float,
    as_str.
  cbn. repeat split_match; reflexivity.
Qed.

Lemma adapter_refund_any_world py self E order amount w w' :
  fst (MidtransAdapter.refund_payment py self E order amount w)
  = fst (MidtransAdapter.refund_payment py self E order amount w').
Proof.
  unfold MidtransAdapter.refund_payment, MidtransAdapter.gateway_payment, try_except, bind,
    requests, emit, lift, raise, ret, raise_for_status, response_json, as_dict, py_float,
    as_str.
  cbn. repeat split_match; reflexivity.
Qed.

(** X15. When the gateway adapter returns from the cancel of a payment in
    PENDING or PROCESSING (from the refund of a payment in SUCCESS), the
    service stores CANCELED (REFUNDED) with the time of the call and returns
    the stored payment with that status, whatever status, amount or order
    the answer of the gateway carries. *)
Theorem cancel_and_refund_store_their_status py self E payment_id amount w r :
  find_row payment_id (table w) = Some r ->
  (PaymentRecord.status r = PENDING \/ PaymentRecord.status r = PROCESSING ->
   forall answer,
     fst (MidtransAdapter.cancel_payment py self E (PaymentRecord.order_id r) w) = Ok answer ->
     let after := PaymentService.cancel_payment py self E payment_id w in
     fst after = Ok (Some (DatabaseAdapter._payment_record_to_response
                             (DatabaseAdapter.set_status E r CANCELED))) /\
     find_row payment_id (table (snd after)) = Some (DatabaseAdapter.set_status E r CANCELED)) /\
  (PaymentRecord.status r = SUCCESS ->
   forall answer,
     fst (MidtransAdapter.refund_payment py self E (PaymentRecord.order_id r) amount w)
     = Ok answer ->
     let after := PaymentService.refund_payment py self E payment_id amount w in
     fst after = Ok (Some (DatabaseAdapter._payment_record_to_response
                             (DatabaseAdapter.set_status E r REFUNDED))) /\
     find_row payment_id (table (snd after)) = Some (DatabaseAdapter.set_status E r REFUNDED)).
Proof.
  intros Hfind. pose proof (find_row_id _ _ _ Hfind) as Hid. split.
  - intros Hstatus answer Hanswer. cbv zeta.
    rewrite (service_cancel_payment_runs py self E _ w r Hfind Hstatus).
    rewrite (adapter_cancel_any_world py self E _ w (logged w [SelectById payment_id]))
      in Hanswer.
    destruct (MidtransAdapter.cancel_payment _ _ _ _ _) as [[updated | e] w1];
      [| discriminate].
    cbn [fst snd table]. split; [reflexivity |].
    now apply (find_row_replace_same _ _ r).
  - intros Hstatus answer Hanswer. cbv zeta.
    rewrite (service_refund_payment_runs py self E _ amount w r Hfind Hstatus).
    rewrite (adapter_refund_any_world py self E _ amount w
               (logged w [SelectById payment_id])) in Hanswer.
    destruct (MidtransAdapter.refund_payment _ _ _ _ _ _) as [[updated | e] w1];
      [| discriminate].
    cbn [fst snd table]. split; [reflexivity |].
    now apply (find_row_replace_same _ _ r).
Qed.

Lemma cancel_and_refund_store_their_status_witness :
  let E := Sample.answering
             (Sample.ok200 [("order_id", JStr "ORD-1"); ("transaction_status", JStr "pending");
                            ("gross_amount", JStr "100000")]) 2000 in
  let after := PaymentService.cancel_payment Sample.py Sample.self E "payment-ORD-1"
                 (Sample.holding PENDING) in
  stored_status "payment-ORD-1" (snd after) = Some CANCELED.
Proof.
  intros E after.
  destruct (MidtransAdapter.cancel_payment Sample.py Sample.self E "ORD-1"
              (Sample.holding PENDING)) as [[answer | e] w1] eqn:Hanswer;
    [| vm_compute in Hanswer; discriminate Hanswer].
  destruct (proj1 (cancel_and_refund_store_their_status Sample.py Sample.self E
                     "payment-ORD-1" None (Sample.holding PENDING)
                     (Sample.row "ORD-1" PENDING 1000) eq_refl)
              (or_introl eq_refl) answer (f_equal fst Hanswer)) as [_ Hstored].
  unfold stored_status. subst after. now rewrite Hstored.
Defined.

(** ** The webhook, once more *)

Lemma check_required_first_missing data before field after :
  Forall (fun f => contains data f = true) before ->
  contains data field = false ->
  WebhookHandler.check_required (before ++ field :: after)%list data
  = Raise (HTTPException 400 ("Missing required field: " ++ field)).
Proof.
  intros Hbefore Hmissing. induction Hbefore as [| f before Hf _ IH]; cbn.
  - now rewrite Hmissing.
  - now rewrite Hf.
Qed.

(** X16. A payload that lacks one of the required fields transaction_id,
    order_id, transaction_status, gross_amount, payment_type (and that
    passes the signature check, or is processed without it) is refused with
    the 400 error that names the first field missing in that order; the
    table is neither read nor written. *)
Theorem process_webhook_missing_field py server_key E data verify w before field after :
  verify && negb (WebhookHandler.verify_signature py server_key data) = false ->
  WebhookHandler.required_fields = (before ++ field :: after)%list ->
  Forall (fun f => contains data f = true) before ->
  contains data field = false ->
  WebhookHandler.process_webhook py server_key E data verify w
  = (Raise (HTTPException 400 ("Missing required field: " ++ field)), w).
Proof.
  intros Hverify Hfields Hbefore Hmissing.
  unfold WebhookHandler.process_webhook, try_except. rewrite Hverify.
  unfold bind, lift, WebhookHandler.parse_notification. rewrite Hfields.
  now rewrite (check_required_first_missing data before field after Hbefore Hmissing).
Qed.

Lemma process_webhook_missing_field_witness :
  WebhookHandler.process_webhook Sample.py "SB-Mid-server-example"
    (Sample.answering (Unreachable "unused") 2000)
    [("transaction_id", JStr "tx-1"); ("order_id", JStr "ORD-1");
     ("gross_amount", JStr "100000")]
    false (Sample.holding PENDING)
  = (Raise (HTTPException 400 "Missing required field: transaction_status"),
     Sample.holding PENDING).
Proof.
  apply (process_webhook_missing_field Sample.py "SB-Mid-server-example"
           (Sample.answering (Unreachable "unused") 2000) _ false (Sample.holding PENDING)
           ["transaction_id"; "order_id"] "transaction_status"
           ["gross_amount"; "payment_type"]).
  - reflexivity.
  - reflexivity.
  - repeat constructor.
  - reflexivity.
Defined.

Lemma active_payment_none order w :
  active_payment order w = None -> rows_of_order order (table w) = [].
Proof. unfold active_payment. now destruct (rows_of_order order (table w)). Qed.

(** X17. A notification for an order that has no stored payment is not an
    error on either path: the webhook returns the warning "Payment not
    found", [PaymentService.handle_notification] returns the notification,
    and in both cases the only effect is the query by order: nothing is
    written and no payment is created. *)
Theorem notification_for_unknown_order py server_key E data verify w :
  (forall parsed,
     verify && negb (WebhookHandler.verify_signature py server_key data) = false ->
     WebhookHandler.parse_notification data = Ok parsed ->
     active_payment (wn_order_id parsed) w = None ->
     WebhookHandler.process_webhook py server_key E data verify w
     = (Ok [("status", JStr "warning"); ("message", JStr "Payment not found")],
        logged w [SelectByOrder (wn_order_id parsed)])) /\
  (forall n,
     fst (MidtransAdapter.handle_notification py E data w) = Ok n ->
     active_payment (pn_order_id n) w = None ->
     PaymentService.handle_notification py E data w
     = (Ok n, logged w [SelectByOrder (pn_order_id n)])).
Proof.
  split.
  - intros parsed Hverify Hparsed Hnone.
    unfold WebhookHandler.process_webhook, try_except. rewrite Hverify.
    unfold bind, lift. rewrite Hparsed, db_get_payments_by_order.
    now rewrite (active_payment_none _ _ Hnone).
  - intros n Hn Hnone.
    unfold PaymentService.handle_notification, try_except, bind.
    rewrite handle_notification_pure.
    rewrite (handle_notification_pure py E data w) in Hn. cbn [fst] in Hn. rewrite Hn.
    rewrite db_get_payments_by_order.
    now rewrite (active_payment_none _ _ Hnone).
Qed.

Lemma notification_for_unknown_order_witness :
  WebhookHandler.process_webhook Sample.py "SB-Mid-server-example"
    (Sample.answering (Unreachable "unused") 2000)
    (Sample.notification "settlement" JNull) false Sample.empty
  = (Ok [("status", JStr "warning"); ("message", JStr "Payment not found")],
     logged Sample.empty [SelectByOrder "ORD-1"]).
Proof.
  exact (proj1 (notification_for_unknown_order Sample.py "SB-Mid-server-example"
                  (Sample.answering (Unreachable "unused") 2000)
                  (Sample.notification "settlement" JNull) false Sample.empty)
           _ eq_refl eq_refl eq_refl).
Defined.

Lemma process_webhook_answer py server_key E data verify w parsed :
  verify && negb (WebhookHandler.verify_signature py server_key data) = false ->
  WebhookHandler.parse_notification data = Ok parsed ->
  primary_key (table w) ->
  let new := WebhookHandler.map_status_to_payment_status
               (wn_transaction_status parsed) (wn_fraud_status parsed) in
  WebhookHandler.process_webhook py server_key E data verify w
  = (Ok match active_payment (wn_order_id parsed) w with
        | Some r =>
            [("status", JStr "success");
             ("message", JStr "Notification processed successfully");
             ("payment_id", JStr (PaymentRecord.payment_id r));
             ("old_status", JStr (status_value (PaymentRecord.status r)));
             ("new_status", JStr (status_value new))]
        | None => [("status", JStr "warning"); ("message", JStr "Payment not found")]
        end,
     applied E (wn_order_id parsed) new w).
Proof.
  intros Hverify Hparsed Hkey new.
  unfold WebhookHandler.process_webhook, try_except. rewrite Hverify.
  unfold bind at 1, lift. rewrite Hparsed. fold new.
  rewrite (update_active_runs E (wn_order_id parsed) new w Hkey _
             (fun payment =>
                [("status", JStr "success");
                 ("message", JStr "Notification processed successfully");
                 ("payment_id", JStr (id payment));
                 ("old_status", JStr (status_value (status payment)));
                 ("new_status", JStr (status_value new))])
             [("status", JStr "warning"); ("message", JStr "Payment not found")]).
  now destruct (active_payment (wn_order_id parsed) w).
Qed.

Lemma latest_of_active order w r :
  latest_of order (table w) r -> active_payment order w = Some r.
Proof.
  intros (Hin & Horder & Hlatest). unfold active_payment, rows_of_order.
  set (mine := filter (fun x => String.eqb (PaymentRecord.order_id x) order) (table w)).
  assert (Hmine : In r mine) by (apply filter_In; split; [exact Hin | now apply String.eqb_eq]).
  pose proof (order_by_sorted mine) as Hsorted.
  pose proof (order_by_permutation mine) as Hperm.
  assert (Hr : In r (DatabaseAdapter.order_by_created_at_desc mine))
    by (apply (Permutation_in _ (Permutation_sym Hperm)); exact Hmine).
  destruct (DatabaseAdapter.order_by_created_at_desc mine) as [| h rest]; [destruct Hr |].
  cbn. f_equal.
  assert (Hh : In h mine) by (apply (Permutation_in _ Hperm); now left).
  apply filter_In in Hh. destruct Hh as [Hhin Hhorder]. apply String.eqb_eq in Hhorder.
  destruct (Hlatest h Hhin Hhorder) as [-> | Hlater]; [reflexivity |].
  destruct Hr as [-> | Hr]; [reflexivity |].
  inversion Hsorted as [| ? ? _ Hall]; subst.
  rewrite Forall_forall in Hall. specialize (Hall r Hr). cbn in Hall. lia.
Qed.

(** X18. A webhook for an order of which one payment was created last
    answers "success" with the id of that payment, the status that was
    stored and the status notified; afterwards that payment is stored with
    the notified status. *)
Theorem process_webhook_reports_transition py server_key E data verify w parsed r :
  verify && negb (WebhookHandler.verify_signature py server_key data) = false ->
  WebhookHandler.parse_notification data = Ok parsed ->
  primary_key (table w) ->
  latest_of (wn_order_id parsed) (table w) r ->
  let new := WebhookHandler.map_status_to_payment_status
               (wn_transaction_status parsed) (wn_fraud_status parsed) in
  let after := WebhookHandler.process_webhook py server_key E data verify w in
  fst after
  = Ok [("status", JStr "success");
        ("message", JStr "Notification processed successfully");
        ("payment_id", JStr (PaymentRecord.payment_id r));
        ("old_status", JStr (status_value (PaymentRecord.status r)));
        ("new_status", JStr (status_value new))] /\
  stored_status (PaymentRecord.payment_id r) (snd after) = Some new.
Proof.
  intros Hverify Hparsed Hkey Hlatest new after. subst after.
  pose proof (latest_of_active _ _ _ Hlatest) as Hactive.
  pose proof (primary_key_find _ _ Hkey (active_payment_in _ _ _ Hactive)) as Hfind.
  rewrite (process_webhook_answer py server_key E data verify w parsed Hverify Hparsed Hkey).
  fold new. rewrite Hactive. cbn [fst snd]. split; [reflexivity |].
  unfold stored_status, applied. rewrite Hactive.
  destruct (status_eqb (PaymentRecord.status r) new) eqn:Hsame.
  - cbn [table logged]. rewrite Hfind. cbn. f_equal. now apply status_eqb_eq.
  - cbn [table]. now rewrite (find_row_replace_same _ _ r).
Qed.

Lemma process_webhook_reports_transition_witness :
  let after := WebhookHandler.process_webhook Sample.py "SB-Mid-server-example"
                 (Sample.answering (Unreachable "unused") 2000)
                 (Sample.notification "expire" JNull) false (Sample.holding PENDING) in
  lookup "old_status" match fst after with Ok answer => answer | Raise _ => [] end
  = Some (JStr "pending") /\
  stored_status "payment-ORD-1" (snd after) = Some EXPIRED.
Proof.
  intros after.
  assert (Hkey : primary_key (table (Sample.holding PENDING))).
  { unfold primary_key. cbn. constructor; [intros [] | constructor]. }
  assert (Hlatest : latest_of "ORD-1" (table (Sample.holding PENDING))
                      (Sample.row "ORD-1" PENDING 1000)).
  { split; [now left |]. split; [reflexivity |].
    intros other [<- | []] _. now left. }
  destruct (process_webhook_reports_transition Sample.py "SB-Mid-server-example"
              (Sample.answering (Unreachable "unused") 2000)
              (Sample.notification "expire" JNull) false (Sample.holding PENDING)
              _ (Sample.row "ORD-1" PENDING 1000) eq_refl eq_refl Hkey Hlatest)
    as [Hanswer Hstored].
  subst after. rewrite Hanswer. split; [reflexivity | exact Hstored].
Defined.

(** X19. A payload whose [signature_key] is the digest of order_id +
    status_code + gross_amount + server_key is processed with the signature
    check exactly as it is processed without it. *)
Theorem signed_webhook_is_processed py server_key E data w digest :
  sha512_hexdigest py (signature_string py server_key data) = Some digest ->
  get data "signature_key" = JStr digest ->
  WebhookHandler.verify_signature py server_key data = true /\
  WebhookHandler.process_webhook py server_key E data true w
  = WebhookHandler.process_webhook py server_key E data false w.
Proof.
  intros Hdigest Hkey.
  assert (Hverify : WebhookHandler.verify_signature py server_key data = true).
  { unfold WebhookHandler.verify_signature.
    fold (signature_string py server_key data). rewrite Hdigest.
    now apply eq_str_true. }
  split; [exact Hverify |].
  unfold WebhookHandler.process_webhook. now rewrite Hverify.
Qed.

Lemma signed_webhook_is_processed_witness :
  let data := ("signature_key", JStr "ORD-1200100000SB-Mid-server-example")
              :: Sample.notification "settlement" JNull in
  WebhookHandler.verify_signature Sample.py "SB-Mid-server-example" data = true.
Proof.
  intros data.
  exact (proj1 (signed_webhook_is_processed Sample.py "SB-Mid-server-example"
                  (Sample.answering (Unreachable "unused") 2000) data Sample.empty
                  "ORD-1200100000SB-Mid-server-example" eq_refl eq_refl)).
Defined.

(** ** The service on ids it does not know, and the refresh that succeeds *)

(** X20. For an id the table does not hold, [get_payment] returns [None],
    and the force-check, the cancel and the refund raise "Payment with ID
    ... not found"; in all four the only effect is the lookup by id, so no
    request goes to the gateway. *)
Theorem service_on_unknown_payment py self E payment_id amount w :
  find_row payment_id (table w) = None ->
  let not_found := ValueError ("Payment with ID " ++ payment_id ++ " not found") in
  let looked_up := logged w [SelectById payment_id] in
  PaymentService.get_payment self E payment_id w = (Ok None, looked_up) /\
  PaymentService.get_payment_status self E payment_id w = (Raise not_found, looked_up) /\
  PaymentService.cancel_payment py self E payment_id w = (Raise not_found, looked_up) /\
  PaymentService.refund_payment py self E payment_id amount w = (Raise not_found, looked_up).
Proof.
  intros Hnone. cbv zeta.
  unfold PaymentService.get_payment, PaymentService.get_payment_status,
    PaymentService.cancel_payment, PaymentService.refund_payment, try_except, bind.
  rewrite db_get_payment, Hnone. repeat split.
Qed.

Lemma service_on_unknown_payment_witness :
  PaymentService.cancel_payment Sample.py Sample.self
    (Sample.answering (Unreachable "unused") 2000) "payment-ORD-9" (Sample.holding PENDING)
  = (Raise (ValueError "Payment with ID payment-ORD-9 not found"),
     logged (Sample.holding PENDING) [SelectById "payment-ORD-9"]).
Proof.
  exact (proj1 (proj2 (proj2 (service_on_unknown_payment Sample.py Sample.self
                                (Sample.answering (Unreachable "unused") 2000)
                                "payment-ORD-9" None (Sample.holding PENDING) eq_refl)))).
Defined.



(** ** The routes *)

(** X22. The create route never answers 500: whatever goes wrong (a
    request that is refused, a gateway that is down or answers anything but
    201, a row the database refuses) reaches the handler as a ValueError,
    so the answer is 400 with a detail that starts with "Failed to create
    payment: ", and the table is as it was. *)
Theorem create_route_answers_400 py self E payment_request w e :
  fst (Routes.create_payment py self E payment_request w) = Raise e ->
  (exists msg, e = HTTPException 400 ("Failed to create payment: " ++ msg)) /\
  table (snd (Routes.create_payment py self E payment_request w)) = table w.
Proof.
  unfold Routes.create_payment, try_except. rewrite service_create_payment_runs.
  destruct (MidtransAdapter.create_payment py self E payment_request w)
    as [[made | e0] w0] eqn:Hmade.
  - destruct (adapter_create_payment_returns _ _ _ _ _ _ _ Hmade) as (Htable & _).
    destruct (DatabaseAdapter.save_payment E made w0) as [[[] | e1] w1] eqn:Hsave;
      [discriminate |].
    destruct (db_save_payment_table E made w0 e1 (f_equal fst Hsave)) as ([msg ->] & Hw1).
    rewrite Hsave in Hw1. cbn in Hw1. subst w1.
    cbn. intros [= <-]. split; [eexists; reflexivity | exact Htable].
  - destruct (adapter_create_payment_raised _ _ _ _ _ _ _ Hmade) as ([msg ->] & Hworld).
    cbn. intros [= <-]. split; [now exists msg |].
    destruct Hworld as [-> | [req ->]]; reflexivity.
Qed.

Lemma create_route_answers_400_witness :
  exists msg,
    fst (Routes.create_payment Sample.py Sample.self
           (Sample.answering (Unreachable "timed out") 2000) (Sample.request 100)
           Sample.empty)
    = Raise (HTTPException 400 ("Failed to create payment: " ++ msg)).
Proof.
  destruct (fst (Routes.create_payment Sample.py Sample.self
                   (Sample.answering (Unreachable "timed out") 2000) (Sample.request 100)
                   Sample.empty)) as [made | e] eqn:Hrun.
  - vm_compute in Hrun. discriminate Hrun.
  - destruct (create_route_answers_400 _ _ _ _ _ e Hrun) as ([msg ->] & _).
    now exists msg.
Defined.

(** X23. The cancel and the refund routes answer 400, not 404, for a
    payment id that is not stored, with the detail "Payment with ID ... not
    found"; they answer 400 for a payment in a state that does not permit
    the operation, with the stored status in the detail as the f-string of
    the running Python formats it; in both cases only the lookup by id has
    happened. Whatever else they raise is 400 or 500. *)
Theorem cancel_and_refund_routes_refuse py self E payment_id amount w :
  (find_row payment_id (table w) = None ->
   let not_found :=
     HTTPException 400 ("Payment with ID " ++ payment_id ++ " not found") in
   Routes.cancel_payment py self E payment_id w
   = (Raise not_found, logged w [SelectById payment_id]) /\
   Routes.refund_payment py self E payment_id amount w
   = (Raise not_found, logged w [SelectById payment_id])) /\
  (forall r, find_row payment_id (table w) = Some r ->
     (PaymentRecord.status r <> PENDING -> PaymentRecord.status r <> PROCESSING ->
      Routes.cancel_payment py self E payment_id w
      = (Raise (HTTPException 400 ("Cannot cancel payment with status: "
                                   ++ format_status py (PaymentRecord.status r))),
         logged w [SelectById payment_id])) /\
     (PaymentRecord.status r <> SUCCESS ->
      Routes.refund_payment py self E payment_id amount w
      = (Raise (HTTPException 400 ("Cannot refund payment with status: "
                                   ++ format_status py (PaymentRecord.status r))),
         logged w [SelectById payment_id]))) /\
  (forall e,
     fst (Routes.cancel_payment py self E payment_id w) = Raise e \/
     fst (Routes.refund_payment py self E payment_id amount w) = Raise e ->
     exists code detail, e = HTTPException code detail /\ (code = 400 \/ code = 500)).
Proof.
  split; [| split].
  - intros Hnone. cbv zeta.
    unfold Routes.cancel_payment, Routes.refund_payment, PaymentService.cancel_payment,
      PaymentService.refund_payment, try_except, bind.
    rewrite db_get_payment, Hnone. split; reflexivity.
  - intros r Hfind. split.
    + intros Hpending Hprocessing.
      unfold Routes.cancel_payment, PaymentService.cancel_payment, try_except, bind.
      rewrite db_get_payment, Hfind. cbn. rewrite response_status.
      destruct (PaymentRecord.status r); try reflexivity; contradiction.
    + intros Hsuccess.
      unfold Routes.refund_payment, PaymentService.refund_payment, try_except, bind.
      rewrite db_get_payment, Hfind. cbn. rewrite response_status.
      destruct (PaymentRecord.status r); try reflexivity; contradiction.
  - intros e [Hraised | Hraised]; revert Hraised.
    + unfold Routes.cancel_payment, try_except.
      destruct (PaymentService.cancel_payment py self E payment_id w) as [[p | e0] w0];
        [discriminate |].
      destruct (Routes.is_value_error e0); cbn; intros [= <-]; eauto.
    + unfold Routes.refund_payment, try_except.
      destruct (PaymentService.refund_payment py self E payment_id amount w)
        as [[p | e0] w0]; [discriminate |].
      destruct (Routes.is_value_error e0); cbn; intros [= <-]; eauto.
Qed.

Lemma cancel_and_refund_routes_refuse_witness :
  Routes.refund_payment Sample.py Sample.self (Sample.answering (Unreachable "unused") 2000)
    "payment-ORD-1" None (Sample.holding PENDING)
  = (Raise (HTTPException 400 "Cannot refund payment with status: PaymentStatus.PENDING"),
     logged (Sample.holding PENDING) [SelectById "payment-ORD-1"]).
Proof.
  assert (Hstatus : PaymentRecord.status (Sample.row "ORD-1" PENDING 1000) <> SUCCESS)
    by discriminate.
  exact (proj2 (proj1 (proj2 (cancel_and_refund_routes_refuse Sample.py Sample.self
                                (Sample.answering (Unreachable "unused") 2000)
                                "payment-ORD-1" None (Sample.holding PENDING)))
                  (Sample.row "ORD-1" PENDING 1000) eq_refl) Hstatus).
Defined.

Lemma service_get_payment_runs self E payment_id w r :
  find_row payment_id (table w) = Some r ->
  PaymentService.get_payment self E payment_id w
  = let asked := logged w [Http (GET (status_url self (PaymentRecord.order_id r)));
                           SelectById payment_id] in
    if status_eqb (PaymentRecord.status r) PENDING
       || status_eqb (PaymentRecord.status r) PROCESSING
    then
      match polled self E (PaymentRecord.order_id r) with
      | Ok latest =>
          if status_eqb latest (PaymentRecord.status r)
          then (Ok (Some (DatabaseAdapter._payment_record_to_response r)), asked)
          else (Ok (Some (DatabaseAdapter._payment_record_to_response
                            (DatabaseAdapter.set_status E r latest))),
                {| table := DatabaseAdapter.replace_row
                              (DatabaseAdapter.set_status E r latest) (table w);
                   log := SelectById payment_id :: Update payment_id :: SelectById payment_id
                          :: log asked |})
      | Raise _ => (Ok (Some (DatabaseAdapter._payment_record_to_response r)), asked)
      end
    else (Ok (Some (DatabaseAdapter._payment_record_to_response r)),
          logged w [SelectById payment_id]).
Proof.
  intros Hfind. pose proof (find_row_id _ _ _ Hfind) as Hid. cbv zeta.
  unfold PaymentService.get_payment, try_except. unfold bind at 1.
  rewrite db_get_payment, Hfind. cbn.
  rewrite response_status, response_order_id, response_id.
  destruct (status_eqb (PaymentRecord.status r) PENDING
            || status_eqb (PaymentRecord.status r) PROCESSING); cbn; [| reflexivity].
  unfold bind at 1. rewrite get_payment_status_polled.
  destruct (polled self E (PaymentRecord.order_id r)) as [latest | e]; [| reflexivity].
  destruct (status_eqb latest (PaymentRecord.status r)); cbn; [reflexivity |].
  unfold bind. rewrite db_update_payment_status. cbn. rewrite Hid, Hfind.
  rewrite db_get_payment. cbn.
  rewrite (find_row_replace_same _ _ r) by assumption. same_run. now rewrite Hid.
Qed.

Lemma service_get_payment_status_runs self E payment_id w r :
  find_row payment_id (table w) = Some r ->
  PaymentService.get_payment_status self E payment_id w
  = let asked := logged w [Http (GET (status_url self (PaymentRecord.order_id r)));
                           SelectById payment_id] in
    match polled self E (PaymentRecord.order_id r) with
    | Ok latest =>
        if status_eqb latest (PaymentRecord.status r)
        then (Ok (PaymentRecord.status r), asked)
        else (Ok latest,
              {| table := DatabaseAdapter.replace_row
                            (DatabaseAdapter.set_status E r latest) (table w);
                 log := Update payment_id :: SelectById payment_id :: log asked |})
    | Raise _ => (Ok (PaymentRecord.status r), asked)
    end.
Proof.
  intros Hfind. pose proof (find_row_id _ _ _ Hfind) as Hid. cbv zeta.
  unfold PaymentService.get_payment_status. unfold bind at 1.
  rewrite db_get_payment, Hfind. cbn. rewrite response_status, response_order_id.
  unfold try_except. unfold bind at 1. rewrite get_payment_status_polled.
  destruct (polled self E (PaymentRecord.order_id r)) as [latest | e]; [| reflexivity].
  destruct (status_eqb latest (PaymentRecord.status r)); cbn; [reflexivity |].
  unfold bind. rewrite db_update_payment_status. cbn. rewrite Hfind. same_run.
  now rewrite Hid.
Qed.

Lemma service_get_payment_known self E payment_id w r :
  find_row payment_id (table w) = Some r ->
  exists r',
    fst (PaymentService.get_payment self E payment_id w)
    = Ok (Some (DatabaseAdapter._payment_record_to_response r')) /\
    find_row payment_id (table (snd (PaymentService.get_payment self E payment_id w)))
    = Some r' /\
    same_payment r r'.
Proof.
  intros Hfind. pose proof (find_row_id _ _ _ Hfind) as Hid.
  rewrite (service_get_payment_runs self E payment_id w r Hfind). cbv zeta.
  assert (Hkept : forall events,
             exists r',
               fst (Ok (Some (DatabaseAdapter._payment_record_to_response r)),
                    logged w events)
               = Ok (Some (DatabaseAdapter._payment_record_to_response r')) /\
               find_row payment_id
                 (table (snd (Ok (Some (DatabaseAdapter._payment_record_to_response r)),
                              logged w events)))
               = Some r' /\
               same_payment r r').
  { intros events. exists r. split; [reflexivity |].
    split; [exact Hfind | apply same_payment_refl]. }
  destruct (status_eqb (PaymentRecord.status r) PENDING
            || status_eqb (PaymentRecord.status r) PROCESSING); [| apply Hkept].
  destruct (polled self E (PaymentRecord.order_id r)) as [latest | e]; [| apply Hkept].
  destruct (status_eqb latest (PaymentRecord.status r)); [apply Hkept |].
  exists (DatabaseAdapter.set_status E r latest). cbn [fst snd table].
  split; [reflexivity |]. split; [| apply same_payment_set_status].
  apply (find_row_replace_same _ _ r); [exact Hfind | exact Hid].
Qed.

Lemma service_get_payment_status_known self E payment_id w r :
  find_row payment_id (table w) = Some r ->
  exists s r',
    polled self E (PaymentRecord.order_id r) = Ok s /\
    fst (PaymentService.get_payment_status self E payment_id w) = Ok s /\
    find_row payment_id (table (snd (PaymentService.get_payment_status self E payment_id w)))
    = Some r' /\
    PaymentRecord.status r' = s /\
    same_payment r r'.
Proof.
  intros Hfind. pose proof (find_row_id _ _ _ Hfind) as Hid.
  rewrite (service_get_payment_status_runs self E payment_id w r Hfind). cbv zeta.
  destruct (polled_returns self E (PaymentRecord.order_id r)) as [latest Hlatest].
  rewrite Hlatest. exists latest.
  destruct (status_eqb latest (PaymentRecord.status r)) eqn:Hsame.
  - apply status_eqb_eq in Hsame. exists r. cbn [fst snd].
    split; [reflexivity |]. split; [now rewrite Hsame |].
    split; [exact Hfind |]. split; [now rewrite Hsame | apply same_payment_refl].
  - exists (DatabaseAdapter.set_status E r latest). cbn [fst snd table].
    split; [reflexivity |]. split; [reflexivity |].
    split; [| split; [reflexivity | apply same_payment_set_status]].
    apply (find_row_replace_same _ _ r); [exact Hfind | exact Hid].
Qed.

(** X24. The read route answers 404 "Payment not found" for an id that is
    not stored, after the one lookup; for a stored id it returns a payment,
    the one that is stored under the id when the call ends, and this
    payment differs from the row before the call at most in its status and
    its time of update. *)
Theorem get_route_answers self E payment_id w :
  match find_row payment_id (table w) with
  | None =>
      Routes.get_payment self E payment_id w
      = (Raise (HTTPException 404 "Payment not found"), logged w [SelectById payment_id])
  | Some r =>
      exists r',
        fst (Routes.get_payment self E payment_id w)
        = Ok (DatabaseAdapter._payment_record_to_response r') /\
        find_row payment_id (table (snd (Routes.get_payment self E payment_id w)))
        = Some r' /\
        same_payment r r'
  end.
Proof.
  destruct (find_row payment_id (table w)) as [r |] eqn:Hfind.
  - destruct (service_get_payment_known self E payment_id w r Hfind)
      as (r' & Hreturned & Hstored & Hsame).
    exists r'. unfold Routes.get_payment, try_except, bind.
    destruct (PaymentService.get_payment self E payment_id w) as [answer w1].
    cbn in Hreturned, Hstored. subst answer. cbn.
    split; [reflexivity | split; assumption].
  - unfold Routes.get_payment, PaymentService.get_payment, try_except, bind.
    now rewrite db_get_payment, Hfind.
Qed.

(** X25. The force-check route answers 404 for an id that is not stored,
    after one lookup and without a request to the gateway. For a stored
    id, and a database that answers, it returns its answer whatever the
    gateway does: [current_status] is the status the reply of the
    gateway to the second of its three calls maps to, [order_id], [amount]
    and [payment_method] are those of the stored row, and [last_updated]
    is the time of update of the row as it is stored when the route ends. *)
Theorem force_check_route_answers self E1 E2 E3 payment_id w :
  (find_row payment_id (table w) = None ->
   Routes.force_check_payment_status self E1 E2 E3 payment_id w
   = (Raise (HTTPException 404 "Payment not found"), logged w [SelectById payment_id])) /\
  (forall r, find_row payment_id (table w) = Some r ->
     exists s last,
       polled self E2 (PaymentRecord.order_id r) = Ok s /\
       find_row payment_id
         (table (snd (Routes.force_check_payment_status self E1 E2 E3 payment_id w)))
       = Some last /\
       fst (Routes.force_check_payment_status self E1 E2 E3 payment_id w)
       = Ok [("payment_id", JStr payment_id);
             ("order_id", JStr (PaymentRecord.order_id r));
             ("current_status", JStr (status_value s));
             ("last_updated", JNum (inject_Z (PaymentRecord.updated_at last)));
             ("amount", JNum (PaymentRecord.amount r));
             ("payment_method",
              JStr (Routes.method_value (PaymentRecord.payment_method r)));
             ("auto_updated", JBool true)]).
Proof.
  split.
  - intros Hnone.
    unfold Routes.force_check_payment_status, PaymentService.get_payment, try_except, bind.
    now rewrite db_get_payment, Hnone.
  - intros r Hfind.
    unfold Routes.force_check_payment_status, try_except, bind.
    destruct (service_get_payment_known self E1 payment_id w r Hfind)
      as (r1 & Hreturned1 & Hstored1 & Hsame1).
    destruct (PaymentService.get_payment self E1 payment_id w) as [answer1 w1].
    cbn in Hreturned1, Hstored1. subst answer1.
    destruct (service_get_payment_status_known self E2 payment_id w1 r1 Hstored1)
      as (s & r2 & Hpolled & Hreturned2 & Hstored2 & _ & Hsame2).
    destruct (PaymentService.get_payment_status self E2 payment_id w1) as [answer2 w2].
    cbn in Hreturned2, Hstored2. subst answer2.
    destruct (service_get_payment_known self E3 payment_id w2 r2 Hstored2)
      as (r3 & Hreturned3 & Hstored3 & _).
    destruct (PaymentService.get_payment self E3 payment_id w2) as [answer3 w3].
    cbn in Hreturned3, Hstored3. subst answer3.
    destruct Hsame1 as (_ & Horder & Hamount & Hmethod & _).
    exists s, r3. cbn. rewrite <- Horder, <- Hamount, <- Hmethod.
    split; [exact Hpolled |]. split; [exact Hstored3 | reflexivity].
Qed.

Lemma force_check_route_answers_witness :
  let E := Sample.answering (Sample.ok200 [("transaction_status", JStr "settlement")])
             2000 in
  lookup "current_status"
    match fst (Routes.force_check_payment_status Sample.self E E E "payment-ORD-1"
                 (Sample.holding PENDING)) with
    | Ok answer => answer
    | Raise _ => []
    end
  = Some (JStr "success").
Proof.
  intros E.
  destruct (proj2 (force_check_route_answers Sample.self E E E "payment-ORD-1"
                     (Sample.holding PENDING)) (Sample.row "ORD-1" PENDING 1000) eq_refl)
    as (s & last & Hpolled & _ & Hanswer).
  rewrite Hanswer. cbn. injection Hpolled as <-. reflexivity.
Defined.

Lemma status_of_value_spec v s : Routes.status_of_value v = Ok s <-> status_value s = v.
Proof.
  split.
  - unfold Routes.status_of_value. cbn.
    repeat match goal with
           | |- context [String.eqb v ?k] => destruct (String.eqb_spec v k) as [-> | ?]
           end;
      intros H; try discriminate H; injection H as <-; reflexivity.
  - intros <-. now destruct s.
Qed.

(** X26. The manual status route refuses a body without a status, or with
    an empty one, with 400 "Status is required", and a status that is not
    the value of a payment status in any letter case with 400 "Invalid
    status: " and the text as sent; in both cases nothing is looked up. A
    valid status for an id that is not stored is answered with 500 and the
    message of the storage, not with the 404 the handler has for it, after
    the one lookup. *)
Theorem update_route_rejects self E1 E2 payment_id status_update w :
  (lookup "status" status_update = None \/ lookup "status" status_update = Some "" ->
   Routes.update_payment_status self E1 E2 payment_id status_update w
   = (Raise (HTTPException 400 "Status is required"), w)) /\
  (forall v,
     lookup "status" status_update = Some v -> v <> "" ->
     (forall s, status_value s <> lower v) ->
     Routes.update_payment_status self E1 E2 payment_id status_update w
     = (Raise (HTTPException 400 ("Invalid status: " ++ v)), w)) /\
  (forall v s,
     lookup "status" status_update = Some v -> status_value s = lower v ->
     find_row payment_id (table w) = None ->
     Routes.update_payment_status self E1 E2 payment_id status_update w
     = (Raise (HTTPException 500
                 ("Failed to update payment status: Payment with ID "
                  ++ payment_id ++ " not found")),
        logged w [SelectById payment_id])).
Proof.
  split; [| split].
  - intros [Hmissing | Hempty]; unfold Routes.update_payment_status, try_except.
    + now rewrite Hmissing.
    + now rewrite Hempty.
  - intros v Hsent Hnonempty Hinvalid.
    unfold Routes.update_payment_status, try_except. rewrite Hsent.
    destruct v as [| c v]; [contradiction |].
    destruct (Routes.status_of_value (lower (String c v))) as [s | e] eqn:Hvalue;
      [| reflexivity].
    apply status_of_value_spec in Hvalue. now elim (Hinvalid s).
  - intros v s Hsent Hvalue Hnone.
    unfold Routes.update_payment_status, try_except. rewrite Hsent.
    destruct v as [| c v]; [now destruct s |].
    apply status_of_value_spec in Hvalue. rewrite Hvalue.
    unfold bind. now rewrite db_update_payment_status, Hnone.
Qed.

Lemma update_route_rejects_witness :
  Routes.update_payment_status Sample.self
    (Sample.answering (Unreachable "unused") 2000)
    (Sample.answering (Unreachable "unused") 2000)
    "payment-ORD-1" [("status", "PAID")] (Sample.holding PENDING)
  = (Raise (HTTPException 400 "Invalid status: PAID"), Sample.holding PENDING).
Proof.
  assert (Hnonempty : "PAID" <> ""%string) by discriminate.
  assert (Hinvalid : forall s, status_value s <> lower "PAID")
    by (intros s; destruct s; discriminate).
  exact (proj1 (proj2 (update_route_rejects Sample.self
                         (Sample.answering (Unreachable "unused") 2000)
                         (Sample.answering (Unreachable "unused") 2000)
                         "payment-ORD-1" [("status", "PAID")] (Sample.holding PENDING)))
           "PAID" eq_refl Hnonempty Hinvalid).
Defined.

(** X27. The manual status route, given the value of a status other than
    pending and processing in any letter case and the id of a stored
    payment, writes that status and the time of the call to the row and
    returns the row as written; the gateway is not asked. *)
Theorem update_route_stores_status self E1 E2 payment_id status_update w r v s :
  lookup "status" status_update = Some v ->
  status_value s = lower v ->
  s <> PENDING -> s <> PROCESSING ->
  find_row payment_id (table w) = Some r ->
  Routes.update_payment_status self E1 E2 payment_id status_update w
  = (Ok (DatabaseAdapter._payment_record_to_response (DatabaseAdapter.set_status E1 r s)),
     {| table := DatabaseAdapter.replace_row (DatabaseAdapter.set_status E1 r s) (table w);
        log := SelectById payment_id :: Update payment_id :: SelectById payment_id
               :: log w |}).
Proof.
  intros Hsent Hvalue Hpending Hprocessing Hfind.
  pose proof (find_row_id _ _ _ Hfind) as Hid.
  unfold Routes.update_payment_status, try_except. rewrite Hsent.
  destruct v as [| c v]; [now destruct s |].
  apply status_of_value_spec in Hvalue. rewrite Hvalue.
  unfold bind. rewrite db_update_payment_status, Hfind.
  assert (Hwritten :
            find_row payment_id
              (table {| table := DatabaseAdapter.replace_row
                                   (DatabaseAdapter.set_status E1 r s) (table w);
                        log := Update (PaymentRecord.payment_id r)
                               :: SelectById payment_id :: log w |})
            = Some (DatabaseAdapter.set_status E1 r s))
    by (apply (find_row_replace_same _ _ r); [exact Hfind | exact Hid]).
  rewrite (service_get_payment_runs self E2 payment_id _ _ Hwritten). cbv zeta.
  rewrite Hid.
  destruct s; try contradiction; reflexivity.
Qed.

Lemma update_route_stores_status_witness :
  let E := Sample.answering (Unreachable "unused") 2000 in
  fst (Routes.update_payment_status Sample.self E E "payment-ORD-1" [("status", "SUCCESS")]
         (Sample.holding PENDING))
  = Ok (DatabaseAdapter._payment_record_to_response
          (DatabaseAdapter.set_status E (Sample.row "ORD-1" PENDING 1000) SUCCESS)).
Proof.
  intros E.
  assert (Hpending : SUCCESS <> PENDING) by discriminate.
  assert (Hprocessing : SUCCESS <> PROCESSING) by discriminate.
  now rewrite (update_route_stores_status Sample.self E E "payment-ORD-1"
                 [("status", "SUCCESS")] (Sample.holding PENDING)
                 (Sample.row "ORD-1" PENDING 1000) "SUCCESS" SUCCESS
                 eq_refl eq_refl Hpending Hprocessing eq_refl).
Defined.

Lemma check_required_raises fields data e :
  WebhookHandler.check_required fields data = Raise e ->
  exists field, e = HTTPException 400 ("Missing required field: " ++ field).
Proof.
  induction fields as [| field fields IH]; cbn; [discriminate |].
  destruct (contains data field); [exact IH |].
  intros [= <-]. now exists field.
Qed.

Lemma parse_notification_raises data e :
  WebhookHandler.parse_notification data = Raise e ->
  (exists field, e = HTTPException 400 ("Missing required field: " ++ field))
  \/ exists msg, e = ValidationError msg.
Proof.
  unfold WebhookHandler.parse_notification.
  destruct (WebhookHandler.check_required WebhookHandler.required_fields data)
    as [[] | e0] eqn:Hrequired.
  - unfold WebhookHandler.and_then, as_str, as_optional_str.
    repeat split_match; intros [= <-]; right; eexists; reflexivity.
  - cbn. intros [= <-]. left. exact (check_required_raises _ _ _ Hrequired).
Qed.

(** X28. The webhook route adds nothing to [process_webhook] with the
    signature check on: every error reaches it as an HTTPException and is
    passed on, so its own "Failed to handle webhook" is never the answer.
    What it raises is 401 for a bad signature, 400 for a missing field, or
    500 with a detail that starts with "Failed to process webhook: ". *)
Theorem webhook_route_adds_nothing py self E data w :
  Routes.handle_webhook py self E data w
  = WebhookHandler.process_webhook py (MidtransAdapter.server_key self) E data true w /\
  forall e,
    fst (Routes.handle_webhook py self E data w) = Raise e ->
    e = HTTPException 401 "Invalid signature"
    \/ (exists field, e = HTTPException 400 ("Missing required field: " ++ field))
    \/ exists msg, e = HTTPException 500 ("Failed to process webhook: " ++ msg).
Proof.
  assert (Hraised : forall e,
             fst (WebhookHandler.process_webhook py (MidtransAdapter.server_key self) E
                    data true w) = Raise e ->
             e = HTTPException 401 "Invalid signature"
             \/ (exists field, e = HTTPException 400 ("Missing required field: " ++ field))
             \/ exists msg, e = HTTPException 500 ("Failed to process webhook: " ++ msg)).
  { intros e. unfold WebhookHandler.process_webhook, try_except.
    destruct (true && negb (WebhookHandler.verify_signature py
                               (MidtransAdapter.server_key self) data));
      [cbn; intros [= <-]; now left |].
    unfold bind at 1, lift.
    destruct (WebhookHandler.parse_notification data) as [n | e1] eqn:Hparse.
    - unfold bind at 1. rewrite db_get_payments_by_order.
      destruct (map DatabaseAdapter._payment_record_to_response _) as [| payment rest];
        [discriminate |].
      destruct (negb (status_eqb (status payment) _)); cbn; [| discriminate].
      unfold bind. rewrite db_update_payment_status.
      destruct (find_row (id payment) _); cbn; [discriminate |].
      intros [= <-]. right. right. eexists. reflexivity.
    - destruct (parse_notification_raises data e1 Hparse) as [[field ->] | [msg ->]];
        cbn; intros [= <-]; right; [left | right]; eexists; reflexivity. }
  assert (Hsame : Routes.handle_webhook py self E data w
                  = WebhookHandler.process_webhook py (MidtransAdapter.server_key self) E
                      data true w).
  { unfold Routes.handle_webhook, try_except.
    destruct (WebhookHandler.process_webhook py (MidtransAdapter.server_key self) E
                data true w) as [[answer | e] w1] eqn:Hrun; [reflexivity |].
    destruct (Hraised e eq_refl) as [-> | [[field ->] | [msg ->]]]; reflexivity. }
  split; [exact Hsame |]. rewrite Hsame. exact Hraised.
Qed.

Lemma webhook_route_adds_nothing_witness :
  fst (Routes.handle_webhook Sample.py Sample.self
         (Sample.answering (Unreachable "unused") 2000)
         (Sample.notification "settlement" JNull) (Sample.holding PENDING))
  = Raise (HTTPException 401 "Invalid signature").
Proof.
  destruct (fst (Routes.handle_webhook Sample.py Sample.self
                   (Sample.answering (Unreachable "unused") 2000)
                   (Sample.notification "settlement" JNull) (Sample.holding PENDING)))
    as [answer | e] eqn:Hrun.
  - vm_compute in Hrun. discriminate Hrun.
  - destruct (proj2 (webhook_route_adds_nothing Sample.py Sample.self
                       (Sample.answering (Unreachable "unused") 2000)
                       (Sample.notification "settlement" JNull) (Sample.holding PENDING))
                e Hrun) as [-> | [[field ->] | [msg ->]]].
    + reflexivity.
    + vm_compute in Hrun. discriminate Hrun.
    + vm_compute in Hrun. discriminate Hrun.
Defined.

(** X29. With a database that answers its query, the order route does not
    answer with an error: it returns what the storage returns for the
    order under either of its two names, one payment for each row that
    carries the order id, and the empty list for an order without rows;
    the only effect is the one query. *)
Theorem order_route_never_fails order w :
  exists payments,
    Routes.get_payments_by_order order w = (Ok payments, logged w [SelectByOrder order]) /\
    DatabaseAdapter.get_payments_by_order_id order w
    = (Ok payments, logged w [SelectByOrder order]) /\
    length payments
    = length (filter (fun r => String.eqb (PaymentRecord.order_id r) order) (table w)) /\
    ((forall r, In r (table w) -> PaymentRecord.order_id r <> order) -> payments = []).
Proof.
  exists (map DatabaseAdapter._payment_record_to_response (rows_of_order order (table w))).
  split; [| split; [| split]].
  - unfold Routes.get_payments_by_order, PaymentService.get_payments_by_order_id,
      try_except.
    now rewrite db_get_payments_by_order.
  - unfold DatabaseAdapter.get_payments_by_order_id. apply db_get_payments_by_order.
  - rewrite length_map. unfold rows_of_order.
    apply Permutation_length, order_by_permutation.
  - intros Hnone. unfold rows_of_order.
    replace (filter (fun r => String.eqb (PaymentRecord.order_id r) order) (table w))
      with (@nil PaymentRecord.t); [reflexivity |].
    symmetry. induction (table w) as [| x rows IH]; [reflexivity |]. cbn.
    destruct (String.eqb_spec (PaymentRecord.order_id x) order) as [Heq | Hne].
    + elim (Hnone x); [now left | exact Heq].
    + apply IH. intros r Hin. apply Hnone. now right.
Qed.
